(** * HeliumMiningSim: a shallow embedding of the truck / station simulator

    The development follows [src/include/main.hpp], [src/src/main.cpp] and
    [src/src/testing.cpp].  Unsigned machine integers are integers of [Z]
    with the wrap-around written out ([u16], [u64]); [std::vector] is a list
    read with [!!] and written with [<[ i := x ]>], an access out of range
    being undefined behaviour; the global random engine is threaded through
    explicitly. *)

From Stdlib Require Import ZArith Lia Ascii String.
From stdpp Require Import base numbers list.

Local Open Scope Z_scope.

(** ** Outcomes of a call *)

(** A call returns, throws [std::runtime_error], or has undefined behaviour
    (a vector read out of range, a remainder by zero). *)
Inductive Err : Type :=
  | runtime_error (what : string)
  | undefined_behaviour.

Inductive Res (A : Type) : Type :=
  | Ok (a : A)
  | Raise (e : Err).
Arguments Ok {A} a.
Arguments Raise {A} e.

Definition bind {A B : Type} (r : Res A) (k : A -> Res B) : Res B :=
  match r with
  | Ok a => k a
  | Raise e => Raise e
  end.

Notation "'let*' x ':=' e 'in' k" := (bind e (fun x => k))
  (at level 10, x pattern, e at level 100, k at level 200).

(** ** Macros of main.hpp *)

Definition TRAVEL_TIME : Z := 6.
Definition ONE_HOUR : Z := 12.
Definition FIVE_HOUR : Z := 60.
Definition MAX_TIME : Z := 864.

Definition WAITING_INC : Z := 0x0000000000000001.
Definition UNLOADING_INC : Z := 0x0000000000010000.
Definition TRAVELING_INC : Z := 0x0000000100000000.
Definition MINING_INC : Z := 0x0001000000000000.

Definition WAITING_MASK : Z := 0x000000000000FFFF.
Definition UNLOADING_MASK : Z := 0x00000000FFFF0000.
Definition TRAVELING_MASK : Z := 0x0000FFFF00000000.
Definition MINING_MASK : Z := 0xFFFF000000000000.

Definition RETRIEVE_TIME (DATA MASK SHIFT : Z) : Z :=
  Z.shiftr (Z.land DATA MASK) SHIFT.

(** Conversion to [uint16_t] and [uint64_t]. *)
Definition u16 (z : Z) : Z := z mod 2 ^ 16.
Definition u64 (z : Z) : Z := z mod 2 ^ 64.

(** ** The random source, [gen] and [rmt] of main.cpp

    [std::mt19937] and [std::uniform_int_distribution] belong to the C++
    library.  The engine is a sequence of raw outputs and a read position;
    the distribution [rmt(ONE_HOUR, FIVE_HOUR)] folds a raw output into the
    closed range it is constructed with, which is the guarantee the standard
    gives for it. *)
Record Gen : Type := mkGen { raw : nat -> Z; pos : nat }.

Definition rmt (g : Gen) : Z * Gen :=
  (ONE_HOUR + raw g (pos g) mod (FIVE_HOUR - ONE_HOUR + 1),
   mkGen (raw g) (S (pos g))).

(** ** Station *)

Module Station.

Record t : Type := mk { queue : Z; num_trucks_unloaded : Z }.

Definition new : t := mk 0 0.

Definition get_queue (s : t) : Z := queue s.

Definition increment_queue (s : t) : t :=
  mk (u16 (queue s + 1)) (num_trucks_unloaded s).

Definition decrement_queue (s : t) : t :=
  mk (u16 (queue s - (if 0 <? queue s then 1 else 0)))
     (num_trucks_unloaded s).

Definition increment_trucks_unloaded (s : t) : t :=
  mk (queue s) (u16 (num_trucks_unloaded s + 1)).

End Station.

(** The mutating methods of a station, to speak of sequences of calls. *)
Inductive StationOp : Type :=
  | OpIncrementQueue
  | OpDecrementQueue
  | OpIncrementTrucksUnloaded.

Definition do_op (st : Station.t) (o : StationOp) : Station.t :=
  match o with
  | OpIncrementQueue => Station.increment_queue st
  | OpDecrementQueue => Station.decrement_queue st
  | OpIncrementTrucksUnloaded => Station.increment_trucks_unloaded st
  end.

Definition do_ops (ops : list StationOp) (st : Station.t) : Station.t :=
  fold_left do_op ops st.

(** ** Truck *)

Inductive TruckState : Type :=
  | Mining
  | TravelStation
  | Waiting
  | Unloading
  | TravelMining.

#[global] Instance TruckState_eq_dec : EqDecision TruckState.
Proof. solve_decision. Defined.

Module Truck.

Record t : Type := mk {
  state : TruckState;
  timer : Z;
  total_time : Z;
  station_idx : nat
}.

(** [Truck::Truck()]: the timer is drawn from the shared source. *)
Definition new (g : Gen) : t * Gen :=
  let '(d, g') := rmt g in
  (mk Mining (u16 d) 0 0, g').

Definition get_total_time (tr : t) : Z := total_time tr.

(** [Truck::run(stations, curr_idx)].  The two reference parameters and the
    global engine are returned next to the truck.  [state] ranges over the
    five enumerators, so the final [else] of the source (the throw) has no
    case here. *)
Definition run (tr : t) (stations : list Station.t) (curr_idx : nat)
    (g : Gen) : Res (t * list Station.t * nat * Gen) :=
  match state tr with
  | Mining =>
      let timer1 := u16 (timer tr - 1) in
      let total1 := u64 (total_time tr + MINING_INC) in
      if timer1 =? 0
      then Ok (mk TravelStation TRAVEL_TIME total1 (station_idx tr),
               stations, curr_idx, g)
      else Ok (mk Mining timer1 total1 (station_idx tr),
               stations, curr_idx, g)
  | TravelStation =>
      let timer1 := u16 (timer tr - 1) in
      let total1 := u64 (total_time tr + TRAVELING_INC) in
      if timer1 =? 0
      then
        match stations !! curr_idx with
        | None => Raise undefined_behaviour
        | Some s =>
            let timer2 := Station.get_queue s in
            let stations1 :=
              <[curr_idx := Station.increment_queue s]> stations in
            let curr1 := ((curr_idx + 1) mod length stations1)%nat in
            Ok (mk (if timer2 =? 0 then Unloading else Waiting)
                   timer2 total1 curr_idx,
                stations1, curr1, g)
        end
      else Ok (mk TravelStation timer1 total1 (station_idx tr),
               stations, curr_idx, g)
  | Waiting =>
      let timer1 := u16 (timer tr - 1) in
      let total1 := u64 (total_time tr + WAITING_INC) in
      if timer1 =? 0
      then Ok (mk Unloading timer1 total1 (station_idx tr),
               stations, curr_idx, g)
      else Ok (mk Waiting timer1 total1 (station_idx tr),
               stations, curr_idx, g)
  | Unloading =>
      let total1 := u64 (total_time tr + UNLOADING_INC) in
      match stations !! station_idx tr with
      | None => Raise undefined_behaviour
      | Some s =>
          Ok (mk TravelMining TRAVEL_TIME total1 (station_idx tr),
              <[station_idx tr := Station.increment_trucks_unloaded s]>
                stations,
              curr_idx, g)
      end
  | TravelMining =>
      let timer1 := u16 (timer tr - 1) in
      let total1 := u64 (total_time tr + TRAVELING_INC) in
      if timer1 =? 0
      then
        let '(d, g') := rmt g in
        Ok (mk Mining (u16 d) total1 (station_idx tr),
            stations, curr_idx, g')
      else Ok (mk TravelMining timer1 total1 (station_idx tr),
               stations, curr_idx, g)
  end.

End Truck.

(** ** The consistency checks of testing.cpp *)

(** [std::min_element] with the comparator on [get_queue]: the first of the
    smallest elements; on an empty range there is none. *)
Definition min_element (l : list Station.t) : option Station.t :=
  match l with
  | [] => None
  | s :: rest =>
      Some (fold_left
              (fun m x =>
                 if Station.get_queue x <? Station.get_queue m then x else m)
              rest s)
  end.

Definition compare_idx_val_to_actual_min (stations : list Station.t)
    (curr_idx : nat) : Res unit :=
  match min_element stations, stations !! curr_idx with
  | Some m, Some s =>
      if negb (Station.get_queue m =? Station.get_queue s)
      then Raise (runtime_error
                    "The station with the shortest wait time was not found")
      else Ok tt
  | _, _ => Raise undefined_behaviour
  end.

Definition cumulative_time (total_time : Z) : Z :=
  u64 (RETRIEVE_TIME total_time WAITING_MASK 0 +
       RETRIEVE_TIME total_time UNLOADING_MASK 16 +
       RETRIEVE_TIME total_time TRAVELING_MASK 32 +
       RETRIEVE_TIME total_time MINING_MASK 48).

Definition compare_total_time_to_max_time (truck : Truck.t) (max_time : Z)
    : Res unit :=
  if negb (cumulative_time (Truck.get_total_time truck) =? max_time)
  then Raise (runtime_error "Truck time does not match simulation time")
  else Ok tt.

(** ** Simulation *)

Module Simulation.

Record t : Type := mk {
  curr_station_idx : nat;
  total_time : Z;
  debug : bool;
  stations : list Station.t;
  trucks : list Truck.t
}.

(** [trucks(num_trucks)]: the trucks are constructed one after the other,
    each drawing its first mining time. *)
Fixpoint make_trucks (n : nat) (g : Gen) : list Truck.t * Gen :=
  match n with
  | O => ([], g)
  | S n' =>
      let '(tr, g1) := Truck.new g in
      let '(rest, g2) := make_trucks n' g1 in
      (tr :: rest, g2)
  end.

(** [Simulation::Simulation(num_trucks, num_stations, debug)]; the two
    counts are [uint16_t]. *)
Definition new (num_trucks num_stations : nat) (dbg : bool) (g : Gen)
    : t * Gen :=
  let '(trs, g') := make_trucks num_trucks g in
  (mk 0 (u16 MAX_TIME) dbg (replicate num_stations Station.new) trs, g').

(** The [for (auto& truck : trucks)] loop of one tick. *)
Fixpoint for_each_truck (dbg : bool) (trs : list Truck.t)
    (sts : list Station.t) (idx : nat) (g : Gen)
    : Res (list Truck.t * list Station.t * nat * Gen) :=
  match trs with
  | [] => Ok ([], sts, idx, g)
  | truck :: rest =>
      let* (truck1, sts1, idx1, g1) := Truck.run truck sts idx g in
      let* _ := (if dbg then compare_idx_val_to_actual_min sts1 idx1
                 else Ok tt) in
      let* (rest1, sts2, idx2, g2) := for_each_truck dbg rest sts1 idx1 g1 in
      Ok (truck1 :: rest1, sts2, idx2, g2)
  end.

(** One iteration of [while (sim_time)]. *)
Definition tick (s : t) (g : Gen) : Res (t * Gen) :=
  let* (trs1, sts1, idx1, g1) :=
    for_each_truck (debug s) (trucks s) (stations s) (curr_station_idx s) g in
  Ok (mk idx1 (total_time s) (debug s)
         (map Station.decrement_queue sts1) trs1, g1).

Fixpoint while_sim_time (sim_time : nat) (s : t) (g : Gen) : Res (t * Gen) :=
  match sim_time with
  | O => Ok (s, g)
  | S sim_time' =>
      let* (s1, g1) := tick s g in
      while_sim_time sim_time' s1 g1
  end.

(** The logging loop: printing has no effect on the state; in debug mode
    each truck is checked against [MAX_TIME]. *)
Fixpoint logging_trucks (dbg : bool) (trs : list Truck.t) : Res unit :=
  match trs with
  | [] => Ok tt
  | truck :: rest =>
      let* _ := (if dbg then compare_total_time_to_max_time truck MAX_TIME
                 else Ok tt) in
      logging_trucks dbg rest
  end.

Definition run_sim (s : t) (g : Gen) : Res (t * Gen) :=
  let* (s1, g1) := while_sim_time (Z.to_nat (total_time s)) s g in
  let* _ := logging_trucks (debug s1) (trucks s1) in
  Ok (s1, g1).

End Simulation.

(** ** The four fields of the packed ledger *)

Inductive Field : Type := FWaiting | FUnloading | FTraveling | FMining.

Definition INC (f : Field) : Z :=
  match f with
  | FWaiting => WAITING_INC
  | FUnloading => UNLOADING_INC
  | FTraveling => TRAVELING_INC
  | FMining => MINING_INC
  end.

Definition MASK (f : Field) : Z :=
  match f with
  | FWaiting => WAITING_MASK
  | FUnloading => UNLOADING_MASK
  | FTraveling => TRAVELING_MASK
  | FMining => MINING_MASK
  end.

Definition SHIFT (f : Field) : Z :=
  match f with
  | FWaiting => 0
  | FUnloading => 16
  | FTraveling => 32
  | FMining => 48
  end.

(** The field as [Truck::logging] and [compare_total_time_to_max_time] read
    it. *)
Definition ledger (f : Field) (total_time : Z) : Z :=
  RETRIEVE_TIME total_time (MASK f) (SHIFT f).

(** The field [Truck::run] adds to in each state. *)
Definition charged (st : TruckState) : Field :=
  match st with
  | Mining => FMining
  | TravelStation => FTraveling
  | Waiting => FWaiting
  | Unloading => FUnloading
  | TravelMining => FTraveling
  end.

Definition Field_eqb (f f' : Field) : bool :=
  match f, f' with
  | FWaiting, FWaiting | FUnloading, FUnloading
  | FTraveling, FTraveling | FMining, FMining => true
  | _, _ => false
  end.

Definition ledger_sum (total_time : Z) : Z :=
  ledger FWaiting total_time + ledger FUnloading total_time +
  ledger FTraveling total_time + ledger FMining total_time.

(** Four 16-bit digits laid out as the header draws them. *)
Definition pack (w u t m : Z) : Z :=
  w + 2 ^ 16 * u + 2 ^ 32 * t + 2 ^ 48 * m.

Definition digit (z : Z) : Prop := 0 <= z < 65536.

(** ** Snapshots of [run_sim]

    The state of the nested loops of [run_sim] between two calls: the ticks
    still to run ([sim_time]), the trucks that have moved in the current
    tick, those that have not yet, the stations, the dispatcher cursor and
    the engine. *)
Record Snapshot : Type := mkSnap {
  remaining : nat;
  moved : list Truck.t;
  pending : list Truck.t;
  sts : list Station.t;
  cursor : nat;
  rng : Gen;
  dbg : bool
}.

(** One call of [Truck::run] (with its check in debug mode), or, once every
    truck has moved, the decrement of all queues that ends the tick.  After
    the last tick nothing moves any more. *)
Definition step (c : Snapshot) : Res Snapshot :=
  match remaining c with
  | O => Ok c
  | S r =>
      match pending c with
      | truck :: rest =>
          let* (truck1, sts1, idx1, g1) :=
            Truck.run truck (sts c) (cursor c) (rng c) in
          let* _ := (if dbg c then compare_idx_val_to_actual_min sts1 idx1
                     else Ok tt) in
          Ok (mkSnap (S r) (moved c ++ [truck1]) rest sts1 idx1 g1 (dbg c))
      | [] =>
          Ok (mkSnap r [] (moved c)
                (map Station.decrement_queue (sts c)) (cursor c) (rng c)
                (dbg c))
      end
  end.

Fixpoint steps (k : nat) (c : Snapshot) : Res Snapshot :=
  match k with
  | O => Ok c
  | S k' => let* c1 := step c in steps k' c1
  end.

Definition snapshot_of (r : nat) (s : Simulation.t) (g : Gen) : Snapshot :=
  mkSnap r [] (Simulation.trucks s) (Simulation.stations s)
    (Simulation.curr_station_idx s) g (Simulation.debug s).

Definition start (num_trucks num_stations : nat) (d : bool) (g : Gen)
    : Snapshot :=
  let '(s, g') := Simulation.new num_trucks num_stations d g in
  snapshot_of (Z.to_nat (Simulation.total_time s)) s g'.

(** The states the simulation of [num_trucks] trucks and [num_stations]
    stations passes through. *)
Definition reachable (num_trucks num_stations : nat) (d : bool) (g : Gen)
    (c : Snapshot) : Prop :=
  exists k, steps k (start num_trucks num_stations d g) = Ok c.

(** Ticks completed so far. *)
Definition elapsed (c : Snapshot) : Z := MAX_TIME - Z.of_nat (remaining c).

(** ** The schedule of a run, in the words of the specification

    Per tick every truck's transition function is invoked once, in insertion
    order, then every station's queue is decremented once; the run is that,
    once per tick of the horizon. *)
Inductive Event : Type :=
  | EvRun (i : nat)
  | EvDec (j : nat).

Definition tick_schedule (num_trucks num_stations : nat) : list Event :=
  map EvRun (seq 0 num_trucks) ++ map EvDec (seq 0 num_stations).

Definition schedule (num_trucks num_stations ticks : nat) : list Event :=
  concat (replicate ticks (tick_schedule num_trucks num_stations)).

(** What one event does to the simulation: [EvRun i] is the call
    [trucks[i].run(stations, curr_station_idx)] with its check in debug mode,
    [EvDec j] the call [stations[j].decrement_queue()]. *)
Definition do_event (e : Event) (w : Simulation.t * Gen)
    : Res (Simulation.t * Gen) :=
  let '(s, g) := w in
  match e with
  | EvRun i =>
      match Simulation.trucks s !! i with
      | None => Raise undefined_behaviour
      | Some truck =>
          let* (truck1, sts1, idx1, g1) :=
            Truck.run truck (Simulation.stations s)
              (Simulation.curr_station_idx s) g in
          let* _ := (if Simulation.debug s
                     then compare_idx_val_to_actual_min sts1 idx1
                     else Ok tt) in
          Ok (Simulation.mk idx1 (Simulation.total_time s)
                (Simulation.debug s) sts1
                (<[i := truck1]> (Simulation.trucks s)), g1)
      end
  | EvDec j =>
      match Simulation.stations s !! j with
      | None => Raise undefined_behaviour
      | Some st =>
          Ok (Simulation.mk (Simulation.curr_station_idx s)
                (Simulation.total_time s) (Simulation.debug s)
                (<[j := Station.decrement_queue st]> (Simulation.stations s))
                (Simulation.trucks s), g)
      end
  end.

Fixpoint do_events (es : list Event) (w : Simulation.t * Gen)
    : Res (Simulation.t * Gen) :=
  match es with
  | [] => Ok w
  | e :: rest => let* w1 := do_event e w in do_events rest w1
  end.

(** ** Repeated calls on one truck *)

Fixpoint run_times (k : nat) (tr : Truck.t) (stations : list Station.t)
    (curr_idx : nat) (g : Gen) : Res (Truck.t * list Station.t * nat * Gen) :=
  match k with
  | O => Ok (tr, stations, curr_idx, g)
  | S k' =>
      let* (tr1, sts1, idx1, g1) := Truck.run tr stations curr_idx g in
      run_times k' tr1 sts1 idx1 g1
  end.

(** ** The mining durations a random source yields *)

Definition duration (g : Gen) (k : nat) : Z :=
  fst (rmt (mkGen (raw g) (pos g + k))).

Definition same_durations (g1 g2 : Gen) : Prop :=
  forall k, duration g1 k = duration g2 k.

(** Two outcomes that agree on everything but the engine, the engines left
    yielding the same durations. *)
Definition same_outcome {A : Type} (r1 r2 : Res (A * Gen)) : Prop :=
  match r1, r2 with
  | Ok (a1, g1), Ok (a2, g2) => a1 = a2 /\ same_durations g1 g2
  | Raise e1, Raise e2 => e1 = e2
  | _, _ => False
  end.

(** ** Sample runs *)

(** A source whose every draw is one hour. *)
Definition hourly : Gen := mkGen (fun _ => 0) 0.

(** The snapshot [k] steps into a run. *)
Definition snapshot_at (k : nat) (num_trucks num_stations : nat) (d : bool)
    (g : Gen) : Snapshot :=
  match steps k (start num_trucks num_stations d g) with
  | Ok c => c
  | Raise _ => start num_trucks num_stations d g
  end.

(** Three trucks and two stations, all trucks mining one hour: in tick 18
    all three arrive; here the first two have been assigned. *)
Definition two_assigned : Snapshot := snapshot_at (17 * 4 + 2) 3 2 true hourly.

(** Two trucks and one station: in tick 18 the first truck has been assigned
    the empty station and the second is about to arrive. *)
Definition second_arrives : Snapshot := snapshot_at (17 * 3 + 1) 2 1 true hourly.

(** The same run at the start of tick 19: the first truck unloads. *)
Definition first_unloads : Snapshot := snapshot_at (18 * 3) 2 1 true hourly.

(** ** Quantities of the invariant *)

(** Ticks a truck still occupies its station for, counted at the end of the
    current tick: for a truck that has moved in this tick, and for one that
    has not. *)
Definition rank_moved (s : nat) (tr : Truck.t) : Z :=
  match Truck.state tr with
  | Waiting => if (Truck.station_idx tr =? s)%nat then Truck.timer tr + 1 else 0
  | Unloading => if (Truck.station_idx tr =? s)%nat then 1 else 0
  | _ => 0
  end.

Definition rank_pending (s : nat) (tr : Truck.t) : Z :=
  match Truck.state tr with
  | Waiting => if (Truck.station_idx tr =? s)%nat then Truck.timer tr else 0
  | _ => 0
  end.

Fixpoint occ (v : Z) (l : list Z) : nat :=
  match l with
  | [] => O
  | x :: rest => ((if (x =? v)%Z then 1 else 0) + occ v rest)%nat
  end.

Definition ranks (s : nat) (mv pd : list Truck.t) : list Z :=
  map (rank_moved s) mv ++ map (rank_pending s) pd.

(** Trucks of a list about to unload at station [s]. *)
Fixpoint unloading_at (s : nat) (l : list Truck.t) : Z :=
  match l with
  | [] => 0
  | tr :: rest =>
      (match Truck.state tr with
       | Unloading => if (Truck.station_idx tr =? s)%nat then 1 else 0
       | _ => 0
       end) + unloading_at s rest
  end.

Fixpoint sumZ (l : list Z) : Z :=
  match l with
  | [] => 0
  | x :: rest => x + sumZ rest
  end.

Definition unloads_of (tr : Truck.t) : Z :=
  ledger FUnloading (Truck.total_time tr).

(** Least number of calls since the truck last left the Unloading state (or
    since a fictitious departure six ticks before the start). *)
Definition progress (tr : Truck.t) : Z :=
  match Truck.state tr with
  | TravelMining => Z.max 0 (TRAVEL_TIME - Truck.timer tr)
  | Mining => TRAVEL_TIME + Z.max 0 (ONE_HOUR - Truck.timer tr)
  | TravelStation =>
      TRAVEL_TIME + ONE_HOUR + Z.max 0 (TRAVEL_TIME - Truck.timer tr)
  | Waiting | Unloading => TRAVEL_TIME + ONE_HOUR + TRAVEL_TIME
  end.

(** Shortest full cycle: mine one hour, travel, unload one tick, travel. *)
Definition MIN_CYCLE : Z := ONE_HOUR + TRAVEL_TIME + 1 + TRAVEL_TIME.

(** A truck that [Truck::run] has been called on [calls] times. *)
Record truck_ok (m : nat) (calls : Z) (tr : Truck.t) : Prop := {
  ok_station : (Truck.station_idx tr < m)%nat;
  ok_timer : 0 <= Truck.timer tr < 65536;
  ok_timer_pos : Truck.state tr <> Unloading -> 1 <= Truck.timer tr;
  ok_total : 0 <= Truck.total_time tr < 2 ^ 64;
  ok_sum : ledger_sum (Truck.total_time tr) = calls;
  ok_cycle : MIN_CYCLE * unloads_of tr + progress tr <= calls + TRAVEL_TIME
}.
Arguments ok_station {m calls tr} _.
Arguments ok_timer {m calls tr} _.
Arguments ok_timer_pos {m calls tr} _ _.
Arguments ok_total {m calls tr} _.
Arguments ok_sum {m calls tr} _.
Arguments ok_cycle {m calls tr} _.

(** The queues read from the cursor onwards, cyclically, are some [k]s
    followed by [k + 1]s. *)
Definition cyclic_steps (qs : list Z) (idx : nat) : Prop :=
  exists (k : Z) (a b : nat),
    (1 <= a)%nat /\ 0 <= k /\
    drop idx qs ++ take idx qs = replicate a k ++ replicate b (k + 1).

Definition round_robin (stations : list Station.t) (idx : nat) : Prop :=
  cyclic_steps (map Station.queue stations) idx.

Record Inv (n m : nat) (T : Z) (mv pd : list Truck.t)
    (stations : list Station.t) (idx : nat) : Prop := {
  inv_T : 0 <= T <= MAX_TIME;
  inv_stations : length stations = m;
  inv_idx : (idx < m)%nat;
  inv_trucks : (length mv + length pd)%nat = n;
  inv_fleet : Z.of_nat n <= 65535;
  inv_moved : Forall (truck_ok m (T + 1)) mv;
  inv_pending : Forall (truck_ok m T) pd;
  inv_queue : forall s st, stations !! s = Some st ->
      0 <= Station.queue st < 65536;
  inv_rank : forall s st v, stations !! s = Some st -> 1 <= v ->
      occ v (ranks s mv pd) = if v <=? Station.queue st then 1%nat else 0%nat;
  inv_round_robin : round_robin stations idx;
  inv_unloaded : forall s st, stations !! s = Some st ->
      0 <= Station.num_trucks_unloaded st /\
      Station.num_trucks_unloaded st + unloading_at s pd <= T + 1;
  inv_sum : sumZ (map Station.num_trucks_unloaded stations) =
            sumZ (map unloads_of (mv ++ pd))
}.
Arguments inv_T {n m T mv pd stations idx} _.
Arguments inv_stations {n m T mv pd stations idx} _.
Arguments inv_idx {n m T mv pd stations idx} _.
Arguments inv_trucks {n m T mv pd stations idx} _.
Arguments inv_fleet {n m T mv pd stations idx} _.
Arguments inv_moved {n m T mv pd stations idx} _.
Arguments inv_pending {n m T mv pd stations idx} _.
Arguments inv_queue {n m T mv pd stations idx} _ _ _ _.
Arguments inv_rank {n m T mv pd stations idx} _ _ _ _ _ _.
Arguments inv_round_robin {n m T mv pd stations idx} _.
Arguments inv_unloaded {n m T mv pd stations idx} _ _ _ _.
Arguments inv_sum {n m T mv pd stations idx} _.

Definition Inv_snapshot (n m : nat) (c : Snapshot) : Prop :=
  Inv n m (elapsed c) (moved c) (pending c) (sts c) (cursor c).

(** ** Further quantities *)

(** [x] is the station of [l] at index [i], the first one whose queue is the
    shortest. *)
Definition first_shortest (l : list Station.t) (i : nat) (x : Station.t)
    : Prop :=
  l !! i = Some x /\
  (forall j y, l !! j = Some y -> Station.queue x <= Station.queue y) /\
  (forall j y, (j < i)%nat -> l !! j = Some y ->
     Station.queue x < Station.queue y).

(** Trucks of a list that pass a test. *)
Fixpoint count_trucks (p : Truck.t -> bool) (l : list Truck.t) : Z :=
  match l with
  | [] => 0
  | tr :: rest => (if p tr then 1 else 0) + count_trucks p rest
  end.

(** The truck is in the queue of station [s], or being unloaded there. *)
Definition queued_or_served (s : nat) (tr : Truck.t) : bool :=
  (Truck.station_idx tr =? s)%nat &&
  match Truck.state tr with
  | Waiting | Unloading => true
  | _ => false
  end.

(** The truck is in the queue of station [s]. *)
Definition queued (s : nat) (tr : Truck.t) : bool :=
  (Truck.station_idx tr =? s)%nat &&
  match Truck.state tr with
  | Waiting => true
  | _ => false
  end.

(** The truck is in its Unloading tick at station [s]. *)
Definition served (s : nat) (tr : Truck.t) : bool :=
  (Truck.station_idx tr =? s)%nat &&
  match Truck.state tr with
  | Unloading => true
  | _ => false
  end.

(** The arrows of the truck's cycle: a state, and a state one call later. *)
Definition may_follow (st st' : TruckState) : bool :=
  match st, st' with
  | Mining, (Mining | TravelStation) => true
  | TravelStation, (TravelStation | Waiting | Unloading) => true
  | Waiting, (Waiting | Unloading) => true
  | Unloading, TravelMining => true
  | TravelMining, (TravelMining | Mining) => true
  | _, _ => false
  end.

(** The call is the one that ends the travel to the stations. *)
Definition arrives (tr : Truck.t) : Prop :=
  Truck.state tr = TravelStation /\ u16 (Truck.timer tr - 1) = 0.

(** Elements of a list between 1 and [k]. *)
Fixpoint count_upto (k : Z) (l : list Z) : Z :=
  match l with
  | [] => 0
  | x :: rest =>
      (if (1 <=? x) && (x <=? k) then 1 else 0) + count_upto k rest
  end.

(** A truck that has never been in Waiting. *)
Definition never_waited (tr : Truck.t) : Prop :=
  Truck.state tr <> Waiting /\ ledger FWaiting (Truck.total_time tr) = 0.

(** The same simulation with another debug flag. *)
Definition with_debug (d : bool) (s : Simulation.t) : Simulation.t :=
  Simulation.mk (Simulation.curr_station_idx s) (Simulation.total_time s) d
    (Simulation.stations s) (Simulation.trucks s).

(** What a run returns, for a run that returns. *)
Definition finished (num_trucks num_stations : nat) (d : bool) (g : Gen)
    : Simulation.t * Gen :=
  match Simulation.run_sim (fst (Simulation.new num_trucks num_stations d g))
          (snd (Simulation.new num_trucks num_stations d g)) with
  | Ok w => w
  | Raise _ => Simulation.new num_trucks num_stations d g
  end.

(** ** The command line of main.cpp

    Standard input is the list of the lines [std::getline] will read; what
    is printed is left out. When the lines run out [std::getline] fails and
    leaves [input] as it was, empty or a line that has been rejected, so the
    loops of the three functions below prompt again for ever. [int] has 32
    bits, and a character outside ASCII is no digit. *)

(** [isdigit] on a character of the line (the "C" locale). *)
Definition isdigit (c : ascii) : bool :=
  (48 <=? Z.of_N (N_of_ascii c)) && (Z.of_N (N_of_ascii c) <=? 57).

(** The guard of [std::stoi]: the line is not empty and [std::find_if] finds
    no character that is not a digit. *)
Definition numeric (input : string) : bool :=
  negb (String.eqb input EmptyString) &&
  forallb isdigit (list_ascii_of_string input).

Definition INT_MAX : Z := 2147483647.

(** The number a line of digits spells in base ten. *)
Definition decimal (input : string) : Z :=
  fold_left (fun acc c => 10 * acc + (Z.of_N (N_of_ascii c) - 48))
    (list_ascii_of_string input) 0.

(** [std::stoi] on a line of digits: the number, or nothing when it does not
    fit [int] and [std::out_of_range] is thrown. *)
Definition stoi (input : string) : option Z :=
  if decimal input <=? INT_MAX then Some (decimal input) else None.

(** How a prompt ends: with an answer and the lines not yet read; with the
    [std::out_of_range] of [std::stoi], which nothing catches; or never,
    the input being exhausted. *)
Inductive Prompt (A : Type) : Type :=
  | Answer (a : A) (rest : list string)
  | Out_of_range
  | No_more_input.
Arguments Answer {A} a rest.
Arguments Out_of_range {A}.
Arguments No_more_input {A}.

(** [get_command_line_input(uint16_t& value, prompt)]. *)
Fixpoint get_command_line_input (stdin : list string) : Prompt Z :=
  match stdin with
  | [] => No_more_input
  | input :: rest =>
      if numeric input
      then
        match stoi input with
        | None => Out_of_range
        | Some num =>
            if (0 <? num) && (num <? 65536)
            then Answer (u16 num) rest
            else get_command_line_input rest
        end
      else get_command_line_input rest
  end.

(** [get_command_line_input(bool& value, prompt)]. *)
Fixpoint get_command_line_input_bool (stdin : list string) : Prompt bool :=
  match stdin with
  | [] => No_more_input
  | input :: rest =>
      if numeric input
      then
        match stoi input with
        | None => Out_of_range
        | Some num =>
            if num =? 1 then Answer true rest
            else if num =? 0 then Answer false rest
            else get_command_line_input_bool rest
        end
      else get_command_line_input_bool rest
  end.

(** [prompt_to_continue()]. *)
Fixpoint prompt_to_continue (stdin : list string) : Prompt bool :=
  match stdin with
  | [] => No_more_input
  | input :: rest =>
      if String.eqb input "y" || String.eqb input "Y" then Answer true rest
      else if String.eqb input "n" || String.eqb input "N"
      then Answer false rest
      else prompt_to_continue rest
  end.

(** How [main] ends: it returns, after the simulations it has run; it is
    terminated by the exception of [std::stoi]; it prompts for ever; or a
    simulation fails. The last case is for a recursion that is cut short. *)
Inductive Exit : Type :=
  | Returned (code : Z) (runs : list Simulation.t)
  | Terminated_out_of_range (runs : list Simulation.t)
  | Prompting_for_ever (runs : list Simulation.t)
  | Simulation_failed (e : Err) (runs : list Simulation.t)
  | Out_of_fuel.

Definition prompted {A : Type} (p : Prompt A) (runs : list Simulation.t)
    (k : A -> list string -> Exit) : Exit :=
  match p with
  | Answer a rest => k a rest
  | Out_of_range => Terminated_out_of_range runs
  | No_more_input => Prompting_for_ever runs
  end.

(** The [while (true)] of [main]; every iteration reads at least four
    lines, and [fuel] bounds the iterations. [runs] collects the simulations
    that have been run and logged. *)
Fixpoint main_loop (fuel : nat) (stdin : list string) (g : Gen)
    (runs : list Simulation.t) : Exit :=
  match fuel with
  | O => Out_of_fuel
  | S fuel' =>
      prompted (get_command_line_input stdin) runs (fun num_trucks rest1 =>
      prompted (get_command_line_input rest1) runs (fun num_stations rest2 =>
      prompted (get_command_line_input_bool rest2) runs (fun debug rest3 =>
        let '(mining_sim, g1) :=
          Simulation.new (Z.to_nat num_trucks) (Z.to_nat num_stations)
            debug g in
        match Simulation.run_sim mining_sim g1 with
        | Raise e => Simulation_failed e runs
        | Ok (s1, g2) =>
            prompted (prompt_to_continue rest3) (runs ++ [s1])
              (fun again rest4 =>
                 if again then main_loop fuel' rest4 g2 (runs ++ [s1])
                 else Returned 0 (runs ++ [s1]))
        end)))
  end.

(** [main()], the engine seeded with [g]. *)
Definition main (stdin : list string) (g : Gen) : Exit :=
  main_loop (S (length stdin)) stdin g [].

(** A line the prompt for a count reads and rejects. *)
Definition rejected_count (input : string) : Prop :=
  numeric input = false \/
  (decimal input <= INT_MAX /\ ~ (1 <= decimal input <= 65535)).

(** A line the prompt for the debug flag reads and rejects. *)
Definition rejected_flag (input : string) : Prop :=
  numeric input = false \/
  (decimal input <= INT_MAX /\ decimal input <> 0 /\ decimal input <> 1).

(** A line [prompt_to_continue] reads and rejects. *)
Definition rejected_answer (input : string) : Prop :=
  input <> "y"%string /\ input <> "Y"%string /\
  input <> "n"%string /\ input <> "N"%string.

(** A simulation as [main] leaves it after [run_sim]: the fleet and the
    stations are as many as the prompts allow, the clock is at the horizon
    and the ledger of every truck adds up to the horizon. *)
Definition complete_run (s : Simulation.t) : Prop :=
  Simulation.total_time s = MAX_TIME /\
  (1 <= length (Simulation.trucks s))%nat /\
  Z.of_nat (length (Simulation.trucks s)) <= 65535 /\
  (1 <= length (Simulation.stations s))%nat /\
  Z.of_nat (length (Simulation.stations s)) <= 65535 /\
  forall truck, truck ∈ Simulation.trucks s ->
    ledger_sum (Truck.get_total_time truck) = MAX_TIME.

(** The exit of a program that has run [s] before going on as [e] says. *)
Definition after (s : Simulation.t) (e : Exit) : Exit :=
  match e with
  | Returned code runs => Returned code (s :: runs)
  | Terminated_out_of_range runs => Terminated_out_of_range (s :: runs)
  | Prompting_for_ever runs => Prompting_for_ever (s :: runs)
  | Simulation_failed err runs => Simulation_failed err (s :: runs)
  | Out_of_fuel => Out_of_fuel
  end.

(** The truck the default constructor builds from the [i]-th number the
    engine gives from [g] on. *)
Definition nth_truck (g : Gen) (i : nat) : Truck.t :=
  Truck.mk Mining (fst (rmt (mkGen (raw g) (pos g + i)))) 0 0.

(** * Properties *)

(** ** Machine arithmetic *)

Lemma u16_small z : 0 <= z < 65536 -> u16 z = z.
Proof. intros H. unfold u16. apply Z.mod_small. lia. Qed.

Lemma u16_range z : 0 <= u16 z < 65536.
Proof. unfold u16. apply Z.mod_pos_bound. lia. Qed.

Lemma u64_small z : 0 <= z < 2 ^ 64 -> u64 z = z.
Proof. intros H. unfold u64. apply Z.mod_small. lia. Qed.

Lemma ledger_div_mod f x :
  ledger f x = (x / 2 ^ SHIFT f) mod 2 ^ 16.
Proof.
  unfold ledger, RETRIEVE_TIME.
  rewrite Z.shiftr_land.
  replace (Z.shiftr (MASK f) (SHIFT f)) with (Z.ones 16)
    by (destruct f; reflexivity).
  rewrite Z.land_ones by lia.
  rewrite Z.shiftr_div_pow2 by (destruct f; simpl; lia).
  reflexivity.
Qed.

Lemma ledger_range f x : 0 <= ledger f x < 65536.
Proof. rewrite ledger_div_mod. apply Z.mod_pos_bound. lia. Qed.

(** The bounds of the four fields of [x], for [lia]. *)
Ltac ledger_ranges x :=
  pose proof (ledger_range FWaiting x);
  pose proof (ledger_range FUnloading x);
  pose proof (ledger_range FTraveling x);
  pose proof (ledger_range FMining x).

Lemma pack_range w u t m :
  digit w -> digit u -> digit t -> digit m -> 0 <= pack w u t m < 2 ^ 64.
Proof. unfold digit, pack. lia. Qed.

Lemma ledger_pack w u t m f :
  digit w -> digit u -> digit t -> digit m ->
  ledger f (pack w u t m) =
    match f with FWaiting => w | FUnloading => u | FTraveling => t | FMining => m end.
Proof.
  unfold digit, pack. intros Hw Hu Ht Hm.
  rewrite ledger_div_mod.
  destruct f; simpl SHIFT.
  - change (2 ^ 0) with 1. rewrite Z.div_1_r.
    replace (w + 2 ^ 16 * u + 2 ^ 32 * t + 2 ^ 48 * m)
      with (w + (u + 2 ^ 16 * t + 2 ^ 32 * m) * 2 ^ 16) by lia.
    rewrite Z.mod_add by lia. apply Z.mod_small. lia.
  - replace (w + 2 ^ 16 * u + 2 ^ 32 * t + 2 ^ 48 * m)
      with (w + (u + (t + 2 ^ 16 * m) * 2 ^ 16) * 2 ^ 16) by lia.
    rewrite Z.div_add by lia. rewrite (Z.div_small w) by lia.
    rewrite Z.add_0_l, Z.mod_add by lia. apply Z.mod_small. lia.
  - replace (w + 2 ^ 16 * u + 2 ^ 32 * t + 2 ^ 48 * m)
      with (w + 2 ^ 16 * u + (t + m * 2 ^ 16) * 2 ^ 32) by lia.
    rewrite Z.div_add by lia. rewrite (Z.div_small (w + 2 ^ 16 * u)) by lia.
    rewrite Z.add_0_l, Z.mod_add by lia. apply Z.mod_small. lia.
  - replace (w + 2 ^ 16 * u + 2 ^ 32 * t + 2 ^ 48 * m)
      with (w + 2 ^ 16 * u + 2 ^ 32 * t + m * 2 ^ 48) by lia.
    rewrite Z.div_add by lia.
    rewrite (Z.div_small (w + 2 ^ 16 * u + 2 ^ 32 * t)) by lia.
    rewrite Z.add_0_l. apply Z.mod_small. lia.
Qed.

Lemma pack_ledger x :
  0 <= x < 2 ^ 64 ->
  x = pack (ledger FWaiting x) (ledger FUnloading x)
           (ledger FTraveling x) (ledger FMining x).
Proof.
  intros Hx. rewrite !ledger_div_mod. simpl SHIFT. unfold pack.
  change (2 ^ 0) with 1. rewrite Z.div_1_r.
  pose proof (Z.div_mod x (2 ^ 16) ltac:(lia)) as H1.
  pose proof (Z.div_mod (x / 2 ^ 16) (2 ^ 16) ltac:(lia)) as H2.
  pose proof (Z.div_mod (x / 2 ^ 16 / 2 ^ 16) (2 ^ 16) ltac:(lia)) as H3.
  rewrite Z.div_div in H2, H3 by lia.
  rewrite Z.div_div in H3 by lia.
  change (2 ^ 16 * 2 ^ 16) with (2 ^ 32) in *.
  change (2 ^ 32 * 2 ^ 16) with (2 ^ 48) in *.
  assert (H4 : (x / 2 ^ 48) mod 2 ^ 16 = x / 2 ^ 48).
  { apply Z.mod_small. split.
    - apply Z.div_pos; lia.
    - apply Z.div_lt_upper_bound; lia. }
  rewrite H4. lia.
Qed.

(** Adding the increment of a field that is not at its maximum raises that
    field by one and leaves the three others as they are. *)
Lemma ledger_add f x :
  0 <= x < 2 ^ 64 -> ledger f x < 65535 ->
  0 <= u64 (x + INC f) < 2 ^ 64 /\
  forall f', ledger f' (u64 (x + INC f)) =
             if Field_eqb f' f then ledger f' x + 1 else ledger f' x.
Proof.
  intros Hx Hf.
  pose proof (ledger_range FWaiting x) as Hw.
  pose proof (ledger_range FUnloading x) as Hu.
  pose proof (ledger_range FTraveling x) as Ht.
  pose proof (ledger_range FMining x) as Hm.
  pose proof (pack_ledger x Hx) as Hp.
  set (w := ledger FWaiting x) in *. set (u := ledger FUnloading x) in *.
  set (t := ledger FTraveling x) in *. set (m := ledger FMining x) in *.
  assert (Hnew : exists w' u' t' m',
             digit w' /\ digit u' /\ digit t' /\ digit m' /\
             x + INC f = pack w' u' t' m' /\
             forall f', (match f' with FWaiting => w' | FUnloading => u'
                                  | FTraveling => t' | FMining => m' end) =
                        if Field_eqb f' f then ledger f' x + 1 else ledger f' x).
  { destruct f.
    - exists (w + 1), u, t, m. unfold digit. fold w in Hf.
      repeat split; try lia.
      + rewrite Hp at 1. unfold pack, INC, WAITING_INC. lia.
      + intros []; reflexivity.
    - exists w, (u + 1), t, m. unfold digit. fold u in Hf.
      repeat split; try lia.
      + rewrite Hp at 1. unfold pack, INC, UNLOADING_INC. lia.
      + intros []; reflexivity.
    - exists w, u, (t + 1), m. unfold digit. fold t in Hf.
      repeat split; try lia.
      + rewrite Hp at 1. unfold pack, INC, TRAVELING_INC. lia.
      + intros []; reflexivity.
    - exists w, u, t, (m + 1). unfold digit. fold m in Hf.
      repeat split; try lia.
      + rewrite Hp at 1. unfold pack, INC, MINING_INC. lia.
      + intros []; reflexivity. }
  destruct Hnew as (w' & u' & t' & m' & Dw & Du & Dt & Dm & Heq & Hfs).
  rewrite Heq.
  pose proof (pack_range w' u' t' m' Dw Du Dt Dm) as Hr.
  rewrite u64_small by exact Hr.
  split; [exact Hr|].
  intros f'. rewrite ledger_pack by assumption. apply Hfs.
Qed.

(** ** List quantities *)

Lemma occ_app v l1 l2 : occ v (l1 ++ l2) = (occ v l1 + occ v l2)%nat.
Proof. induction l1 as [|x l1 IH]; simpl; [reflexivity|]. rewrite IH. lia. Qed.

Lemma sumZ_app l1 l2 : sumZ (l1 ++ l2) = sumZ l1 + sumZ l2.
Proof. induction l1 as [|x l1 IH]; simpl; [reflexivity|]. rewrite IH. lia. Qed.

Lemma unloading_at_nonneg s l : 0 <= unloading_at s l.
Proof.
  induction l as [|tr l IH]; simpl; [lia|].
  destruct (Truck.state tr); try lia.
  destruct (Truck.station_idx tr =? s)%nat; lia.
Qed.

Lemma occ_elem_of v l : (1 <= occ v l)%nat -> v ∈ l.
Proof.
  induction l as [|x l IH]; simpl; [lia|].
  destruct (x =? v) eqn:E.
  - intros _. apply Z.eqb_eq in E. subst x. apply list_elem_of_here.
  - intros H. apply list_elem_of_further, IH. lia.
Qed.

(** If every value from 1 to [q] occurs in [l], then [l] has at least [q]
    elements. *)
Lemma occ_pigeonhole (q : nat) (l : list Z) :
  (forall v, 1 <= v <= Z.of_nat q -> (1 <= occ v l)%nat) ->
  (q <= length l)%nat.
Proof.
  intros H.
  assert (Hnd : NoDup (Z.of_nat <$> seq 1 q))
    by apply (NoDup_fmap_2 Z.of_nat), NoDup_seq.
  assert (Hsub : (Z.of_nat <$> seq 1 q) ⊆+ l).
  { apply NoDup_submseteq; [exact Hnd|].
    intros v Hv. apply list_elem_of_fmap in Hv. destruct Hv as (i & -> & Hi).
    apply elem_of_seq in Hi. apply occ_elem_of, H. lia. }
  apply submseteq_length in Hsub.
  rewrite length_fmap, length_seq in Hsub. exact Hsub.
Qed.

Lemma sumZ_insert_unloaded (l : list Station.t) i st :
  l !! i = Some st ->
  sumZ (map Station.num_trucks_unloaded
          (<[i := Station.mk (Station.queue st)
                    (Station.num_trucks_unloaded st + 1)]> l)) =
  sumZ (map Station.num_trucks_unloaded l) + 1.
Proof.
  revert i. induction l as [|x l IH]; intros [|i] H; simpl in *; try discriminate.
  - injection H as ->. lia.
  - rewrite IH by exact H. lia.
Qed.

(** ** One call of [Truck::run] *)

Lemma timer_dec tm : 1 <= tm < 65536 -> u16 (tm - 1) = tm - 1.
Proof. intros H. apply u16_small. lia. Qed.

(** Whatever the state, the call adds the increment of the field charged
    for that state, and nothing else, to [total_time]. *)
Lemma run_total_time tr stations idx g tr' stations' idx' g' :
  Truck.run tr stations idx g = Ok (tr', stations', idx', g') ->
  Truck.total_time tr' =
    u64 (Truck.total_time tr + INC (charged (Truck.state tr))).
Proof.
  unfold Truck.run. intros H.
  destruct (Truck.state tr); simpl charged; simpl INC;
    repeat match type of H with
           | (if ?b then _ else _) = _ => destruct b
           | match ?o with Some _ => _ | None => _ end = _ => destruct o
           | (let '(_, _) := ?p in _) = _ => destruct p
           end;
    try discriminate; injection H as <- _ _ _; reflexivity.
Qed.

Lemma charge_ok f x T :
  0 <= x < 2 ^ 64 -> ledger_sum x = T -> T < 65535 ->
  0 <= u64 (x + INC f) < 2 ^ 64 /\
  ledger_sum (u64 (x + INC f)) = T + 1 /\
  ledger FUnloading (u64 (x + INC f)) =
    ledger FUnloading x + (if Field_eqb FUnloading f then 1 else 0).
Proof.
  intros Hx Hs HT.
  ledger_ranges x.
  unfold ledger_sum in Hs.
  assert (Hf : ledger f x < 65535) by (destruct f; lia).
  destruct (ledger_add f x Hx Hf) as [Hr Hl].
  split; [exact Hr|]. split.
  - unfold ledger_sum. rewrite !Hl. destruct f; simpl; lia.
  - rewrite Hl. destruct f; simpl; lia.
Qed.

Lemma rmt_range g : ONE_HOUR <= fst (rmt g) <= FIVE_HOUR.
Proof.
  unfold rmt, ONE_HOUR, FIVE_HOUR. simpl.
  pose proof (Z.mod_pos_bound (raw g (pos g)) (60 - 12 + 1) ltac:(lia)). lia.
Qed.

(** The calls that touch neither the stations nor the cursor: every state but
    Unloading and the last tick of TravelStation. *)
Lemma run_simple m T tr stations idx g :
  truck_ok m T tr -> T < MAX_TIME -> Truck.state tr <> Unloading ->
  ~ (Truck.state tr = TravelStation /\ Truck.timer tr = 1) ->
  exists tr' g',
    Truck.run tr stations idx g = Ok (tr', stations, idx, g') /\
    truck_ok m (T + 1) tr' /\
    (forall s, rank_moved s tr' = rank_pending s tr) /\
    unloads_of tr' = unloads_of tr.
Proof.
  destruct tr as [st tm tt si]. intros [Hs Htm Hpos Htot Hsum Hcyc] HT Hst Hts.
  simpl in *. unfold MAX_TIME in HT.
  assert (Hch : forall f, f <> FUnloading ->
            0 <= u64 (tt + INC f) < 2 ^ 64 /\
            ledger_sum (u64 (tt + INC f)) = T + 1 /\
            ledger FUnloading (u64 (tt + INC f)) = ledger FUnloading tt).
  { intros f Hf. destruct (charge_ok f tt T Htot Hsum ltac:(lia)) as (H1 & H2 & H3).
    repeat split; try tauto. rewrite H3. destruct f; simpl; try lia. congruence. }
  assert (Hpos' : 1 <= tm) by (apply Hpos; exact Hst).
  pose proof (rmt_range g) as Hrmt.
  destruct (rmt g) as [d g1] eqn:Er. simpl in Hrmt.
  unfold Truck.run, unloads_of, progress, MIN_CYCLE, TRAVEL_TIME, ONE_HOUR,
    FIVE_HOUR in *; simpl Truck.state in *; simpl Truck.timer in *;
    simpl Truck.total_time in *; simpl Truck.station_idx in *.
  rewrite ?timer_dec by lia. rewrite ?Er. rewrite ?(u16_small d) by lia.
  destruct st; try congruence;
    (destruct (tm - 1 =? 0) eqn:E;
     [apply Z.eqb_eq in E | apply Z.eqb_neq in E]);
    try (exfalso; apply Hts; split; [reflexivity | lia]);
    (eexists; eexists; split; [reflexivity|]);
    simpl Truck.total_time;
    match goal with
    | |- context [u64 (tt + ?i)] =>
        let f := lazymatch i with
                 | MINING_INC => constr:(FMining)
                 | TRAVELING_INC => constr:(FTraveling)
                 | WAITING_INC => constr:(FWaiting)
                 end in
        destruct (Hch f ltac:(discriminate)) as (H1 & H2 & H3);
        simpl INC in H1, H2, H3
    end;
    (split; [constructor; unfold unloads_of, progress, MIN_CYCLE, TRAVEL_TIME,
               ONE_HOUR; simpl; rewrite ?H3; try assumption; try lia;
             try congruence|]);
    (split; [|exact H3]);
    intros s; unfold rank_moved, rank_pending; simpl;
    destruct (si =? s)%nat; try reflexivity; lia.
Qed.

(** The last tick of TravelStation: the truck is given the station under the
    cursor. *)
Lemma run_arrive m T tr stations idx g st :
  truck_ok m T tr -> T < MAX_TIME ->
  Truck.state tr = TravelStation -> Truck.timer tr = 1 ->
  stations !! idx = Some st -> 0 <= Station.queue st < 65535 ->
  (idx < m)%nat -> length stations = m ->
  let tr' := Truck.mk (if Station.queue st =? 0 then Unloading else Waiting)
               (Station.queue st)
               (u64 (Truck.total_time tr + TRAVELING_INC)) idx in
  Truck.run tr stations idx g =
    Ok (tr',
        <[idx := Station.mk (Station.queue st + 1)
                   (Station.num_trucks_unloaded st)]> stations,
        ((idx + 1) mod m)%nat, g) /\
  truck_ok m (T + 1) tr' /\
  unloads_of tr' = unloads_of tr.
Proof.
  destruct tr as [s0 tm tt si].
  intros [Hs Htm Hpos Htot Hsum Hcyc] HT Hst Htm1 Hlk Hq Hidx Hlen tr'.
  simpl in *. subst s0 tm.
  unfold MAX_TIME in HT.
  destruct (charge_ok FTraveling tt T Htot Hsum ltac:(lia)) as (H1 & H2 & H3).
  simpl in H1, H2, H3. rewrite Z.add_0_r in H3.
  split; [|split].
  - unfold Truck.run. simpl. rewrite Hlk. unfold Station.increment_queue,
      Station.get_queue. rewrite u16_small by lia.
    rewrite length_insert, Hlen. reflexivity.
  - subst tr'. unfold unloads_of, progress, MIN_CYCLE, TRAVEL_TIME, ONE_HOUR in *.
    simpl in *.
    constructor; unfold unloads_of, progress, MIN_CYCLE, TRAVEL_TIME, ONE_HOUR;
      simpl; rewrite ?H3; try assumption; try lia.
    + destruct (Station.queue st =? 0) eqn:E; [congruence|].
      apply Z.eqb_neq in E. lia.
    + destruct (Station.queue st =? 0); lia.
  - exact H3.
Qed.

(** The Unloading tick. *)
Lemma run_unload m T tr stations idx g st :
  truck_ok m T tr -> T < MAX_TIME -> Truck.state tr = Unloading ->
  stations !! Truck.station_idx tr = Some st ->
  0 <= Station.num_trucks_unloaded st < 65535 ->
  let tr' := Truck.mk TravelMining TRAVEL_TIME
               (u64 (Truck.total_time tr + UNLOADING_INC))
               (Truck.station_idx tr) in
  Truck.run tr stations idx g =
    Ok (tr',
        <[Truck.station_idx tr :=
            Station.mk (Station.queue st)
              (Station.num_trucks_unloaded st + 1)]> stations,
        idx, g) /\
  truck_ok m (T + 1) tr' /\
  unloads_of tr' = unloads_of tr + 1.
Proof.
  destruct tr as [s0 tm tt si].
  intros [Hs Htm Hpos Htot Hsum Hcyc] HT Hst Hlk Hu tr'.
  simpl in *. subst s0.
  unfold MAX_TIME in HT.
  destruct (charge_ok FUnloading tt T Htot Hsum ltac:(lia)) as (H1 & H2 & H3).
  simpl in H1, H2, H3.
  split; [|split].
  - unfold Truck.run. simpl. rewrite Hlk.
    unfold Station.increment_trucks_unloaded. rewrite u16_small by lia.
    reflexivity.
  - subst tr'. unfold unloads_of, progress, MIN_CYCLE, TRAVEL_TIME, ONE_HOUR in *.
    simpl in *.
    constructor; unfold unloads_of, progress, MIN_CYCLE, TRAVEL_TIME, ONE_HOUR;
      simpl; rewrite ?H3; try assumption; try lia.
  - exact H3.
Qed.

(** ** The round-robin shape of the queues *)

Lemma elem_of_steps (x k : Z) (a b : nat) :
  x ∈ replicate a k ++ replicate b (k + 1) -> x = k \/ x = k + 1.
Proof.
  intros H. apply elem_of_app in H. destruct H as [H|H];
    apply elem_of_replicate in H; tauto.
Qed.

(** The station under the cursor has a shortest queue. *)
Lemma cyclic_steps_min qs idx :
  cyclic_steps qs idx -> (idx < length qs)%nat ->
  exists q, qs !! idx = Some q /\ forall q', q' ∈ qs -> q <= q'.
Proof.
  intros (k & a & b & Ha & Hk & Heq) Hidx.
  destruct (lookup_lt_is_Some_2 qs idx Hidx) as [q Hq].
  exists q. split; [exact Hq|].
  rewrite (drop_S _ _ _ Hq) in Heq.
  destruct a as [|a]; [lia|]. simpl in Heq. injection Heq as -> Heq.
  intros q' Hq'.
  assert (Hin : q' ∈ replicate (S a) k ++ replicate b (k + 1)).
  { simpl. rewrite <- Heq. rewrite <- (take_drop idx qs) in Hq'.
    rewrite (drop_S _ _ _ Hq) in Hq'.
    rewrite elem_of_app, elem_of_cons in Hq'.
    rewrite elem_of_cons, elem_of_app. tauto. }
  apply elem_of_steps in Hin. lia.
Qed.

(** Assigning to the station under the cursor and advancing the cursor. *)
Lemma cyclic_steps_assign qs idx q :
  cyclic_steps qs idx -> qs !! idx = Some q ->
  cyclic_steps (<[idx := q + 1]> qs) ((idx + 1) mod length qs).
Proof.
  intros (k & a & b & Ha & Hk & Heq) Hq.
  pose proof (lookup_lt_Some _ _ _ Hq) as Hidx.
  rewrite (drop_S _ _ _ Hq) in Heq.
  destruct a as [|a]; [lia|]. simpl in Heq. injection Heq as -> Heq.
  assert (Hrot : drop ((idx + 1) mod length qs) (<[idx := k + 1]> qs) ++
                 take ((idx + 1) mod length qs) (<[idx := k + 1]> qs) =
                 (drop (S idx) qs ++ take idx qs) ++ [k + 1]).
  { rewrite insert_take_drop by exact Hidx.
    assert (Hlt : length (take idx qs) = idx) by (rewrite length_take; lia).
    destruct (decide (S idx = length qs)) as [Hlast|Hmid].
    - replace ((idx + 1) mod length qs)%nat with 0%nat
        by (replace (idx + 1)%nat with (length qs) by lia;
            symmetry; apply Nat.Div0.mod_same).
      rewrite drop_0, take_0, app_nil_r.
      rewrite (drop_ge qs (S idx)) by lia. reflexivity.
    - replace ((idx + 1) mod length qs)%nat with (S idx)
        by (symmetry; replace (idx + 1)%nat with (S idx) by lia;
            apply Nat.mod_small; lia).
      rewrite drop_app_ge by lia. rewrite take_app_ge by lia.
      rewrite Hlt. replace (S idx - idx)%nat with 1%nat by lia.
      simpl. rewrite drop_0, take_0. rewrite <- app_assoc. reflexivity. }
  rewrite Heq in Hrot.
  destruct a as [|a].
  - exists (k + 1), (S b), 0%nat. split; [lia|]. split; [lia|].
    rewrite Hrot. simpl. rewrite app_nil_r.
    change (k + 1 :: replicate b (k + 1)) with (replicate (S b) (k + 1)).
    rewrite replicate_S_end. reflexivity.
  - exists k, (S a), (S b). split; [lia|]. split; [lia|].
    rewrite Hrot. rewrite <- app_assoc. f_equal.
    rewrite replicate_S_end. reflexivity.
Qed.

(** The uniform decrement at the end of a tick. *)
Lemma cyclic_steps_decrement qs idx :
  cyclic_steps qs idx ->
  cyclic_steps (map (fun q => q - (if 0 <? q then 1 else 0)) qs) idx.
Proof.
  intros (k & a & b & Ha & Hk & Heq).
  set (f := fun q => q - (if 0 <? q then 1 else 0)).
  assert (Hrot : drop idx (map f qs) ++ take idx (map f qs) =
                 replicate a (f k) ++ replicate b (f (k + 1))).
  { change (map f qs) with (f <$> qs).
    rewrite <- fmap_drop, <- fmap_take, <- fmap_app, Heq.
    rewrite fmap_app, !fmap_replicate. reflexivity. }
  assert (Hk1 : f (k + 1) = k).
  { unfold f. destruct (0 <? k + 1) eqn:E; [lia|]. apply Z.ltb_ge in E. lia. }
  rewrite Hk1 in Hrot.
  destruct (decide (k = 0)) as [->|Hne].
  - exists 0, (a + b)%nat, 0%nat. split; [lia|]. split; [lia|].
    rewrite Hrot. change (f 0) with 0. simpl. rewrite app_nil_r.
    rewrite replicate_add. reflexivity.
  - exists (k - 1), a, b. split; [lia|]. split; [lia|].
    rewrite Hrot. replace (f k) with (k - 1).
    + replace (k - 1 + 1) with k by lia. reflexivity.
    + unfold f. destruct (0 <? k) eqn:E; [lia|]. apply Z.ltb_ge in E. lia.
Qed.

(** ** Preservation of the invariant *)

Lemma occ_ranks_moved s v mv tr' rest :
  occ v (ranks s (mv ++ [tr']) rest) =
  (occ v (ranks s mv rest) + (if (rank_moved s tr' =? v)%Z then 1 else 0))%nat.
Proof.
  unfold ranks. rewrite map_app, !occ_app. simpl. lia.
Qed.

Lemma occ_ranks_pending s v mv tr rest :
  occ v (ranks s mv (tr :: rest)) =
  (occ v (ranks s mv rest) + (if (rank_pending s tr =? v)%Z then 1 else 0))%nat.
Proof.
  unfold ranks. rewrite !occ_app. simpl. lia.
Qed.

Lemma sumZ_moved (f : Truck.t -> Z) mv tr tr' rest :
  sumZ (map f ((mv ++ [tr']) ++ rest)) =
  sumZ (map f (mv ++ tr :: rest)) + f tr' - f tr.
Proof.
  rewrite !map_app, !sumZ_app. simpl. lia.
Qed.

Lemma Inv_simple n m T mv tr tr' rest stations idx :
  Inv n m T mv (tr :: rest) stations idx ->
  truck_ok m (T + 1) tr' ->
  (forall s, rank_moved s tr' = rank_pending s tr) ->
  Truck.state tr <> Unloading ->
  unloads_of tr' = unloads_of tr ->
  Inv n m T (mv ++ [tr']) rest stations idx.
Proof.
  intros [HT Hsts Hidx Htrs Hn Hmv Hpd Hq Hrk Hrr Hun Hsum] Hok Hrank Hst Hu.
  constructor; try assumption.
  - rewrite length_app. simpl in *. lia.
  - apply Forall_app. split; [exact Hmv|]. constructor; [exact Hok|constructor].
  - inversion Hpd; assumption.
  - intros s st v Hs Hv. rewrite occ_ranks_moved, Hrank.
    rewrite <- occ_ranks_pending. apply Hrk; assumption.
  - intros s st Hs. specialize (Hun s st Hs). simpl in Hun.
    destruct (Truck.state tr); try congruence; lia.
  - rewrite sumZ_moved with (tr := tr). lia.
Qed.

(** No queue is longer than the number of the other trucks. *)
Lemma queue_bound n m T mv tr rest stations idx s st :
  Inv n m T mv (tr :: rest) stations idx ->
  Truck.state tr <> Waiting ->
  stations !! s = Some st ->
  Station.queue st <= Z.of_nat n - 1.
Proof.
  intros [HT Hsts Hidx Htrs Hn Hmv Hpd Hq Hrk Hrr Hun Hsum] Hst Hs.
  pose proof (Hq s st Hs) as Hq0.
  assert (Hlen : (Z.to_nat (Station.queue st) <= length (ranks s mv rest))%nat).
  { apply occ_pigeonhole. intros v Hv.
    pose proof (Hrk s st v Hs ltac:(lia)) as Hocc.
    rewrite occ_ranks_pending in Hocc.
    assert (Hrp : rank_pending s tr = 0)
      by (unfold rank_pending; destruct (Truck.state tr); congruence).
    rewrite Hrp in Hocc.
    destruct (0 =? v) eqn:E0; [lia|].
    destruct (v <=? Station.queue st) eqn:Ev; [lia|].
    apply Z.leb_gt in Ev. lia. }
  unfold ranks in Hlen. rewrite length_app, !length_map in Hlen.
  simpl in Htrs. lia.
Qed.

Lemma Inv_arrive n m T mv tr rest stations idx st tt' :
  Inv n m T mv (tr :: rest) stations idx ->
  Truck.state tr = TravelStation ->
  stations !! idx = Some st ->
  let tr' := Truck.mk (if Station.queue st =? 0 then Unloading else Waiting)
               (Station.queue st) tt' idx in
  truck_ok m (T + 1) tr' ->
  unloads_of tr' = unloads_of tr ->
  Inv n m T (mv ++ [tr']) rest
    (<[idx := Station.mk (Station.queue st + 1)
                (Station.num_trucks_unloaded st)]> stations)
    ((idx + 1) mod m)%nat.
Proof.
  intros HI Hst Hlk tr' Hok Hu.
  assert (Hqb : Station.queue st <= Z.of_nat n - 1).
  { eapply queue_bound; [exact HI| |exact Hlk]. congruence. }
  destruct HI as [HT Hsts Hidx Htrs Hn Hmv Hpd Hq Hrk Hrr Hun Hsum].
  pose proof (Hq idx st Hlk) as Hq0.
  constructor; try assumption.
  - rewrite length_insert. exact Hsts.
  - apply Nat.mod_upper_bound. lia.
  - rewrite length_app. simpl in *. lia.
  - apply Forall_app. split; [exact Hmv|]. constructor; [exact Hok|constructor].
  - inversion Hpd; assumption.
  - intros s st' Hs. apply list_lookup_insert_Some in Hs.
    destruct Hs as [(-> & <- & _)|(Hne & Hs)]; [simpl; lia|].
    apply (Hq s st' Hs).
  - intros s st' v Hs Hv. rewrite occ_ranks_moved.
    assert (Hprev : forall st0, stations !! s = Some st0 ->
              occ v (ranks s mv rest) =
              if v <=? Station.queue st0 then 1%nat else 0%nat).
    { intros st0 Hs0. rewrite <- (Hrk s st0 v Hs0 Hv).
      rewrite occ_ranks_pending. unfold rank_pending. rewrite Hst.
      destruct (0 =? v) eqn:E0; lia. }
    apply list_lookup_insert_Some in Hs.
    destruct Hs as [(-> & <- & _)|(Hne & Hs)].
    + rewrite (Hprev st Hlk). simpl Station.queue.
      assert (Hrm : rank_moved s tr' = Station.queue st + 1).
      { unfold rank_moved, tr'. simpl. rewrite Nat.eqb_refl.
        destruct (Station.queue st =? 0) eqn:E; [|reflexivity].
        apply Z.eqb_eq in E. lia. }
      rewrite Hrm.
      destruct (Z.leb_spec v (Station.queue st));
        destruct (Z.eqb_spec (Station.queue st + 1) v);
        destruct (Z.leb_spec v (Station.queue st + 1)); lia.
    + rewrite (Hprev st' Hs).
      assert (Hrm : rank_moved s tr' = 0).
      { unfold rank_moved, tr'. simpl.
        destruct (idx =? s)%nat eqn:E; [apply Nat.eqb_eq in E; congruence|].
        destruct (Station.queue st =? 0); reflexivity. }
      rewrite Hrm. destruct (0 =? v) eqn:E0; lia.
  - unfold round_robin in *. change map with (@fmap list _) in *.
    rewrite list_fmap_insert. simpl Station.queue.
    replace m with (length (Station.queue <$> stations))
      by (rewrite length_fmap; exact Hsts).
    apply cyclic_steps_assign; [exact Hrr|].
    rewrite list_lookup_fmap, Hlk. reflexivity.
  - intros s st' Hs. apply list_lookup_insert_Some in Hs.
    assert (Hsame : exists st0, stations !! s = Some st0 /\
              Station.num_trucks_unloaded st0 = Station.num_trucks_unloaded st').
    { destruct Hs as [(-> & <- & _)|(Hne & Hs)]; eauto. }
    destruct Hsame as (st0 & Hs0 & <-).
    specialize (Hun s st0 Hs0). simpl in Hun. rewrite Hst in Hun. lia.
  - rewrite sumZ_moved with (tr := tr). rewrite Hu.
    change map with (@fmap list _) in *. rewrite list_fmap_insert.
    simpl. rewrite list_insert_id; [lia|].
    rewrite list_lookup_fmap, Hlk. reflexivity.
Qed.

Lemma Inv_unload n m T mv tr tr' rest stations idx st :
  Inv n m T mv (tr :: rest) stations idx ->
  Truck.state tr = Unloading ->
  stations !! Truck.station_idx tr = Some st ->
  truck_ok m (T + 1) tr' ->
  Truck.state tr' = TravelMining ->
  unloads_of tr' = unloads_of tr + 1 ->
  Inv n m T (mv ++ [tr']) rest
    (<[Truck.station_idx tr :=
         Station.mk (Station.queue st)
           (Station.num_trucks_unloaded st + 1)]> stations)
    idx.
Proof.
  intros [HT Hsts Hidx Htrs Hn Hmv Hpd Hq Hrk Hrr Hun Hsum] Hst Hlk Hok Hst' Hu.
  assert (Hqs : Station.queue <$>
                  <[Truck.station_idx tr :=
                      Station.mk (Station.queue st)
                        (Station.num_trucks_unloaded st + 1)]> stations =
                Station.queue <$> stations).
  { rewrite list_fmap_insert. simpl. apply list_insert_id.
    rewrite list_lookup_fmap, Hlk. reflexivity. }
  assert (Hsame : forall s st', <[Truck.station_idx tr :=
                      Station.mk (Station.queue st)
                        (Station.num_trucks_unloaded st + 1)]> stations !! s
                    = Some st' ->
            exists st0, stations !! s = Some st0 /\
                        Station.queue st0 = Station.queue st').
  { intros s st' Hs. apply list_lookup_insert_Some in Hs.
    destruct Hs as [(<- & <- & _)|(Hne & Hs)]; eauto. }
  constructor; try assumption.
  - rewrite length_insert. exact Hsts.
  - rewrite length_app. simpl in *. lia.
  - apply Forall_app. split; [exact Hmv|]. constructor; [exact Hok|constructor].
  - inversion Hpd; assumption.
  - intros s st' Hs. destruct (Hsame s st' Hs) as (st0 & Hs0 & <-).
    apply (Hq s st0 Hs0).
  - intros s st' v Hs Hv. destruct (Hsame s st' Hs) as (st0 & Hs0 & <-).
    rewrite <- (Hrk s st0 v Hs0 Hv).
    rewrite occ_ranks_moved, occ_ranks_pending.
    unfold rank_moved, rank_pending. rewrite Hst, Hst'. reflexivity.
  - unfold round_robin in *. change map with (@fmap list _) in *.
    rewrite Hqs. exact Hrr.
  - intros s st' Hs. apply list_lookup_insert_Some in Hs.
    destruct Hs as [(<- & <- & _)|(Hne & Hs)].
    + specialize (Hun _ st Hlk). simpl in *. rewrite Hst in Hun.
      rewrite Nat.eqb_refl in Hun. lia.
    + specialize (Hun s st' Hs). simpl in Hun. rewrite Hst in Hun.
      destruct (Truck.station_idx tr =? s)%nat eqn:E;
        [apply Nat.eqb_eq in E; congruence|]. lia.
  - rewrite sumZ_insert_unloaded by exact Hlk.
    rewrite sumZ_moved with (tr := tr). lia.
Qed.

Lemma occ_rank_shift s v l :
  1 <= v ->
  occ v (map (rank_pending s) l) = occ (v + 1) (map (rank_moved s) l).
Proof.
  intros Hv. induction l as [|tr l IH]; simpl; [reflexivity|].
  rewrite IH. f_equal. unfold rank_pending, rank_moved.
  destruct (Truck.state tr); try (destruct (Truck.station_idx tr =? s)%nat);
    repeat match goal with
           | |- context [?a =? ?b] => destruct (Z.eqb_spec a b)
           end; try reflexivity; lia.
Qed.

Lemma unloading_at_rank s l :
  unloading_at s l <= Z.of_nat (occ 1 (map (rank_moved s) l)).
Proof.
  induction l as [|tr l IH]; simpl; [lia|].
  unfold rank_moved at 1.
  destruct (Truck.state tr); try (destruct (Truck.station_idx tr =? s)%nat);
    repeat match goal with
           | |- context [?a =? ?b] => destruct (Z.eqb_spec a b)
           end; lia.
Qed.

Lemma decrement_queue_value st :
  0 <= Station.queue st < 65536 ->
  Station.queue (Station.decrement_queue st) =
    Station.queue st - (if 0 <? Station.queue st then 1 else 0).
Proof.
  intros H. unfold Station.decrement_queue. simpl. apply u16_small.
  destruct (0 <? Station.queue st) eqn:E; [|lia].
  apply Z.ltb_lt in E. lia.
Qed.

Lemma Inv_end_tick n m T mv stations idx :
  Inv n m T mv [] stations idx -> T < MAX_TIME ->
  Inv n m (T + 1) [] mv (map Station.decrement_queue stations) idx.
Proof.
  intros [HT Hsts Hidx Htrs Hn Hmv Hpd Hq Hrk Hrr Hun Hsum] HT'.
  assert (Hlk : forall s st', map Station.decrement_queue stations !! s = Some st' ->
            exists st, stations !! s = Some st /\
                       st' = Station.decrement_queue st).
  { intros s st' Hs. change map with (@fmap list _) in Hs.
    rewrite list_lookup_fmap in Hs.
    destruct (stations !! s) as [st|]; [|discriminate].
    exists st. split; [reflexivity|]. simpl in Hs. congruence. }
  constructor; try assumption.
  - lia.
  - rewrite length_map. exact Hsts.
  - simpl in *. lia.
  - constructor.
  - intros s st' Hs. destruct (Hlk s st' Hs) as (st & Hs0 & ->).
    unfold Station.decrement_queue. simpl. apply u16_range.
  - intros s st' v Hs Hv. destruct (Hlk s st' Hs) as (st & Hs0 & ->).
    rewrite decrement_queue_value by (apply (Hq s st Hs0)).
    unfold ranks. simpl. rewrite occ_rank_shift by exact Hv.
    specialize (Hrk s st (v + 1) Hs0 ltac:(lia)).
    unfold ranks in Hrk. simpl in Hrk. rewrite app_nil_r in Hrk. rewrite Hrk.
    pose proof (Hq s st Hs0).
    destruct (Z.ltb_spec 0 (Station.queue st));
      destruct (Z.leb_spec (v + 1) (Station.queue st));
      match goal with
      | |- context [?a <=? ?b] => destruct (Z.leb_spec a b)
      end; lia.
  - unfold round_robin in *.
    replace (map Station.queue (map Station.decrement_queue stations))
      with (map (fun q => q - (if 0 <? q then 1 else 0))
              (map Station.queue stations)).
    + apply cyclic_steps_decrement. exact Hrr.
    + change map with (@fmap list _). apply list_eq. intros s.
      rewrite !list_lookup_fmap.
      destruct (stations !! s) as [st|] eqn:Hs; [|reflexivity].
      simpl. f_equal. symmetry.
      apply (decrement_queue_value st), (Hq s st Hs).
  - intros s st' Hs. destruct (Hlk s st' Hs) as (st & Hs0 & ->).
    simpl. destruct (Hun s st Hs0) as [Hu0 Hu1]. simpl in Hu1.
    pose proof (unloading_at_rank s mv) as Hr.
    specialize (Hrk s st 1 Hs0 ltac:(lia)).
    unfold ranks in Hrk. simpl in Hrk. rewrite app_nil_r in Hrk.
    rewrite Hrk in Hr. destruct (1 <=? Station.queue st); lia.
  - rewrite app_nil_r in Hsum. simpl. rewrite <- Hsum.
    f_equal. change map with (@fmap list _). apply list_eq. intros s.
    rewrite !list_lookup_fmap. destruct (stations !! s); reflexivity.
Qed.

(** ** The debug check of the cursor *)

Lemma min_element_fold rest s :
  let x := fold_left
             (fun m x =>
                if Station.get_queue x <? Station.get_queue m then x else m)
             rest s in
  (x = s \/ x ∈ rest) /\
  Station.queue x <= Station.queue s /\
  forall y, y ∈ rest -> Station.queue x <= Station.queue y.
Proof.
  revert s. induction rest as [|r rest IH]; intros s; cbv zeta; simpl fold_left.
  - split; [left; reflexivity|]. split; [lia|]. intros y Hy. inversion Hy.
  - pose proof (IH r) as IHr. pose proof (IH s) as IHs. cbv zeta in IHr, IHs.
    destruct (Z.ltb_spec (Station.get_queue r) (Station.get_queue s))
      as [Hlt|Hge]; unfold Station.get_queue in Hlt || unfold Station.get_queue in Hge.
    + destruct IHr as (Hin & Hle & Hall). split; [|split].
      * right. destruct Hin as [->|Hin];
          [apply list_elem_of_here|apply list_elem_of_further, Hin].
      * lia.
      * intros y Hy. apply elem_of_cons in Hy. destruct Hy as [->|Hy];
          [exact Hle|apply Hall, Hy].
    + destruct IHs as (Hin & Hle & Hall). split; [|split].
      * destruct Hin as [->|Hin];
          [left; reflexivity|right; apply list_elem_of_further, Hin].
      * exact Hle.
      * intros y Hy. apply elem_of_cons in Hy. destruct Hy as [->|Hy];
          [lia|apply Hall, Hy].
Qed.

Lemma min_element_spec l x :
  min_element l = Some x ->
  x ∈ l /\ forall y, y ∈ l -> Station.queue x <= Station.queue y.
Proof.
  destruct l as [|s rest]; simpl; [discriminate|].
  intros H. injection H as <-.
  pose proof (min_element_fold rest s) as Hf. cbv zeta in Hf.
  destruct Hf as (Hin & Hle & Hall). split.
  - destruct Hin as [->|Hin];
      [apply list_elem_of_here|apply list_elem_of_further, Hin].
  - intros y Hy. apply elem_of_cons in Hy. destruct Hy as [->|Hy];
      [exact Hle|apply Hall, Hy].
Qed.

(** Under the round-robin shape the station under the cursor is one of the
    shortest. *)
Lemma round_robin_min stations idx :
  round_robin stations idx -> (idx < length stations)%nat ->
  exists st, stations !! idx = Some st /\
    forall st', st' ∈ stations -> Station.queue st <= Station.queue st'.
Proof.
  intros Hrr Hidx. unfold round_robin in Hrr.
  destruct (cyclic_steps_min _ _ Hrr) as (q & Hq & Hmin).
  { rewrite length_map. exact Hidx. }
  change map with (@fmap list _) in *.
  rewrite list_lookup_fmap in Hq.
  destruct (stations !! idx) as [st|] eqn:Hst; [|discriminate].
  simpl in Hq. injection Hq as <-.
  exists st. split; [reflexivity|].
  intros st' Hin. apply Hmin. apply list_elem_of_fmap_2. exact Hin.
Qed.

Lemma check_ok stations idx :
  round_robin stations idx -> (idx < length stations)%nat ->
  compare_idx_val_to_actual_min stations idx = Ok tt.
Proof.
  intros Hrr Hidx.
  destruct (round_robin_min _ _ Hrr Hidx) as (st & Hst & Hmin).
  unfold compare_idx_val_to_actual_min. rewrite Hst.
  destruct (min_element stations) as [x|] eqn:Hx.
  - destruct (min_element_spec _ _ Hx) as (Hin & Hall).
    assert (Heq : Station.get_queue x = Station.get_queue st).
    { unfold Station.get_queue.
      pose proof (Hmin x Hin).
      pose proof (Hall st (list_elem_of_lookup_2 _ _ _ Hst)). lia. }
    rewrite Heq, Z.eqb_refl. reflexivity.
  - destruct stations; [simpl in Hidx; lia|discriminate].
Qed.

(** ** One truck moves *)

Lemma truck_step n m T mv tr rest stations idx g :
  Inv n m T mv (tr :: rest) stations idx -> T < MAX_TIME ->
  exists tr' stations' idx' g',
    Truck.run tr stations idx g = Ok (tr', stations', idx', g') /\
    Inv n m T (mv ++ [tr']) rest stations' idx'.
Proof.
  intros HI HT.
  assert (Hok : truck_ok m T tr).
  { destruct HI as [_ _ _ _ _ _ Hpd _ _ _ _ _]. inversion Hpd; assumption. }
  destruct (decide (Truck.state tr = Unloading)) as [HU|HU].
  - pose proof (ok_station Hok) as Hsi.
    rewrite <- (inv_stations HI) in Hsi.
    destruct (lookup_lt_is_Some_2 _ _ Hsi) as [st Hst].
    assert (Hun : 0 <= Station.num_trucks_unloaded st < 65535).
    { pose proof (inv_unloaded HI _ _ Hst) as [H0 H1].
      pose proof (unloading_at_nonneg (Truck.station_idx tr) (tr :: rest)).
      unfold MAX_TIME in HT. lia. }
    destruct (run_unload m T tr stations idx g st Hok HT HU Hst Hun)
      as (Hrun & Hok' & Hu).
    eexists _, _, _, _. split; [exact Hrun|].
    eapply Inv_unload; eauto.
  - destruct (decide (Truck.state tr = TravelStation /\ Truck.timer tr = 1))
      as [[HTS Htm]|Hno].
    + pose proof (inv_idx HI) as Hidx.
      pose proof Hidx as Hidx'.
      rewrite <- (inv_stations HI) in Hidx'.
      destruct (lookup_lt_is_Some_2 _ _ Hidx') as [st Hst].
      assert (Hq : 0 <= Station.queue st < 65535).
      { pose proof (inv_queue HI _ _ Hst).
        pose proof (queue_bound _ _ _ _ _ _ _ _ idx st HI
                      ltac:(congruence) Hst).
        pose proof (inv_fleet HI). lia. }
      destruct (run_arrive m T tr stations idx g st Hok HT HTS Htm Hst Hq Hidx
                  (inv_stations HI))
        as (Hrun & Hok' & Hu).
      eexists _, _, _, _. split; [exact Hrun|].
      eapply Inv_arrive; eauto.
    + destruct (run_simple m T tr stations idx g Hok HT HU Hno)
        as (tr' & g' & Hrun & Hok' & Hrk & Hu).
      exists tr', stations, idx, g'. split; [exact Hrun|].
      eapply Inv_simple; eauto.
Qed.

(** ** The initial state *)

Lemma new_truck_ok m g :
  (1 <= m)%nat ->
  truck_ok m 0 (fst (Truck.new g)) /\
  Truck.state (fst (Truck.new g)) = Mining /\
  Truck.total_time (fst (Truck.new g)) = 0.
Proof.
  intros Hm. unfold Truck.new.
  pose proof (rmt_range g) as Hr. destruct (rmt g) as [d g1]. simpl in *.
  unfold ONE_HOUR, FIVE_HOUR in Hr.
  split; [|split; reflexivity].
  constructor; unfold unloads_of, progress, MIN_CYCLE, TRAVEL_TIME, ONE_HOUR;
    simpl; rewrite ?u16_small by lia; try lia.
  - reflexivity.
  - change (ledger FUnloading 0) with 0. lia.
Qed.

Lemma make_trucks_S n g :
  Simulation.make_trucks (S n) g =
  (fst (Truck.new g) :: fst (Simulation.make_trucks n (snd (Truck.new g))),
   snd (Simulation.make_trucks n (snd (Truck.new g)))).
Proof.
  simpl. destruct (Simulation.make_trucks n _). reflexivity.
Qed.

Lemma make_trucks_spec m n g :
  (1 <= m)%nat ->
  length (fst (Simulation.make_trucks n g)) = n /\
  Forall (truck_ok m 0) (fst (Simulation.make_trucks n g)) /\
  Forall (fun tr => Truck.state tr = Mining /\ Truck.total_time tr = 0)
    (fst (Simulation.make_trucks n g)).
Proof.
  intros Hm. revert g. induction n as [|n IH]; intros g.
  - simpl. repeat split; constructor.
  - rewrite make_trucks_S.
    destruct (new_truck_ok m g Hm) as (Hok & Hst & Htt).
    destruct (IH (snd (Truck.new g))) as (Hlen & Hall & Hmin).
    cbn [fst snd length]. split; [|split].
    + rewrite Hlen. reflexivity.
    + constructor; assumption.
    + constructor; auto.
Qed.

Lemma fresh_trucks_quantities (trs : list Truck.t) :
  Forall (fun tr => Truck.state tr = Mining /\ Truck.total_time tr = 0) trs ->
  (forall s v, 1 <= v -> occ v (map (rank_pending s) trs) = 0%nat) /\
  (forall s, unloading_at s trs = 0) /\
  sumZ (map unloads_of trs) = 0.
Proof.
  induction 1 as [|tr l [Hs Ht] _ (IH1 & IH2 & IH3)]; simpl.
  - repeat split; reflexivity.
  - split; [|split].
    + intros s v Hv. rewrite (IH1 s v Hv). unfold rank_pending. rewrite Hs.
      destruct (Z.eqb_spec 0 v); [lia|reflexivity].
    + intros s. rewrite IH2, Hs. reflexivity.
    + rewrite IH3. unfold unloads_of. rewrite Ht. reflexivity.
Qed.

Lemma Inv_init n m g :
  (1 <= m)%nat -> Z.of_nat n <= 65535 ->
  Inv n m 0 [] (fst (Simulation.make_trucks n g))
    (replicate m Station.new) 0.
Proof.
  intros Hm Hn.
  destruct (make_trucks_spec m n g Hm) as (Hlen & Hok & Hmin).
  destruct (fresh_trucks_quantities _ Hmin) as (Hrk & Hz & Hun).
  assert (Hst : forall s st, replicate m Station.new !! s = Some st ->
            st = Station.new).
  { intros s st Hs. apply lookup_replicate in Hs. tauto. }
  constructor; try assumption.
  - unfold MAX_TIME. lia.
  - apply length_replicate.
  - constructor.
  - intros s st Hs. rewrite (Hst s st Hs). simpl. lia.
  - intros s st v Hs Hv. rewrite (Hst s st Hs). simpl.
    unfold ranks. simpl. rewrite Hrk by exact Hv.
    destruct (Z.leb_spec v 0); [lia|reflexivity].
  - exists 0, m, 0%nat. split; [lia|]. split; [lia|].
    rewrite drop_0, take_0, app_nil_r. simpl. rewrite app_nil_r.
    change map with (@fmap list _). rewrite fmap_replicate. reflexivity.
  - intros s st Hs. rewrite (Hst s st Hs). simpl. rewrite Hz. lia.
  - simpl. rewrite Hun. clear. induction m; simpl; [reflexivity|]. assumption.
Qed.

Lemma start_Inv n m d g :
  (1 <= m)%nat -> Z.of_nat n <= 65535 ->
  Inv_snapshot n m (start n m d g).
Proof.
  intros Hm Hn. unfold start, Simulation.new.
  pose proof (Inv_init n m g Hm Hn) as HI.
  destruct (Simulation.make_trucks n g) as [trs g1]. simpl in *.
  unfold Inv_snapshot, snapshot_of, elapsed. simpl.
  replace (MAX_TIME - Z.of_nat (Z.to_nat (u16 MAX_TIME))) with 0
    by (vm_compute; reflexivity).
  exact HI.
Qed.

(** ** Every reachable snapshot satisfies the invariant *)

Lemma step_Inv n m c :
  Inv_snapshot n m c ->
  exists c', step c = Ok c' /\ Inv_snapshot n m c' /\ dbg c' = dbg c.
Proof.
  unfold Inv_snapshot, step, elapsed. destruct c as [r mv pd ss idx g d].
  simpl. intros HI.
  destruct r as [|r].
  { eexists. split; [reflexivity|]. split; [exact HI|reflexivity]. }
  destruct pd as [|tr rest].
  - eexists. split; [reflexivity|]. simpl. split; [|reflexivity].
    replace (MAX_TIME - Z.of_nat r) with (MAX_TIME - Z.of_nat (S r) + 1) by lia.
    apply Inv_end_tick; [exact HI|lia].
  - destruct (truck_step n m _ mv tr rest ss idx g HI ltac:(lia))
      as (tr' & ss' & idx' & g' & Hrun & HI').
    rewrite Hrun. simpl.
    assert (Hchk : (if d then compare_idx_val_to_actual_min ss' idx'
                    else Ok tt) = Ok tt).
    { destruct d; [|reflexivity]. apply check_ok.
      - exact (inv_round_robin HI').
      - rewrite (inv_stations HI').
        exact (inv_idx HI'). }
    rewrite Hchk. simpl. eexists. split; [reflexivity|]. simpl.
    split; [exact HI'|reflexivity].
Qed.

Lemma steps_Inv n m k c :
  Inv_snapshot n m c ->
  exists c', steps k c = Ok c' /\ Inv_snapshot n m c' /\ dbg c' = dbg c.
Proof.
  revert c. induction k as [|k IH]; intros c HI; simpl.
  - exists c. split; [reflexivity|]. split; [exact HI|reflexivity].
  - destruct (step_Inv n m c HI) as (c1 & Hs & HI1 & Hd1). rewrite Hs. simpl.
    destruct (IH c1 HI1) as (c' & Hs' & HI' & Hd').
    exists c'. split; [exact Hs'|]. split; [exact HI'|congruence].
Qed.

Lemma reachable_Inv n m d g c :
  (1 <= m)%nat -> Z.of_nat n <= 65535 ->
  reachable n m d g c -> Inv_snapshot n m c.
Proof.
  intros Hm Hn [k Hk].
  destruct (steps_Inv n m k _ (start_Inv n m d g Hm Hn)) as (c' & Hs & HI & _).
  congruence.
Qed.

(** ** The snapshots follow the loops of [run_sim] *)

Lemma steps_add a b c :
  steps (a + b) c = let* c1 := steps a c in steps b c1.
Proof.
  revert c. induction a as [|a IH]; intros c; simpl; [reflexivity|].
  destruct (step c) as [c1|e]; simpl; [apply IH|reflexivity].
Qed.

Lemma for_each_truck_length d pd ss idx g pd' ss' idx' g' :
  Simulation.for_each_truck d pd ss idx g = Ok (pd', ss', idx', g') ->
  length pd' = length pd.
Proof.
  revert ss idx g pd' ss' idx' g'.
  induction pd as [|tr rest IH]; intros ss idx g pd' ss' idx' g' H; simpl in H.
  - injection H as <- _ _ _. reflexivity.
  - destruct (Truck.run tr ss idx g) as [[[[t1 s1] i1] g1]|e]; [|discriminate].
    simpl in H.
    destruct (if d then compare_idx_val_to_actual_min s1 i1 else Ok tt);
      [|discriminate].
    simpl in H.
    destruct (Simulation.for_each_truck d rest s1 i1 g1)
      as [[[[r1 s2] i2] g2]|e] eqn:E; [|discriminate].
    simpl in H. injection H as <- _ _ _. simpl. f_equal. eapply IH, E.
Qed.

(** The trucks' loop of one tick is as many steps as there are trucks. *)
Lemma for_each_truck_steps r d pd mv ss idx g :
  steps (length pd) (mkSnap (S r) mv pd ss idx g d) =
  let* (pd', ss', idx', g') := Simulation.for_each_truck d pd ss idx g in
  Ok (mkSnap (S r) (mv ++ pd') [] ss' idx' g' d).
Proof.
  revert mv ss idx g. induction pd as [|tr rest IH]; intros mv ss idx g.
  - simpl. rewrite app_nil_r. reflexivity.
  - simpl. unfold step at 1. simpl.
    destruct (Truck.run tr ss idx g) as [[[[t1 s1] i1] g1]|e];
      simpl; [|reflexivity].
    destruct (if d then compare_idx_val_to_actual_min s1 i1 else Ok tt);
      simpl; [|reflexivity].
    rewrite IH.
    destruct (Simulation.for_each_truck d rest s1 i1 g1)
      as [[[[r1 s2] i2] g2]|e]; simpl; [|reflexivity].
    rewrite <- app_assoc. reflexivity.
Qed.

(** One tick: the trucks' loop, then the step that decrements the queues. *)
Lemma tick_steps r s g :
  steps (length (Simulation.trucks s) + 1) (snapshot_of (S r) s g) =
  let* (s1, g1) := Simulation.tick s g in Ok (snapshot_of r s1 g1).
Proof.
  rewrite steps_add. unfold snapshot_of at 1. rewrite for_each_truck_steps.
  unfold Simulation.tick.
  destruct (Simulation.for_each_truck _ _ _ _ _) as [[[[p1 s1] i1] g1]|e];
    simpl; reflexivity.
Qed.

Lemma tick_trucks_length s g s1 g1 :
  Simulation.tick s g = Ok (s1, g1) ->
  length (Simulation.trucks s1) = length (Simulation.trucks s) /\
  Simulation.debug s1 = Simulation.debug s /\
  Simulation.total_time s1 = Simulation.total_time s.
Proof.
  unfold Simulation.tick. intros H.
  destruct (Simulation.for_each_truck _ _ _ _ _)
    as [[[[p1 ss1] i1] g2]|e] eqn:E; [|discriminate].
  simpl in H. injection H as <- _. simpl.
  split; [eapply for_each_truck_length, E|]. split; reflexivity.
Qed.

(** The whole loop: [sim_time] ticks of [length trucks + 1] steps each. *)
Lemma while_sim_time_steps r s g :
  steps (r * (length (Simulation.trucks s) + 1)) (snapshot_of r s g) =
  let* (s1, g1) := Simulation.while_sim_time r s g in
  Ok (snapshot_of 0 s1 g1).
Proof.
  revert s g. induction r as [|r IH]; intros s g; [reflexivity|].
  replace (S r * (length (Simulation.trucks s) + 1))%nat
    with ((length (Simulation.trucks s) + 1) +
          r * (length (Simulation.trucks s) + 1))%nat by lia.
  rewrite steps_add, tick_steps. simpl Simulation.while_sim_time.
  destruct (Simulation.tick s g) as [[s1 g1]|e] eqn:E; simpl; [|reflexivity].
  destruct (tick_trucks_length _ _ _ _ E) as (Hlen & _).
  rewrite <- Hlen. apply IH.
Qed.

Lemma new_fields n m d g :
  let s := fst (Simulation.new n m d g) in
  Simulation.total_time s = MAX_TIME /\
  Simulation.debug s = d /\
  length (Simulation.trucks s) = n /\
  start n m d g =
    snapshot_of (Z.to_nat MAX_TIME) s (snd (Simulation.new n m d g)).
Proof.
  unfold start, Simulation.new.
  pose proof (make_trucks_spec 1 n g ltac:(lia)) as (Hlen & _).
  destruct (Simulation.make_trucks n g) as [trs g1]. simpl in *.
  repeat split; assumption.
Qed.

(** ** The run as a whole *)

Lemma cumulative_time_ledger_sum x :
  cumulative_time x = ledger_sum x.
Proof.
  unfold cumulative_time. change (u64 (ledger_sum x) = ledger_sum x).
  apply u64_small. unfold ledger_sum.
  ledger_ranges x.
  lia.
Qed.

Lemma logging_trucks_ok m d trs :
  Forall (truck_ok m MAX_TIME) trs -> Simulation.logging_trucks d trs = Ok tt.
Proof.
  induction 1 as [|tr l Hok _ IH]; simpl; [reflexivity|].
  destruct d; simpl; [|exact IH].
  unfold compare_total_time_to_max_time, Truck.get_total_time.
  rewrite cumulative_time_ledger_sum, (ok_sum Hok), Z.eqb_refl.
  simpl. exact IH.
Qed.

(** For at least one station and a fleet that fits [uint16_t], the run
    completes, and its final state satisfies the invariant after [MAX_TIME]
    ticks. *)
Lemma run_sim_final n m d g :
  (1 <= m)%nat -> Z.of_nat n <= 65535 ->
  exists s1 g1,
    Simulation.while_sim_time (Z.to_nat MAX_TIME)
      (fst (Simulation.new n m d g)) (snd (Simulation.new n m d g))
      = Ok (s1, g1) /\
    Simulation.run_sim
      (fst (Simulation.new n m d g)) (snd (Simulation.new n m d g))
      = Ok (s1, g1) /\
    Inv n m MAX_TIME [] (Simulation.trucks s1) (Simulation.stations s1)
      (Simulation.curr_station_idx s1) /\
    reachable n m d g (snapshot_of 0 s1 g1).
Proof.
  intros Hm Hn.
  destruct (new_fields n m d g) as (Htot & Hdbg & Hlen & Hstart).
  set (s := fst (Simulation.new n m d g)) in *.
  set (g0 := snd (Simulation.new n m d g)) in *.
  destruct (steps_Inv n m (Z.to_nat MAX_TIME * (n + 1)) _
              (start_Inv n m d g Hm Hn)) as (c' & Hsteps & HI & _).
  pose proof Hsteps as Hreach.
  rewrite Hstart, <- Hlen, while_sim_time_steps in Hsteps.
  destruct (Simulation.while_sim_time (Z.to_nat MAX_TIME) s g0)
    as [[s1 g1]|e] eqn:Hw; [|discriminate].
  simpl in Hsteps. injection Hsteps as <-.
  unfold Inv_snapshot, elapsed, snapshot_of in HI. simpl in HI.
  rewrite Z.sub_0_r in HI.
  exists s1, g1. split; [reflexivity|]. split; [|split].
  - unfold Simulation.run_sim. rewrite Htot, Hw. simpl.
    rewrite (logging_trucks_ok m) by exact (inv_pending HI).
    reflexivity.
  - exact HI.
  - exists (Z.to_nat MAX_TIME * (n + 1))%nat. exact Hreach.
Qed.

(** Facts about a reachable snapshot in which a truck is about to move. *)
Lemma reachable_pending n m d g c tr rest :
  (1 <= m)%nat -> Z.of_nat n <= 65535 ->
  reachable n m d g c -> remaining c <> O -> pending c = tr :: rest ->
  Inv n m (elapsed c) (moved c) (tr :: rest) (sts c) (cursor c) /\
  elapsed c < MAX_TIME /\ truck_ok m (elapsed c) tr.
Proof.
  intros Hm Hn Hr Hrem Hpd.
  pose proof (reachable_Inv n m d g c Hm Hn Hr) as HI.
  unfold Inv_snapshot in HI. rewrite Hpd in HI.
  split; [exact HI|]. split.
  - unfold elapsed. lia.
  - pose proof (inv_pending HI) as Hp. inversion Hp; assumption.
Qed.

(** A truck in Waiting counts its timer down to Unloading, one Waiting
    increment per call, without touching the stations, the cursor or the
    engine. *)
Lemma waiting_countdown (j : nat) q tt si stations idx g :
  1 <= q < 65536 -> Z.of_nat j <= q -> 0 <= tt < 2 ^ 64 ->
  run_times j (Truck.mk Waiting q tt si) stations idx g =
    Ok (Truck.mk (if Z.of_nat j =? q then Unloading else Waiting)
          (q - Z.of_nat j) (u64 (tt + Z.of_nat j * WAITING_INC)) si,
        stations, idx, g).
Proof.
  revert q tt. induction j as [|j IH]; intros q tt Hq Hj Htt.
  - cbn [run_times]. change (Z.of_nat 0) with 0.
    destruct (Z.eqb_spec 0 q); [lia|].
    rewrite Z.sub_0_r, Z.mul_0_l, Z.add_0_r, u64_small by exact Htt.
    reflexivity.
  - cbn [run_times]. unfold Truck.run. cbn [Truck.state Truck.timer
      Truck.total_time Truck.station_idx].
    rewrite timer_dec by lia.
    assert (Htt' : 0 <= u64 (tt + WAITING_INC) < 2 ^ 64)
      by (unfold u64; apply Z.mod_pos_bound; lia).
    assert (Hsum : forall k, u64 (u64 (tt + WAITING_INC) + k) =
                             u64 (tt + WAITING_INC + k)).
    { intros k. unfold u64. apply Zplus_mod_idemp_l. }
    destruct (Z.eqb_spec (q - 1) 0) as [E|E]; cbn [bind].
    + assert (j = 0%nat) by lia. subst j. cbn [run_times].
      destruct (Z.eqb_spec (Z.of_nat 1) q); [|lia].
      change (Z.of_nat 1) with 1. rewrite Z.mul_1_l. reflexivity.
    + rewrite IH by (try exact Htt'; lia). rewrite Hsum.
      replace (q - Z.of_nat (S j)) with (q - 1 - Z.of_nat j) by lia.
      replace (tt + Z.of_nat (S j) * WAITING_INC)
        with (tt + WAITING_INC + Z.of_nat j * WAITING_INC)
        by (unfold WAITING_INC; lia).
      destruct (Z.eqb_spec (Z.of_nat j) (q - 1));
        destruct (Z.eqb_spec (Z.of_nat (S j)) q); try lia; reflexivity.
Qed.

Lemma progress_nonneg tr : 0 <= progress tr.
Proof.
  unfold progress, TRAVEL_TIME, ONE_HOUR. destruct (Truck.state tr); lia.
Qed.

Lemma unloads_bound m (trs : list Truck.t) :
  Forall (truck_ok m MAX_TIME) trs ->
  sumZ (map unloads_of trs) <= Z.of_nat (length trs) * (MAX_TIME / MIN_CYCLE).
Proof.
  change (MAX_TIME / MIN_CYCLE) with 34.
  induction 1 as [|tr l Hok _ IH]; [simpl; lia|].
  cbn [map sumZ length].
  pose proof (ok_cycle Hok) as Hc.
  pose proof (progress_nonneg tr).
  unfold MIN_CYCLE, MAX_TIME, TRAVEL_TIME, ONE_HOUR in Hc. lia.
Qed.

(** ** Determinism in the durations drawn *)

Lemma same_durations_rmt g1 g2 :
  same_durations g1 g2 ->
  fst (rmt g1) = fst (rmt g2) /\ same_durations (snd (rmt g1)) (snd (rmt g2)).
Proof.
  intros H. split.
  - specialize (H 0%nat). unfold duration in H.
    rewrite !Nat.add_0_r in H. destruct g1, g2. exact H.
  - intros k. specialize (H (S k)). unfold duration in *. simpl.
    rewrite !Nat.add_succ_r in H. exact H.
Qed.

Lemma same_outcome_bind {A B : Type} (r1 r2 : Res (A * Gen))
    (k : A * Gen -> Res (B * Gen)) :
  same_outcome r1 r2 ->
  (forall a g1 g2, same_durations g1 g2 ->
     same_outcome (k (a, g1)) (k (a, g2))) ->
  same_outcome (bind r1 k) (bind r2 k).
Proof.
  intros Hr Hk. destruct r1 as [[a1 g1]|e1], r2 as [[a2 g2]|e2];
    simpl in *; try contradiction.
  - destruct Hr as [<- Hg]. apply Hk, Hg.
  - exact Hr.
Qed.

Lemma run_same tr stations idx g1 g2 :
  same_durations g1 g2 ->
  same_outcome (Truck.run tr stations idx g1) (Truck.run tr stations idx g2).
Proof.
  intros Hg. destruct (same_durations_rmt _ _ Hg) as [Hd Hg'].
  unfold Truck.run.
  destruct (Truck.state tr);
    repeat match goal with
           | |- context [if ?b then _ else _] => destruct b
           | |- context [match ?o with Some _ => _ | None => _ end] =>
               destruct o
           end;
    try (simpl; split; [reflexivity|exact Hg]); try reflexivity.
  destruct (rmt g1) as [d1 h1], (rmt g2) as [d2 h2]. simpl in *.
  subst d2. split; [reflexivity|exact Hg'].
Qed.

Lemma for_each_truck_same d trs stations idx g1 g2 :
  same_durations g1 g2 ->
  same_outcome (Simulation.for_each_truck d trs stations idx g1)
               (Simulation.for_each_truck d trs stations idx g2).
Proof.
  revert stations idx g1 g2.
  induction trs as [|tr rest IH]; intros stations idx g1 g2 Hg.
  - simpl. split; [reflexivity|exact Hg].
  - cbn [Simulation.for_each_truck].
    apply same_outcome_bind; [apply run_same, Hg|].
    intros [[t1 s1] i1] h1 h2 Hh.
    destruct (if d then compare_idx_val_to_actual_min s1 i1 else Ok tt);
      cbn [bind]; [|reflexivity].
    apply same_outcome_bind; [apply IH, Hh|].
    intros [[r1 s2] i2] k1 k2 Hk. simpl. split; [reflexivity|exact Hk].
Qed.

Lemma tick_same s g1 g2 :
  same_durations g1 g2 ->
  same_outcome (Simulation.tick s g1) (Simulation.tick s g2).
Proof.
  intros Hg. unfold Simulation.tick.
  apply same_outcome_bind; [apply for_each_truck_same, Hg|].
  intros [[r1 s2] i2] k1 k2 Hk. simpl. split; [reflexivity|exact Hk].
Qed.

Lemma while_sim_time_same r s g1 g2 :
  same_durations g1 g2 ->
  same_outcome (Simulation.while_sim_time r s g1)
               (Simulation.while_sim_time r s g2).
Proof.
  revert s g1 g2. induction r as [|r IH]; intros s g1 g2 Hg.
  - simpl. split; [reflexivity|exact Hg].
  - cbn [Simulation.while_sim_time].
    pose proof (tick_same s g1 g2 Hg) as Ht.
    destruct (Simulation.tick s g1) as [[s1 h1]|e1],
             (Simulation.tick s g2) as [[s2 h2]|e2];
      simpl in Ht; try contradiction; cbn [bind].
    + destruct Ht as [<- Hh]. apply IH, Hh.
    + exact Ht.
Qed.

Lemma run_sim_same s g1 g2 :
  same_durations g1 g2 ->
  same_outcome (Simulation.run_sim s g1) (Simulation.run_sim s g2).
Proof.
  intros Hg. unfold Simulation.run_sim.
  pose proof (while_sim_time_same (Z.to_nat (Simulation.total_time s)) s g1 g2
                Hg) as Hw.
  destruct (Simulation.while_sim_time _ s g1) as [[s1 h1]|e1],
           (Simulation.while_sim_time _ s g2) as [[s2 h2]|e2];
    simpl in Hw; try contradiction; cbn [bind].
  - destruct Hw as [<- Hh].
    destruct (Simulation.logging_trucks _ _); simpl; [|reflexivity].
    split; [reflexivity|exact Hh].
  - exact Hw.
Qed.

Lemma make_trucks_same n g1 g2 :
  same_durations g1 g2 ->
  fst (Simulation.make_trucks n g1) = fst (Simulation.make_trucks n g2) /\
  same_durations (snd (Simulation.make_trucks n g1))
                 (snd (Simulation.make_trucks n g2)).
Proof.
  revert g1 g2. induction n as [|n IH]; intros g1 g2 Hg.
  - simpl. split; [reflexivity|exact Hg].
  - rewrite !make_trucks_S. cbn [fst snd].
    destruct (same_durations_rmt _ _ Hg) as [Hd Hg'].
    assert (Hnew : fst (Truck.new g1) = fst (Truck.new g2) /\
                   same_durations (snd (Truck.new g1)) (snd (Truck.new g2))).
    { unfold Truck.new. destruct (rmt g1) as [d1 h1], (rmt g2) as [d2 h2].
      simpl in *. subst d2. split; [reflexivity|exact Hg']. }
    destruct Hnew as [Ht Hh]. destruct (IH _ _ Hh) as [Hr Hk].
    rewrite Ht, Hr. split; [reflexivity|exact Hk].
Qed.

(** ** The run follows the schedule *)

Lemma do_events_app l1 l2 w :
  do_events (l1 ++ l2) w = let* w1 := do_events l1 w in do_events l2 w1.
Proof.
  revert w. induction l1 as [|e l1 IH]; intros w; simpl; [reflexivity|].
  destruct (do_event e w) as [w1|err]; simpl; [apply IH|reflexivity].
Qed.

Lemma run_stations_length tr stations idx g tr' stations' idx' g' :
  Truck.run tr stations idx g = Ok (tr', stations', idx', g') ->
  length stations' = length stations.
Proof.
  unfold Truck.run. intros H.
  destruct (Truck.state tr);
    repeat match type of H with
           | (if ?b then _ else _) = _ => destruct b
           | match ?o with Some _ => _ | None => _ end = _ => destruct o
           | (let '(_, _) := ?p in _) = _ => destruct p
           end;
    try discriminate; injection H as _ <- _ _;
    rewrite ?length_insert; reflexivity.
Qed.

Lemma for_each_truck_stations_length d pd ss idx g pd' ss' idx' g' :
  Simulation.for_each_truck d pd ss idx g = Ok (pd', ss', idx', g') ->
  length ss' = length ss.
Proof.
  revert ss idx g pd' ss' idx' g'.
  induction pd as [|tr rest IH]; intros ss idx g pd' ss' idx' g' H; simpl in H.
  - injection H as _ <- _ _. reflexivity.
  - destruct (Truck.run tr ss idx g) as [[[[t1 s1] i1] g1]|e] eqn:Er;
      [|discriminate].
    simpl in H.
    destruct (if d then compare_idx_val_to_actual_min s1 i1 else Ok tt);
      [|discriminate].
    simpl in H.
    destruct (Simulation.for_each_truck d rest s1 i1 g1)
      as [[[[r1 s2] i2] g2]|e] eqn:E; [|discriminate].
    simpl in H. injection H as _ <- _ _.
    rewrite (IH _ _ _ _ _ _ _ E). eapply run_stations_length, Er.
Qed.

(** The events [EvRun] for the trucks after a prefix already moved are the
    trucks' loop on those trucks. *)
Lemma do_events_trucks pd pre idx tot d ss g :
  do_events (map EvRun (seq (length pre) (length pd)))
    (Simulation.mk idx tot d ss (pre ++ pd), g) =
  let* (pd', ss', idx', g') := Simulation.for_each_truck d pd ss idx g in
  Ok (Simulation.mk idx' tot d ss' (pre ++ pd'), g').
Proof.
  revert pre idx ss g. induction pd as [|tr rest IH]; intros pre idx ss g.
  - reflexivity.
  - cbn [length seq map do_events Simulation.for_each_truck].
    unfold do_event. cbn [Simulation.trucks Simulation.stations
      Simulation.curr_station_idx Simulation.debug Simulation.total_time].
    rewrite list_lookup_middle by reflexivity.
    destruct (Truck.run tr ss idx g) as [[[[t1 s1] i1] g1]|e];
      cbn [bind]; [|reflexivity].
    destruct (if d then compare_idx_val_to_actual_min s1 i1 else Ok tt);
      cbn [bind]; [|reflexivity].
    replace (<[length pre := t1]> (pre ++ tr :: rest))
      with ((pre ++ [t1]) ++ rest).
    + replace (S (length pre)) with (length (pre ++ [t1]))
        by (rewrite length_app; simpl; lia).
      rewrite IH.
      destruct (Simulation.for_each_truck d rest s1 i1 g1)
        as [[[[r1 s2] i2] g2]|e]; cbn [bind]; [|reflexivity].
      rewrite <- app_assoc. reflexivity.
    + rewrite <- app_assoc. simpl.
      rewrite insert_app_r_alt by lia. rewrite Nat.sub_diag. reflexivity.
Qed.

(** The events [EvDec] for the stations after a prefix already decremented
    decrement each of those stations once. *)
Lemma do_events_stations rest pre idx tot d trs g :
  do_events (map EvDec (seq (length pre) (length rest)))
    (Simulation.mk idx tot d (pre ++ rest) trs, g) =
  Ok (Simulation.mk idx tot d (pre ++ map Station.decrement_queue rest) trs, g).
Proof.
  revert pre. induction rest as [|st rest IH]; intros pre.
  - reflexivity.
  - cbn [length seq map do_events]. unfold do_event.
    cbn [Simulation.trucks Simulation.stations
      Simulation.curr_station_idx Simulation.debug Simulation.total_time].
    rewrite list_lookup_middle by reflexivity. cbn [bind].
    replace (<[length pre := Station.decrement_queue st]> (pre ++ st :: rest))
      with ((pre ++ [Station.decrement_queue st]) ++ rest).
    + replace (S (length pre))
        with (length (pre ++ [Station.decrement_queue st]))
        by (rewrite length_app; simpl; lia).
      rewrite IH. rewrite <- app_assoc. reflexivity.
    + rewrite <- app_assoc. simpl.
      rewrite insert_app_r_alt by lia. rewrite Nat.sub_diag. reflexivity.
Qed.

(** One tick of the schedule is one iteration of the loop of [run_sim]. *)
Lemma do_events_tick s g :
  do_events (tick_schedule (length (Simulation.trucks s))
               (length (Simulation.stations s))) (s, g) =
  Simulation.tick s g.
Proof.
  unfold tick_schedule, Simulation.tick. rewrite do_events_app.
  destruct s as [idx tot d ss trs].
  cbn [Simulation.trucks Simulation.stations Simulation.curr_station_idx
       Simulation.debug Simulation.total_time].
  pose proof (do_events_trucks trs [] idx tot d ss g) as Ht.
  cbn [length app] in Ht. rewrite Ht.
  destruct (Simulation.for_each_truck d trs ss idx g)
    as [[[[p1 s1] i1] g1]|e] eqn:E; cbn [bind]; [|reflexivity].
  rewrite <- (for_each_truck_stations_length _ _ _ _ _ _ _ _ _ E).
  pose proof (do_events_stations s1 [] i1 tot d p1 g1) as Hs.
  cbn [length app] in Hs. exact Hs.
Qed.

Lemma tick_stations_length s g s1 g1 :
  Simulation.tick s g = Ok (s1, g1) ->
  length (Simulation.stations s1) = length (Simulation.stations s).
Proof.
  unfold Simulation.tick. intros H.
  destruct (Simulation.for_each_truck _ _ _ _ _)
    as [[[[p1 ss1] i1] g2]|e] eqn:E; [|discriminate].
  simpl in H. injection H as <- _. simpl. rewrite length_map.
  eapply for_each_truck_stations_length, E.
Qed.

(** The whole schedule is the whole loop. *)
Lemma do_events_schedule r s g :
  do_events (schedule (length (Simulation.trucks s))
               (length (Simulation.stations s)) r) (s, g) =
  Simulation.while_sim_time r s g.
Proof.
  revert s g. induction r as [|r IH]; intros s g; [reflexivity|].
  unfold schedule. cbn [replicate concat].
  rewrite do_events_app, do_events_tick. cbn [Simulation.while_sim_time].
  destruct (Simulation.tick s g) as [[s1 g1]|e] eqn:E; cbn [bind];
    [|reflexivity].
  destruct (tick_trucks_length _ _ _ _ E) as (Hlt & _).
  pose proof (tick_stations_length _ _ _ _ E) as Hls.
  rewrite <- Hlt, <- Hls. apply IH.
Qed.

(** * The claims *)

(** C1. After a full run of [run_sim] (horizon 864 ticks), for every truck
    the four ledger fields read from the packed [total_time] (Waiting,
    Unloading, Traveling, Mining) add up to exactly 864. *)
Theorem C1_ledger_sum_is_horizon n m d g :
  (1 <= m)%nat -> Z.of_nat n <= 65535 ->
  exists s1 g1,
    Simulation.run_sim
      (fst (Simulation.new n m d g)) (snd (Simulation.new n m d g))
      = Ok (s1, g1) /\
    length (Simulation.trucks s1) = n /\
    forall truck, truck ∈ Simulation.trucks s1 ->
      RETRIEVE_TIME (Truck.get_total_time truck) WAITING_MASK 0 +
      RETRIEVE_TIME (Truck.get_total_time truck) UNLOADING_MASK 16 +
      RETRIEVE_TIME (Truck.get_total_time truck) TRAVELING_MASK 32 +
      RETRIEVE_TIME (Truck.get_total_time truck) MINING_MASK 48 = 864.
Proof.
  intros Hm Hn.
  destruct (run_sim_final n m d g Hm Hn) as (s1 & g1 & _ & Hrun & HI & _).
  exists s1, g1. split; [exact Hrun|]. split.
  - pose proof (inv_trucks HI) as Hlen. simpl in Hlen. exact Hlen.
  - intros truck Hin.
    pose proof (inv_pending HI) as Hp.
    rewrite Forall_forall in Hp.
    exact (ok_sum (Hp truck Hin)).
Qed.

Lemma C1_witness :
  (1 <= 1)%nat /\ Z.of_nat 2 <= 65535 /\
  exists s1 g1,
    Simulation.run_sim
      (fst (Simulation.new 2 1 true (mkGen (fun _ => 0) 0)))
      (snd (Simulation.new 2 1 true (mkGen (fun _ => 0) 0)))
      = Ok (s1, g1) /\
    length (Simulation.trucks s1) = 2%nat /\
    forall truck, truck ∈ Simulation.trucks s1 ->
      RETRIEVE_TIME (Truck.get_total_time truck) WAITING_MASK 0 +
      RETRIEVE_TIME (Truck.get_total_time truck) UNLOADING_MASK 16 +
      RETRIEVE_TIME (Truck.get_total_time truck) TRAVELING_MASK 32 +
      RETRIEVE_TIME (Truck.get_total_time truck) MINING_MASK 48 = 864.
Proof.
  split; [lia|]. split; [lia|].
  apply (C1_ledger_sum_is_horizon 2 1 true (mkGen (fun _ => 0) 0)); lia.
Defined.

(** C2. Every call of [Truck::run] made by the simulation, in whatever state
    the truck is, adds exactly 1 to exactly one of the four packed ledger
    fields (the one charged for the truck's state) and leaves the three
    others unchanged; the call never throws. *)
Theorem C2_one_field_per_call n m d g c tr rest :
  (1 <= m)%nat -> Z.of_nat n <= 65535 ->
  reachable n m d g c -> remaining c <> O -> pending c = tr :: rest ->
  exists tr' sts' idx' g',
    Truck.run tr (sts c) (cursor c) (rng c) = Ok (tr', sts', idx', g') /\
    ledger (charged (Truck.state tr)) (Truck.total_time tr') =
      ledger (charged (Truck.state tr)) (Truck.total_time tr) + 1 /\
    forall f, f <> charged (Truck.state tr) ->
      ledger f (Truck.total_time tr') = ledger f (Truck.total_time tr).
Proof.
  intros Hm Hn Hr Hrem Hpd.
  destruct (reachable_pending n m d g c tr rest Hm Hn Hr Hrem Hpd)
    as (HI & HT & Hok).
  destruct (truck_step n m _ _ tr rest _ _ (rng c) HI HT)
    as (tr' & sts' & idx' & g' & Hrun & _).
  exists tr', sts', idx', g'. split; [exact Hrun|].
  rewrite (run_total_time _ _ _ _ _ _ _ _ Hrun).
  set (f := charged (Truck.state tr)).
  pose proof (ok_total Hok) as Htot.
  pose proof (ok_sum Hok) as Hsum. unfold ledger_sum in Hsum.
  ledger_ranges (Truck.total_time tr).
  unfold MAX_TIME in HT.
  assert (Hf : ledger f (Truck.total_time tr) < 65535) by (destruct f; lia).
  destruct (ledger_add f _ Htot Hf) as [_ Hl]. split.
  - rewrite Hl. destruct f; reflexivity.
  - intros f' Hne. rewrite Hl. destruct f', f; simpl; congruence.
Qed.

Lemma C2_witness :
  exists tr' sts' idx' g',
    Truck.run (Truck.mk Mining 12 0 0) [Station.new] 0 (mkGen (fun _ => 0) 1)
      = Ok (tr', sts', idx', g') /\
    ledger FMining (Truck.total_time tr') = ledger FMining 0 + 1 /\
    forall f, f <> FMining -> ledger f (Truck.total_time tr') = ledger f 0.
Proof.
  apply (C2_one_field_per_call 1 1 false (mkGen (fun _ => 0) 0)
           (start 1 1 false (mkGen (fun _ => 0) 0))
           (Truck.mk Mining 12 0 0) []).
  - lia.
  - lia.
  - exists 0%nat. reflexivity.
  - vm_compute. discriminate.
  - reflexivity.
Defined.

(** C3. In every reachable state of the simulation the station under the
    dispatcher cursor has a queue that is minimal among all stations, so the
    debug check after a truck's transition never fails; and a truck that
    finishes TravelToStation is assigned that station, whose queue before
    the increment is therefore the minimum. *)
Theorem C3_cursor_is_shortest n m d g c :
  (1 <= m)%nat -> Z.of_nat n <= 65535 -> reachable n m d g c ->
  (exists st, sts c !! cursor c = Some st /\
     forall st', st' ∈ sts c ->
       Station.get_queue st <= Station.get_queue st') /\
  compare_idx_val_to_actual_min (sts c) (cursor c) = Ok tt /\
  (forall tr rest,
     remaining c <> O -> pending c = tr :: rest ->
     Truck.state tr = TravelStation -> Truck.timer tr = 1 ->
     exists st tr' idx' g',
       sts c !! cursor c = Some st /\
       Truck.run tr (sts c) (cursor c) (rng c) =
         Ok (tr', <[cursor c := Station.increment_queue st]> (sts c),
             idx', g') /\
       Truck.station_idx tr' = cursor c /\
       forall st', st' ∈ sts c ->
         Station.get_queue st <= Station.get_queue st').
Proof.
  intros Hm Hn Hr.
  pose proof (reachable_Inv n m d g c Hm Hn Hr) as HI.
  unfold Inv_snapshot in HI.
  pose proof (inv_round_robin HI) as Hrr.
  assert (Hidx : (cursor c < length (sts c))%nat).
  { rewrite (inv_stations HI). exact (inv_idx HI). }
  destruct (round_robin_min _ _ Hrr Hidx) as (st & Hst & Hmin).
  split; [exists st; split; assumption|].
  split; [apply check_ok; assumption|].
  intros tr rest Hrem Hpd HTS Htm.
  destruct (reachable_pending n m d g c tr rest Hm Hn Hr Hrem Hpd)
    as (HI' & HT & Hok).
  assert (Hq : 0 <= Station.queue st < 65535).
  { pose proof (inv_queue HI _ _ Hst).
    pose proof (queue_bound _ _ _ _ _ _ _ _ (cursor c) st HI'
                  ltac:(congruence) Hst).
    lia. }
  destruct (run_arrive m _ tr (sts c) (cursor c) (rng c) st Hok HT HTS Htm Hst
              Hq (inv_idx HI) (inv_stations HI))
    as (Hrun & _ & _).
  eexists st, _, _, _. split; [exact Hst|]. split; [|split].
  - rewrite Hrun. unfold Station.increment_queue.
    rewrite u16_small by lia. reflexivity.
  - reflexivity.
  - exact Hmin.
Qed.

Lemma C3_witness :
  (exists st, sts two_assigned !! cursor two_assigned = Some st /\
     forall st', st' ∈ sts two_assigned ->
       Station.get_queue st <= Station.get_queue st') /\
  compare_idx_val_to_actual_min (sts two_assigned) (cursor two_assigned)
    = Ok tt /\
  (forall tr rest,
     remaining two_assigned <> O -> pending two_assigned = tr :: rest ->
     Truck.state tr = TravelStation -> Truck.timer tr = 1 ->
     exists st tr' idx' g',
       sts two_assigned !! cursor two_assigned = Some st /\
       Truck.run tr (sts two_assigned) (cursor two_assigned)
         (rng two_assigned) =
         Ok (tr',
             <[cursor two_assigned := Station.increment_queue st]>
               (sts two_assigned),
             idx', g') /\
       Truck.station_idx tr' = cursor two_assigned /\
       forall st', st' ∈ sts two_assigned ->
         Station.get_queue st <= Station.get_queue st').
Proof.
  apply (C3_cursor_is_shortest 3 2 true hourly two_assigned).
  - lia.
  - lia.
  - exists (17 * 4 + 2)%nat. vm_compute. reflexivity.
Defined.

(** C4. The queue counter never underflows: after any sequence of
    operations on a station, [decrement_queue] on a queue that is 0 leaves
    the station as it is, and on a queue above 0 it lowers the queue by
    exactly 1 and touches nothing else; the counter stays within its type
    throughout. *)
Theorem C4_decrement_queue_saturates (st0 : Station.t) (ops : list StationOp) :
  0 <= Station.queue st0 < 65536 ->
  let st := do_ops ops st0 in
  0 <= Station.queue st < 65536 /\
  (Station.queue st = 0 -> Station.decrement_queue st = st) /\
  (0 < Station.queue st ->
     Station.decrement_queue st =
       Station.mk (Station.queue st - 1) (Station.num_trucks_unloaded st)) /\
  0 <= Station.queue (Station.decrement_queue st) <= Station.queue st.
Proof.
  intros Hq0 st.
  assert (Hq : 0 <= Station.queue st < 65536).
  { subst st. unfold do_ops. revert st0 Hq0.
    induction ops as [|o ops IH]; intros st0 Hq0; [exact Hq0|].
    simpl. apply IH. destruct o; simpl; try apply u16_range. exact Hq0. }
  split; [exact Hq|].
  destruct st as [q u]. simpl in *.
  unfold Station.decrement_queue. simpl.
  split; [|split].
  - intros ->. reflexivity.
  - intros Hpos. destruct (Z.ltb_spec 0 q); [|lia].
    rewrite u16_small by lia. reflexivity.
  - destruct (Z.ltb_spec 0 q); rewrite u16_small by lia; lia.
Qed.

Lemma C4_witness :
  0 <= 1 < 65536 /\
  let st := do_ops [OpDecrementQueue; OpDecrementQueue; OpIncrementQueue]
              (Station.mk 1 7) in
  0 <= Station.queue st < 65536 /\
  (Station.queue st = 0 -> Station.decrement_queue st = st) /\
  (0 < Station.queue st ->
     Station.decrement_queue st =
       Station.mk (Station.queue st - 1) (Station.num_trucks_unloaded st)) /\
  0 <= Station.queue (Station.decrement_queue st) <= Station.queue st.
Proof.
  split; [lia|].
  apply (C4_decrement_queue_saturates (Station.mk 1 7)
           [OpDecrementQueue; OpDecrementQueue; OpIncrementQueue]).
  simpl. lia.
Defined.

(** C5. The loop of [run_sim] runs exactly [total_time] = [MAX_TIME] = 864
    ticks and never stops early; each tick first calls [run] once on every
    truck, in insertion order, and only then calls [decrement_queue] once on
    every station. *)
Theorem C5_run_follows_schedule n m d g :
  (1 <= m)%nat -> Z.of_nat n <= 65535 ->
  Simulation.total_time (fst (Simulation.new n m d g)) = 864 /\
  exists s1 g1,
    Simulation.run_sim
      (fst (Simulation.new n m d g)) (snd (Simulation.new n m d g))
      = Ok (s1, g1) /\
    do_events (schedule n m 864) (Simulation.new n m d g) = Ok (s1, g1).
Proof.
  intros Hm Hn.
  destruct (new_fields n m d g) as (Htot & _ & Hlen & _).
  split; [exact Htot|].
  destruct (run_sim_final n m d g Hm Hn) as (s1 & g1 & Hw & Hrun & _ & _).
  exists s1, g1. split; [exact Hrun|].
  assert (Hm' : length (Simulation.stations (fst (Simulation.new n m d g))) = m).
  { unfold Simulation.new. destruct (Simulation.make_trucks n g).
    simpl. apply length_replicate. }
  destruct (Simulation.new n m d g) as [s0 g0]. cbn [fst snd] in *.
  rewrite <- Hw. change (Z.to_nat MAX_TIME) with 864%nat.
  subst n m. apply do_events_schedule.
Qed.

Lemma C5_witness :
  (1 <= 2)%nat /\ Z.of_nat 3 <= 65535 /\
  Simulation.total_time (fst (Simulation.new 3 2 true hourly)) = 864 /\
  exists s1 g1,
    Simulation.run_sim
      (fst (Simulation.new 3 2 true hourly))
      (snd (Simulation.new 3 2 true hourly))
      = Ok (s1, g1) /\
    do_events (schedule 3 2 864) (Simulation.new 3 2 true hourly)
      = Ok (s1, g1).
Proof.
  split; [lia|]. split; [lia|].
  apply (C5_run_follows_schedule 3 2 true hourly); lia.
Defined.

(** C6. When the TravelToStation timer of a truck reaches 0, the truck
    records the cursor as its station, takes that station's queue length as
    its timer, the queue is incremented and the cursor advanced modulo the
    number of stations; with a recorded queue of 0 the truck goes straight to
    Unloading and no Waiting increment is charged, otherwise it is in Waiting
    for exactly that many calls, each charged to Waiting, and then in
    Unloading. *)
Theorem C6_arrival_at_station n m d g c tr rest :
  (1 <= m)%nat -> Z.of_nat n <= 65535 -> reachable n m d g c ->
  remaining c <> O -> pending c = tr :: rest ->
  Truck.state tr = TravelStation -> Truck.timer tr = 1 ->
  exists st tr',
    sts c !! cursor c = Some st /\
    Truck.run tr (sts c) (cursor c) (rng c) =
      Ok (tr', <[cursor c := Station.increment_queue st]> (sts c),
          ((cursor c + 1) mod length (sts c))%nat, rng c) /\
    Station.increment_queue st =
      Station.mk (Station.queue st + 1) (Station.num_trucks_unloaded st) /\
    Truck.station_idx tr' = cursor c /\
    Truck.timer tr' = Station.get_queue st /\
    Truck.total_time tr' = u64 (Truck.total_time tr + TRAVELING_INC) /\
    ledger FWaiting (Truck.total_time tr') =
      ledger FWaiting (Truck.total_time tr) /\
    (Station.get_queue st = 0 -> Truck.state tr' = Unloading) /\
    (0 < Station.get_queue st ->
       Truck.state tr' = Waiting /\
       forall stations idx g0 (j : nat),
         Z.of_nat j <= Station.get_queue st ->
         exists trj,
           run_times j tr' stations idx g0 = Ok (trj, stations, idx, g0) /\
           Truck.state trj =
             (if Z.of_nat j =? Station.get_queue st
              then Unloading else Waiting) /\
           Truck.timer trj = Station.get_queue st - Z.of_nat j /\
           Truck.total_time trj =
             u64 (Truck.total_time tr' + Z.of_nat j * WAITING_INC)).
Proof.
  intros Hm Hn Hr Hrem Hpd HTS Htm.
  destruct (reachable_pending n m d g c tr rest Hm Hn Hr Hrem Hpd)
    as (HI & HT & Hok).
  pose proof (inv_idx HI) as Hidx.
  pose proof (inv_stations HI) as Hlen.
  destruct (lookup_lt_is_Some_2 (sts c) (cursor c) ltac:(lia)) as [st Hst].
  assert (Hq : 0 <= Station.queue st < 65535).
  { pose proof (inv_queue HI _ _ Hst).
    pose proof (queue_bound _ _ _ _ _ _ _ _ (cursor c) st HI
                  ltac:(congruence) Hst).
    lia. }
  destruct (run_arrive m _ tr (sts c) (cursor c) (rng c) st Hok HT HTS Htm Hst
              Hq Hidx Hlen) as (Hrun & Hok' & _).
  assert (Hinc : Station.increment_queue st =
            Station.mk (Station.queue st + 1) (Station.num_trucks_unloaded st)).
  { unfold Station.increment_queue. rewrite u16_small by lia. reflexivity. }
  eexists st, _. split; [exact Hst|]. split.
  { rewrite Hrun, Hinc, Hlen. reflexivity. }
  split; [exact Hinc|]. cbn [Truck.station_idx Truck.timer Truck.total_time
                               Truck.state].
  split; [reflexivity|]. split; [reflexivity|]. split; [reflexivity|].
  pose proof (ok_total Hok) as Htot.
  pose proof (ok_sum Hok) as Hsum. unfold ledger_sum in Hsum.
  ledger_ranges (Truck.total_time tr).
  unfold MAX_TIME in HT.
  destruct (ledger_add FTraveling _ Htot ltac:(lia)) as [Hr64 Hl].
  split; [apply (Hl FWaiting)|].
  unfold Station.get_queue. split.
  - intros ->. reflexivity.
  - intros Hpos. destruct (Z.eqb_spec (Station.queue st) 0); [lia|].
    split; [reflexivity|].
    intros stations idx g0 j Hj.
    rewrite waiting_countdown by (try exact Hr64; lia).
    eexists. split; [reflexivity|]. simpl. auto.
Qed.

Lemma C6_witness :
  exists st tr',
    sts second_arrives !! cursor second_arrives = Some st /\
    Truck.run (Truck.mk TravelStation 1 3377721195364352 0)
      (sts second_arrives) (cursor second_arrives) (rng second_arrives) =
      Ok (tr',
          <[cursor second_arrives := Station.increment_queue st]>
            (sts second_arrives),
          ((cursor second_arrives + 1) mod length (sts second_arrives))%nat,
          rng second_arrives) /\
    Station.increment_queue st =
      Station.mk (Station.queue st + 1) (Station.num_trucks_unloaded st) /\
    Truck.station_idx tr' = cursor second_arrives /\
    Truck.timer tr' = Station.get_queue st /\
    Truck.total_time tr' =
      u64 (Truck.total_time (Truck.mk TravelStation 1 3377721195364352 0) +
           TRAVELING_INC) /\
    ledger FWaiting (Truck.total_time tr') =
      ledger FWaiting
        (Truck.total_time (Truck.mk TravelStation 1 3377721195364352 0)) /\
    (Station.get_queue st = 0 -> Truck.state tr' = Unloading) /\
    (0 < Station.get_queue st ->
       Truck.state tr' = Waiting /\
       forall stations idx g0 (j : nat),
         Z.of_nat j <= Station.get_queue st ->
         exists trj,
           run_times j tr' stations idx g0 = Ok (trj, stations, idx, g0) /\
           Truck.state trj =
             (if Z.of_nat j =? Station.get_queue st
              then Unloading else Waiting) /\
           Truck.timer trj = Station.get_queue st - Z.of_nat j /\
           Truck.total_time trj =
             u64 (Truck.total_time tr' + Z.of_nat j * WAITING_INC)).
Proof.
  apply (C6_arrival_at_station 2 1 true hourly second_arrives
           (Truck.mk TravelStation 1 3377721195364352 0) []).
  - lia.
  - lia.
  - exists (17 * 3 + 1)%nat. vm_compute. reflexivity.
  - vm_compute. discriminate.
  - vm_compute. reflexivity.
  - reflexivity.
  - reflexivity.
Defined.

(** C7. A truck in Unloading spends one call there: the call adds 1 to the
    Unloading field (the timer is not decremented but set), adds exactly 1 to
    the unloaded count of the station recorded in [station_idx], sets the
    timer to [TRAVEL_TIME] and moves to TravelToMine; the queue of that
    station, every other station, the cursor and the engine are as before. *)
Theorem C7_unloading_tick n m d g c tr rest :
  (1 <= m)%nat -> Z.of_nat n <= 65535 -> reachable n m d g c ->
  remaining c <> O -> pending c = tr :: rest ->
  Truck.state tr = Unloading ->
  exists st tr' sts',
    sts c !! Truck.station_idx tr = Some st /\
    Truck.run tr (sts c) (cursor c) (rng c) = Ok (tr', sts', cursor c, rng c) /\
    Truck.state tr' = TravelMining /\
    Truck.timer tr' = TRAVEL_TIME /\
    Truck.station_idx tr' = Truck.station_idx tr /\
    ledger FUnloading (Truck.total_time tr') =
      ledger FUnloading (Truck.total_time tr) + 1 /\
    (forall f, f <> FUnloading ->
       ledger f (Truck.total_time tr') = ledger f (Truck.total_time tr)) /\
    sts' !! Truck.station_idx tr =
      Some (Station.mk (Station.queue st)
              (Station.num_trucks_unloaded st + 1)) /\
    (forall j, j <> Truck.station_idx tr -> sts' !! j = sts c !! j) /\
    length sts' = length (sts c).
Proof.
  intros Hm Hn Hr Hrem Hpd HU.
  destruct (reachable_pending n m d g c tr rest Hm Hn Hr Hrem Hpd)
    as (HI & HT & Hok).
  pose proof (ok_station Hok) as Hsi.
  rewrite <- (inv_stations HI) in Hsi.
  destruct (lookup_lt_is_Some_2 _ _ Hsi) as [st Hst].
  assert (Hun : 0 <= Station.num_trucks_unloaded st < 65535).
  { pose proof (inv_unloaded HI _ _ Hst) as [H0 H1].
    pose proof (unloading_at_nonneg (Truck.station_idx tr) (tr :: rest)).
    unfold MAX_TIME in HT. lia. }
  destruct (run_unload m _ tr (sts c) (cursor c) (rng c) st Hok HT HU Hst Hun)
    as (Hrun & _ & _).
  eexists st, _, _. split; [exact Hst|]. split; [exact Hrun|].
  cbn [Truck.station_idx Truck.timer Truck.total_time Truck.state].
  split; [reflexivity|]. split; [reflexivity|]. split; [reflexivity|].
  pose proof (ok_total Hok) as Htot.
  pose proof (ok_sum Hok) as Hsum. unfold ledger_sum in Hsum.
  ledger_ranges (Truck.total_time tr).
  unfold MAX_TIME in HT.
  destruct (ledger_add FUnloading _ Htot ltac:(lia)) as [_ Hl].
  change UNLOADING_INC with (INC FUnloading).
  split; [rewrite Hl; reflexivity|].
  split; [intros f Hf; rewrite Hl; destruct f; simpl; congruence|].
  split; [apply list_lookup_insert_eq; exact Hsi|].
  split; [intros j Hj; apply list_lookup_insert_ne; congruence|].
  apply length_insert.
Qed.

Lemma C7_witness :
  exists st tr' sts',
    sts first_unloads !! Truck.station_idx (Truck.mk Unloading 0 3377725490331648 0)
      = Some st /\
    Truck.run (Truck.mk Unloading 0 3377725490331648 0)
      (sts first_unloads) (cursor first_unloads) (rng first_unloads) =
      Ok (tr', sts', cursor first_unloads, rng first_unloads) /\
    Truck.state tr' = TravelMining /\
    Truck.timer tr' = TRAVEL_TIME /\
    Truck.station_idx tr' =
      Truck.station_idx (Truck.mk Unloading 0 3377725490331648 0) /\
    ledger FUnloading (Truck.total_time tr') =
      ledger FUnloading
        (Truck.total_time (Truck.mk Unloading 0 3377725490331648 0)) + 1 /\
    (forall f, f <> FUnloading ->
       ledger f (Truck.total_time tr') =
       ledger f (Truck.total_time (Truck.mk Unloading 0 3377725490331648 0))) /\
    sts' !! Truck.station_idx (Truck.mk Unloading 0 3377725490331648 0) =
      Some (Station.mk (Station.queue st)
              (Station.num_trucks_unloaded st + 1)) /\
    (forall j, j <> Truck.station_idx (Truck.mk Unloading 0 3377725490331648 0) ->
       sts' !! j = sts first_unloads !! j) /\
    length sts' = length (sts first_unloads).
Proof.
  apply (C7_unloading_tick 2 1 true hourly first_unloads
           (Truck.mk Unloading 0 3377725490331648 0)
           [Truck.mk Waiting 1 3377725490331648 0]).
  - lia.
  - lia.
  - exists (18 * 3)%nat. vm_compute. reflexivity.
  - vm_compute. discriminate.
  - vm_compute. reflexivity.
  - reflexivity.
Defined.

(** C8. At the end of the run the unloaded counts of all stations add up to
    the number of Unloading ticks of all trucks (one per completed cycle of
    mining, travelling, queueing and unloading), and to no more than the
    fleet size times floor(864 / 25), 25 ticks being the shortest cycle. *)
Theorem C8_unloaded_total n m d g :
  (1 <= m)%nat -> Z.of_nat n <= 65535 ->
  exists s1 g1,
    Simulation.run_sim
      (fst (Simulation.new n m d g)) (snd (Simulation.new n m d g))
      = Ok (s1, g1) /\
    sumZ (map Station.num_trucks_unloaded (Simulation.stations s1)) =
      sumZ (map (fun truck =>
                   RETRIEVE_TIME (Truck.get_total_time truck) UNLOADING_MASK 16)
              (Simulation.trucks s1)) /\
    sumZ (map Station.num_trucks_unloaded (Simulation.stations s1)) <=
      Z.of_nat n * (MAX_TIME / MIN_CYCLE) /\
    MIN_CYCLE = 25 /\ MAX_TIME / MIN_CYCLE = 34.
Proof.
  intros Hm Hn.
  destruct (run_sim_final n m d g Hm Hn) as (s1 & g1 & _ & Hrun & HI & _).
  exists s1, g1. split; [exact Hrun|].
  pose proof (inv_sum HI) as Hsum. simpl in Hsum.
  pose proof (inv_trucks HI) as Hlen. simpl in Hlen.
  pose proof (unloads_bound m _ (inv_pending HI)) as Hb.
  rewrite Hlen in Hb.
  split; [exact Hsum|]. split; [rewrite Hsum; exact Hb|].
  split; reflexivity.
Qed.

Lemma C8_witness :
  (1 <= 1)%nat /\ Z.of_nat 2 <= 65535 /\
  exists s1 g1,
    Simulation.run_sim
      (fst (Simulation.new 2 1 false (mkGen (fun _ => 0) 0)))
      (snd (Simulation.new 2 1 false (mkGen (fun _ => 0) 0)))
      = Ok (s1, g1) /\
    sumZ (map Station.num_trucks_unloaded (Simulation.stations s1)) =
      sumZ (map (fun truck =>
                   RETRIEVE_TIME (Truck.get_total_time truck) UNLOADING_MASK 16)
              (Simulation.trucks s1)) /\
    sumZ (map Station.num_trucks_unloaded (Simulation.stations s1)) <=
      Z.of_nat 2 * (MAX_TIME / MIN_CYCLE) /\
    MIN_CYCLE = 25 /\ MAX_TIME / MIN_CYCLE = 34.
Proof.
  split; [lia|]. split; [lia|].
  apply (C8_unloaded_total 2 1 false (mkGen (fun _ => 0) 0)); lia.
Defined.

(** C9. Two runs with the same configuration (fleet size, station count,
    debug flag) whose random sources yield the same sequence of mining
    durations end alike: both return, with the same trucks (ledgers
    included) and the same stations (queues and unloaded counts), or both
    fail in the same way. *)
Theorem C9_deterministic_in_durations n m d g1 g2 :
  same_durations g1 g2 ->
  match Simulation.run_sim (fst (Simulation.new n m d g1))
                           (snd (Simulation.new n m d g1)),
        Simulation.run_sim (fst (Simulation.new n m d g2))
                           (snd (Simulation.new n m d g2)) with
  | Ok (s1, _), Ok (s2, _) =>
      map Truck.get_total_time (Simulation.trucks s1) =
        map Truck.get_total_time (Simulation.trucks s2) /\
      map Station.get_queue (Simulation.stations s1) =
        map Station.get_queue (Simulation.stations s2) /\
      map Station.num_trucks_unloaded (Simulation.stations s1) =
        map Station.num_trucks_unloaded (Simulation.stations s2) /\
      s1 = s2
  | Raise e1, Raise e2 => e1 = e2
  | _, _ => False
  end.
Proof.
  intros Hg.
  destruct (make_trucks_same n g1 g2 Hg) as [Ht Hh].
  assert (Hs : fst (Simulation.new n m d g1) = fst (Simulation.new n m d g2) /\
               same_durations (snd (Simulation.new n m d g1))
                              (snd (Simulation.new n m d g2))).
  { unfold Simulation.new.
    destruct (Simulation.make_trucks n g1) as [t1 h1],
             (Simulation.make_trucks n g2) as [t2 h2].
    simpl in *. subst t2. split; [reflexivity|exact Hh]. }
  destruct Hs as [Hs Hk]. rewrite <- Hs.
  pose proof (run_sim_same (fst (Simulation.new n m d g1)) _ _ Hk) as Hrun.
  destruct (Simulation.run_sim _ (snd (Simulation.new n m d g1)))
    as [[s1 k1]|e1],
    (Simulation.run_sim _ (snd (Simulation.new n m d g2))) as [[s2 k2]|e2];
    simpl in Hrun; try contradiction.
  - destruct Hrun as [<- _]. repeat split; reflexivity.
  - exact Hrun.
Qed.

Lemma C9_witness :
  same_durations (mkGen (fun _ => 5) 0) (mkGen (fun _ => 54) 0) /\
  match Simulation.run_sim
          (fst (Simulation.new 2 1 true (mkGen (fun _ => 5) 0)))
          (snd (Simulation.new 2 1 true (mkGen (fun _ => 5) 0))),
        Simulation.run_sim
          (fst (Simulation.new 2 1 true (mkGen (fun _ => 54) 0)))
          (snd (Simulation.new 2 1 true (mkGen (fun _ => 54) 0))) with
  | Ok (s1, _), Ok (s2, _) =>
      map Truck.get_total_time (Simulation.trucks s1) =
        map Truck.get_total_time (Simulation.trucks s2) /\
      map Station.get_queue (Simulation.stations s1) =
        map Station.get_queue (Simulation.stations s2) /\
      map Station.num_trucks_unloaded (Simulation.stations s1) =
        map Station.num_trucks_unloaded (Simulation.stations s2) /\
      s1 = s2
  | Raise e1, Raise e2 => e1 = e2
  | _, _ => False
  end.
Proof.
  split; [intros k; reflexivity|].
  apply (C9_deterministic_in_durations 2 1 true
           (mkGen (fun _ => 5) 0) (mkGen (fun _ => 54) 0)).
  intros k. reflexivity.
Defined.

(** C10. In every reachable state, a truck in one of the four states whose
    branch decrements the timer (Mining, TravelToStation, Waiting,
    TravelToMine) has a timer of at least 1, so the 16-bit decrement does not
    wrap; in particular a truck in Waiting has a positive timer, and every
    mining duration drawn lies between [ONE_HOUR] = 12 and [FIVE_HOUR]. *)
Theorem C10_timer_never_wraps n m d g c tr :
  (1 <= m)%nat -> Z.of_nat n <= 65535 -> reachable n m d g c ->
  tr ∈ moved c ++ pending c -> Truck.state tr <> Unloading ->
  1 <= Truck.timer tr < 65536 /\
  u16 (Truck.timer tr - 1) = Truck.timer tr - 1 /\
  (Truck.state tr = Waiting -> 0 < Truck.timer tr) /\
  (forall g0, 12 <= fst (rmt g0) /\ ONE_HOUR <= fst (rmt g0) <= FIVE_HOUR /\
              12 <= Truck.timer (fst (Truck.new g0))).
Proof.
  intros Hm Hn Hr Hin Hst.
  pose proof (reachable_Inv n m d g c Hm Hn Hr) as HI.
  unfold Inv_snapshot in HI.
  assert (Hok : exists T, truck_ok m T tr).
  { apply elem_of_app in Hin. destruct Hin as [Hin|Hin].
    - pose proof (inv_moved HI) as H.
      rewrite Forall_forall in H. eexists. exact (H tr Hin).
    - pose proof (inv_pending HI) as H.
      rewrite Forall_forall in H. eexists. exact (H tr Hin). }
  destruct Hok as [T Hok].
  pose proof (ok_timer Hok) as Htm.
  pose proof (ok_timer_pos Hok Hst) as Hpos.
  split; [lia|]. split; [apply timer_dec; lia|]. split; [intros _; lia|].
  intros g0. pose proof (rmt_range g0) as Hrg.
  unfold Truck.new. destruct (rmt g0) as [d0 g1]. simpl in *.
  unfold ONE_HOUR, FIVE_HOUR in *. rewrite u16_small by lia. lia.
Qed.

Lemma C10_witness :
  1 <= Truck.timer (Truck.mk Mining 12 0 0) < 65536 /\
  u16 (Truck.timer (Truck.mk Mining 12 0 0) - 1) =
    Truck.timer (Truck.mk Mining 12 0 0) - 1 /\
  (Truck.state (Truck.mk Mining 12 0 0) = Waiting ->
   0 < Truck.timer (Truck.mk Mining 12 0 0)) /\
  (forall g0, 12 <= fst (rmt g0) /\ ONE_HOUR <= fst (rmt g0) <= FIVE_HOUR /\
              12 <= Truck.timer (fst (Truck.new g0))).
Proof.
  apply (C10_timer_never_wraps 1 1 false (mkGen (fun _ => 0) 0)
           (start 1 1 false (mkGen (fun _ => 0) 0))
           (Truck.mk Mining 12 0 0)).
  - lia.
  - lia.
  - exists 0%nat. reflexivity.
  - vm_compute. apply list_elem_of_here.
  - discriminate.
Defined.

(** * Further properties *)

(** ** The two checks of testing.cpp *)

(** X1. [compare_idx_val_to_actual_min] returns exactly when the cursor is in
    range and no station has a shorter queue than the one under it; with a
    strictly shorter queue somewhere it throws its [runtime_error]; with the
    cursor out of range (in particular with no station) the behaviour is
    undefined. *)
Theorem X1_cursor_check_decides stations idx :
  (compare_idx_val_to_actual_min stations idx = Ok tt <->
   exists st, stations !! idx = Some st /\
     forall st', st' ∈ stations ->
       Station.get_queue st <= Station.get_queue st') /\
  (forall st st', stations !! idx = Some st -> st' ∈ stations ->
     Station.get_queue st' < Station.get_queue st ->
     compare_idx_val_to_actual_min stations idx =
       Raise (runtime_error
                "The station with the shortest wait time was not found")) /\
  (stations !! idx = None ->
   compare_idx_val_to_actual_min stations idx = Raise undefined_behaviour).
Proof.
  unfold compare_idx_val_to_actual_min.
  destruct (stations !! idx) as [st|] eqn:Hst.
  - destruct (min_element stations) as [x|] eqn:Hx.
    + destruct (min_element_spec _ _ Hx) as (Hin & Hall).
      pose proof (Hall st (list_elem_of_lookup_2 _ _ _ Hst)) as Hle.
      unfold Station.get_queue.
      destruct (Z.eqb_spec (Station.queue x) (Station.queue st)) as [E|E];
        simpl.
      * split; [|split].
        -- split; [|reflexivity]. intros _. exists st. split; [reflexivity|].
           intros st' Hin'. rewrite <- E. apply Hall, Hin'.
        -- intros st0 st' H0 Hin' Hlt. injection H0 as <-.
           pose proof (Hall st' Hin'). lia.
        -- discriminate.
      * split; [|split].
        -- split; [discriminate|]. intros (st0 & H0 & Hmin).
           injection H0 as <-. pose proof (Hmin x Hin). lia.
        -- reflexivity.
        -- discriminate.
    + destruct stations; [discriminate|discriminate].
  - split; [|split].
    + split.
      * destruct (min_element stations); discriminate.
      * intros (st0 & H0 & _). discriminate.
    + discriminate.
    + intros _. destruct (min_element stations); reflexivity.
Qed.

(** X2. [compare_total_time_to_max_time] returns exactly when the four
    fields of the truck's ledger add up to [max_time], and throws its
    [runtime_error] otherwise; for a ledger made of four 16-bit digits the
    fields are those digits, and their sum does not wrap. *)
Theorem X2_total_check_decides (truck : Truck.t) (max_time : Z) w u t m :
  digit w -> digit u -> digit t -> digit m ->
  Truck.get_total_time truck =
    w * WAITING_INC + u * UNLOADING_INC + t * TRAVELING_INC + m * MINING_INC ->
  (compare_total_time_to_max_time truck max_time = Ok tt <->
   w + u + t + m = max_time) /\
  (w + u + t + m <> max_time ->
   compare_total_time_to_max_time truck max_time =
     Raise (runtime_error "Truck time does not match simulation time")).
Proof.
  intros Hw Hu Ht Hm Htot.
  assert (Hp : Truck.get_total_time truck = pack w u t m).
  { rewrite Htot. unfold pack, WAITING_INC, UNLOADING_INC, TRAVELING_INC,
      MINING_INC. lia. }
  unfold compare_total_time_to_max_time.
  rewrite cumulative_time_ledger_sum, Hp. unfold ledger_sum.
  rewrite !ledger_pack by assumption.
  destruct (Z.eqb_spec (w + u + t + m) max_time) as [E|E]; simpl.
  - split; [tauto|]. intros; contradiction.
  - split; [|reflexivity]. split; [discriminate|]. intros; contradiction.
Qed.

Lemma X2_witness :
  digit 1 /\ digit 2 /\ digit 3 /\ digit 4 /\
  (compare_total_time_to_max_time
     (Truck.mk Mining 5 (1 + 2 * 65536 + 3 * 4294967296 + 4 * 281474976710656) 0)
     10 = Ok tt <->
   1 + 2 + 3 + 4 = 10) /\
  (1 + 2 + 3 + 4 <> 10 ->
   compare_total_time_to_max_time
     (Truck.mk Mining 5 (1 + 2 * 65536 + 3 * 4294967296 + 4 * 281474976710656) 0)
     10 =
     Raise (runtime_error "Truck time does not match simulation time")).
Proof.
  unfold digit.
  split; [lia|]. split; [lia|]. split; [lia|]. split; [lia|].
  apply (X2_total_check_decides
           (Truck.mk Mining 5
              (1 + 2 * 65536 + 3 * 4294967296 + 4 * 281474976710656) 0)
           10 1 2 3 4); unfold digit; try lia.
  reflexivity.
Defined.

Lemma first_shortest_fold rest pre m i :
  first_shortest pre i m ->
  exists i',
    first_shortest (pre ++ rest) i'
      (fold_left
         (fun m x =>
            if Station.get_queue x <? Station.get_queue m then x else m)
         rest m).
Proof.
  revert pre m i. induction rest as [|r rest IH]; intros pre m i Hfs.
  - exists i. rewrite app_nil_r. exact Hfs.
  - simpl fold_left. destruct Hfs as (Hi & Hall & Hbefore).
    replace (pre ++ r :: rest) with ((pre ++ [r]) ++ rest)
      by (rewrite <- app_assoc; reflexivity).
    destruct (Z.ltb_spec (Station.get_queue r) (Station.get_queue m))
      as [Hlt|Hge]; unfold Station.get_queue in Hlt || unfold Station.get_queue in Hge.
    + apply (IH (pre ++ [r]) r (length pre)). split; [|split].
      * apply list_lookup_middle. reflexivity.
      * intros j y Hj. apply lookup_app_Some in Hj.
        destruct Hj as [Hj|[_ Hj]].
        -- pose proof (Hall j y Hj). lia.
        -- apply list_lookup_singleton_Some in Hj. destruct Hj as [_ <-]. lia.
      * intros j y Hlt' Hj. rewrite lookup_app_l in Hj by exact Hlt'.
        pose proof (Hall j y Hj). lia.
    + apply (IH (pre ++ [r]) m i). split; [|split].
      * apply lookup_app_l_Some. exact Hi.
      * intros j y Hj. apply lookup_app_Some in Hj.
        destruct Hj as [Hj|[_ Hj]].
        -- apply (Hall j y Hj).
        -- apply list_lookup_singleton_Some in Hj. destruct Hj as [_ <-]. lia.
      * intros j y Hlt' Hj.
        pose proof (lookup_lt_Some _ _ _ Hi) as Hip.
        rewrite lookup_app_l in Hj by lia.
        apply (Hbefore j y Hlt' Hj).
Qed.

(** X3. [min_element], as the check uses it, finds nothing in an empty
    vector and otherwise the first of the stations with the shortest queue:
    no station has a shorter queue, and every station before it has a
    strictly longer one. *)
Theorem X3_min_element_first_shortest (l : list Station.t) :
  (min_element l = None <-> l = []) /\
  (forall x, min_element l = Some x -> exists i, first_shortest l i x).
Proof.
  split.
  - destruct l; simpl; split; intros H; try reflexivity; discriminate.
  - intros x Hx. destruct l as [|s rest]; [discriminate|].
    simpl in Hx. injection Hx as <-.
    apply (first_shortest_fold rest [s] s 0%nat).
    split; [reflexivity|]. split.
    + intros [|j] y Hj; simpl in Hj; [injection Hj as <-; lia|].
      destruct j; discriminate.
    + intros j y Hj. lia.
Qed.

(** ** The packed ledger *)

(** X4. Packing and reading back: a ledger made by adding each of the four
    increments fewer than 65536 times reads back exactly those four counts
    through [RETRIEVE_TIME], and any 64-bit ledger is the sum of its four
    fields times their increments. *)
Theorem X4_ledger_round_trip (w u t m x : Z) :
  0 <= w < 65536 -> 0 <= u < 65536 -> 0 <= t < 65536 -> 0 <= m < 65536 ->
  0 <= x < 2 ^ 64 ->
  let packed :=
    w * WAITING_INC + u * UNLOADING_INC + t * TRAVELING_INC + m * MINING_INC in
  (RETRIEVE_TIME packed WAITING_MASK 0 = w /\
   RETRIEVE_TIME packed UNLOADING_MASK 16 = u /\
   RETRIEVE_TIME packed TRAVELING_MASK 32 = t /\
   RETRIEVE_TIME packed MINING_MASK 48 = m) /\
  x = RETRIEVE_TIME x WAITING_MASK 0 * WAITING_INC +
      RETRIEVE_TIME x UNLOADING_MASK 16 * UNLOADING_INC +
      RETRIEVE_TIME x TRAVELING_MASK 32 * TRAVELING_INC +
      RETRIEVE_TIME x MINING_MASK 48 * MINING_INC.
Proof.
  intros Hw Hu Ht Hm Hx packed.
  assert (Hp : packed = pack w u t m).
  { unfold packed, pack, WAITING_INC, UNLOADING_INC, TRAVELING_INC, MINING_INC.
    lia. }
  split.
  - rewrite Hp.
    pose proof (ledger_pack w u t m FWaiting Hw Hu Ht Hm) as H1.
    pose proof (ledger_pack w u t m FUnloading Hw Hu Ht Hm) as H2.
    pose proof (ledger_pack w u t m FTraveling Hw Hu Ht Hm) as H3.
    pose proof (ledger_pack w u t m FMining Hw Hu Ht Hm) as H4.
    repeat split; assumption.
  - pose proof (pack_ledger x Hx) as Hpx. unfold pack, ledger in Hpx.
    simpl MASK in Hpx. simpl SHIFT in Hpx.
    unfold WAITING_INC, UNLOADING_INC, TRAVELING_INC, MINING_INC. lia.
Qed.

Lemma X4_witness :
  0 <= 7 < 65536 /\ 0 <= 65535 < 65536 /\ 0 <= 0 < 65536 /\
  0 <= 864 < 65536 /\ 0 <= 2 ^ 64 - 1 < 2 ^ 64 /\
  let packed :=
    7 * WAITING_INC + 65535 * UNLOADING_INC + 0 * TRAVELING_INC +
    864 * MINING_INC in
  (RETRIEVE_TIME packed WAITING_MASK 0 = 7 /\
   RETRIEVE_TIME packed UNLOADING_MASK 16 = 65535 /\
   RETRIEVE_TIME packed TRAVELING_MASK 32 = 0 /\
   RETRIEVE_TIME packed MINING_MASK 48 = 864) /\
  2 ^ 64 - 1 =
      RETRIEVE_TIME (2 ^ 64 - 1) WAITING_MASK 0 * WAITING_INC +
      RETRIEVE_TIME (2 ^ 64 - 1) UNLOADING_MASK 16 * UNLOADING_INC +
      RETRIEVE_TIME (2 ^ 64 - 1) TRAVELING_MASK 32 * TRAVELING_INC +
      RETRIEVE_TIME (2 ^ 64 - 1) MINING_MASK 48 * MINING_INC.
Proof.
  split; [lia|]. split; [lia|]. split; [lia|]. split; [lia|]. split; [lia|].
  apply (X4_ledger_round_trip 7 65535 0 864 (2 ^ 64 - 1)); lia.
Defined.

(** X5. The fields are 16 bits wide: adding a field's increment raises that
    field modulo 65536, so a field at 65535 falls back to 0, and the fields
    packed below it are not touched. *)
Theorem X5_ledger_field_wraps (f : Field) (x : Z) :
  0 <= x < 2 ^ 64 ->
  ledger f (u64 (x + INC f)) = (ledger f x + 1) mod 65536 /\
  (ledger f x = 65535 -> ledger f (u64 (x + INC f)) = 0) /\
  (forall f', SHIFT f' < SHIFT f ->
     ledger f' (u64 (x + INC f)) = ledger f' x).
Proof.
  intros Hx.
  assert (Hown : ledger f (u64 (x + INC f)) = (ledger f x + 1) mod 65536).
  { rewrite !ledger_div_mod. unfold u64.
    destruct f; simpl SHIFT; unfold INC, WAITING_INC, UNLOADING_INC,
      TRAVELING_INC, MINING_INC;
      change (2 ^ 0) with 1; change (2 ^ 16) with 65536;
      change (2 ^ 32) with 4294967296;
      change (2 ^ 48) with 281474976710656;
      change (2 ^ 64) with 18446744073709551616;
      Z.div_mod_to_equations; lia. }
  split; [exact Hown|]. split.
  - intros H. rewrite Hown, H. reflexivity.
  - intros f' Hlt. rewrite !ledger_div_mod. unfold u64.
    destruct f, f'; simpl SHIFT in *; try lia;
      unfold INC, WAITING_INC, UNLOADING_INC, TRAVELING_INC, MINING_INC;
      change (2 ^ 0) with 1; change (2 ^ 16) with 65536;
      change (2 ^ 32) with 4294967296;
      change (2 ^ 48) with 281474976710656;
      change (2 ^ 64) with 18446744073709551616;
      Z.div_mod_to_equations; lia.
Qed.

Lemma X5_witness :
  0 <= 65535 < 2 ^ 64 /\
  ledger FWaiting (u64 (65535 + INC FWaiting)) =
    (ledger FWaiting 65535 + 1) mod 65536 /\
  (ledger FWaiting 65535 = 65535 ->
   ledger FWaiting (u64 (65535 + INC FWaiting)) = 0) /\
  (forall f', SHIFT f' < SHIFT FWaiting ->
     ledger f' (u64 (65535 + INC FWaiting)) = ledger f' 65535).
Proof.
  split; [lia|].
  apply (X5_ledger_field_wraps FWaiting 65535). lia.
Defined.

(** ** The operations of a station, composed *)

(** X6. On a queue below 65535 [decrement_queue] undoes [increment_queue];
    the other way round the queue is restored only when it was above 0 (a
    decrement of an empty queue is lost); at 65535 the increment wraps to 0;
    and counting an unloaded truck never touches the queue. *)
Theorem X6_station_operations_compose (st : Station.t) :
  0 <= Station.queue st < 65536 ->
  (Station.queue st < 65535 ->
   Station.decrement_queue (Station.increment_queue st) = st) /\
  (0 < Station.queue st ->
   Station.increment_queue (Station.decrement_queue st) = st) /\
  (Station.queue st = 0 ->
   Station.get_queue (Station.increment_queue (Station.decrement_queue st))
     = 1) /\
  (Station.queue st = 65535 ->
   Station.get_queue (Station.increment_queue st) = 0) /\
  Station.increment_queue (Station.increment_trucks_unloaded st) =
    Station.increment_trucks_unloaded (Station.increment_queue st) /\
  Station.decrement_queue (Station.increment_trucks_unloaded st) =
    Station.increment_trucks_unloaded (Station.decrement_queue st).
Proof.
  destruct st as [q u]. simpl. intros Hq.
  unfold Station.decrement_queue, Station.increment_queue,
    Station.increment_trucks_unloaded, Station.get_queue. simpl.
  split; [|split; [|split; [|split; [|split]]]].
  - intros Hlt. rewrite (u16_small (q + 1)) by lia.
    destruct (Z.ltb_spec 0 (q + 1)); [|lia].
    rewrite u16_small by lia. f_equal. lia.
  - intros Hpos. destruct (Z.ltb_spec 0 q); [|lia].
    rewrite (u16_small (q - 1)) by lia. rewrite u16_small by lia.
    f_equal. lia.
  - intros ->. reflexivity.
  - intros ->. reflexivity.
  - reflexivity.
  - reflexivity.
Qed.

Lemma X6_witness :
  0 <= 3 < 65536 /\
  (Station.queue (Station.mk 3 9) < 65535 ->
   Station.decrement_queue (Station.increment_queue (Station.mk 3 9))
     = Station.mk 3 9).
Proof.
  split; [lia|].
  apply (X6_station_operations_compose (Station.mk 3 9)). simpl. lia.
Defined.

(** ** One call of [Truck::run], whatever the state *)


(** X8. What a call of [Truck::run] that returns leaves alone: the number of
    stations; the unloaded counts unless the truck was Unloading; the queues,
    the cursor and the truck's [station_idx] unless the call ended the travel
    to the stations; the engine unless the call ended the travel to the mine;
    a cursor within range stays within range. The truck's state either stays
    or follows one arrow of the cycle Mining, TravelStation, (Waiting,)
    Unloading, TravelMining, Mining. *)
Theorem X8_run_frame tr stations idx g tr' stations' idx' g' :
  Truck.run tr stations idx g = Ok (tr', stations', idx', g') ->
  length stations' = length stations /\
  (Truck.state tr <> Unloading ->
   map Station.num_trucks_unloaded stations' =
     map Station.num_trucks_unloaded stations) /\
  (~ arrives tr ->
   map Station.get_queue stations' = map Station.get_queue stations /\
   idx' = idx /\ Truck.station_idx tr' = Truck.station_idx tr) /\
  (~ (Truck.state tr = TravelMining /\ u16 (Truck.timer tr - 1) = 0) ->
   g' = g) /\
  ((idx < length stations)%nat -> (idx' < length stations)%nat) /\
  may_follow (Truck.state tr) (Truck.state tr') = true.
Proof.
  intros Hrun. split; [eapply run_stations_length, Hrun|].
  unfold arrives. unfold Truck.run in Hrun.
  destruct (Truck.state tr) eqn:Est.
  - destruct (u16 (Truck.timer tr - 1) =? 0); injection Hrun as <- <- <- <-;
      repeat split; try reflexivity; auto.
  - destruct (Z.eqb_spec (u16 (Truck.timer tr - 1)) 0) as [E|E].
    + destruct (stations !! idx) as [st|] eqn:Hst; [|discriminate].
      injection Hrun as <- <- <- <-.
      split; [|split; [|split; [|split]]].
      * intros _. change map with (@fmap list _).
        rewrite list_fmap_insert. simpl. apply list_insert_id.
        rewrite list_lookup_fmap, Hst. reflexivity.
      * intros Hn. exfalso. apply Hn. split; [reflexivity|exact E].
      * intros _. reflexivity.
      * intros Hidx. rewrite length_insert.
        apply Nat.mod_upper_bound. lia.
      * simpl. destruct (Station.get_queue st =? 0); reflexivity.
    + injection Hrun as <- <- <- <-.
      repeat split; try reflexivity; auto.
  - destruct (u16 (Truck.timer tr - 1) =? 0); injection Hrun as <- <- <- <-;
      repeat split; try reflexivity; auto.
  - destruct (stations !! Truck.station_idx tr) as [st|] eqn:Hst;
      [|discriminate].
    injection Hrun as <- <- <- <-.
    split; [intros H; congruence|].
    split; [|split; [|split]]; try (intros; reflexivity); auto.
    intros _. split; [|split; reflexivity].
    change map with (@fmap list _).
    rewrite list_fmap_insert. simpl. apply list_insert_id.
    rewrite list_lookup_fmap, Hst. reflexivity.
  - destruct (Z.eqb_spec (u16 (Truck.timer tr - 1)) 0) as [E|E].
    + destruct (rmt g) as [d0 g0]. injection Hrun as <- <- <- <-.
      split; [intros _; reflexivity|].
      split; [intros _; repeat split; reflexivity|].
      split; [intros Hn; exfalso; apply Hn; split; [reflexivity|exact E]|].
      split; [auto|reflexivity].
    + injection Hrun as <- <- <- <-.
      repeat split; try reflexivity; auto.
Qed.

Lemma X8_witness :
  Truck.run (Truck.mk Unloading 0 0 1)
    [Station.mk 2 5; Station.mk 3 7] 0 hourly =
    Ok (Truck.mk TravelMining 6 65536 1,
        [Station.mk 2 5; Station.mk 3 8], 0%nat, hourly) /\
  length [Station.mk 2 5; Station.mk 3 8] =
    length [Station.mk 2 5; Station.mk 3 7] /\
  (~ arrives (Truck.mk Unloading 0 0 1) ->
   map Station.get_queue [Station.mk 2 5; Station.mk 3 8] =
     map Station.get_queue [Station.mk 2 5; Station.mk 3 7] /\
   0%nat = 0%nat /\
   Truck.station_idx (Truck.mk TravelMining 6 65536 1) =
     Truck.station_idx (Truck.mk Unloading 0 0 1)).
Proof.
  split; [reflexivity|].
  pose proof (X8_run_frame (Truck.mk Unloading 0 0 1)
                [Station.mk 2 5; Station.mk 3 7] 0 hourly
                (Truck.mk TravelMining 6 65536 1)
                [Station.mk 2 5; Station.mk 3 8] 0%nat hourly
                ltac:(reflexivity)) as (H1 & _ & H3 & _).
  split; [exact H1|exact H3].
Defined.

(** ** Calls on one truck, composed *)

Lemma u64_add_l a b : u64 (u64 a + b) = u64 (a + b).
Proof. unfold u64. apply Zplus_mod_idemp_l. Qed.

Lemma u64_range z : 0 <= u64 z < 2 ^ 64.
Proof. unfold u64. apply Z.mod_pos_bound. lia. Qed.

Lemma run_times_chain a b tr stations idx g tr1 sts1 idx1 g1 r :
  run_times a tr stations idx g = Ok (tr1, sts1, idx1, g1) ->
  run_times b tr1 sts1 idx1 g1 = r ->
  run_times (a + b) tr stations idx g = r.
Proof.
  revert tr stations idx g. induction a as [|a IH]; intros tr stations idx g Ha Hb.
  - simpl in Ha. injection Ha as <- <- <- <-. exact Hb.
  - cbn [Nat.add run_times] in *.
    destruct (Truck.run tr stations idx g) as [[[[t0 s0] i0] g0]|e];
      [|discriminate].
    cbn [bind] in *. eapply IH; eassumption.
Qed.

(** While its timer is above 1, a truck in a state that counts down stays in
    that state, one increment of its field per call, and touches nothing
    else. *)
Lemma countdown_stay st (j : nat) t tt si stations idx g :
  st <> Unloading -> 0 <= tt < 2 ^ 64 -> Z.of_nat j < t < 65536 ->
  run_times j (Truck.mk st t tt si) stations idx g =
    Ok (Truck.mk st (t - Z.of_nat j)
          (u64 (tt + Z.of_nat j * INC (charged st))) si,
        stations, idx, g).
Proof.
  intros Hst. revert t tt. induction j as [|j IH]; intros t tt Htt Hj.
  - cbn [run_times]. change (Z.of_nat 0) with 0.
    rewrite Z.sub_0_r, Z.mul_0_l, Z.add_0_r, u64_small by exact Htt.
    reflexivity.
  - assert (Hrun : Truck.run (Truck.mk st t tt si) stations idx g =
               Ok (Truck.mk st (t - 1) (u64 (tt + INC (charged st))) si,
                   stations, idx, g)).
    { unfold Truck.run. cbn [Truck.state Truck.timer Truck.total_time
        Truck.station_idx].
      rewrite timer_dec by lia.
      destruct (Z.eqb_spec (t - 1) 0); [lia|].
      destruct st; try congruence; reflexivity. }
    cbn [run_times]. rewrite Hrun. cbn [bind].
    rewrite IH by (try apply u64_range; lia).
    rewrite u64_add_l.
    replace (t - 1 - Z.of_nat j) with (t - Z.of_nat (S j)) by lia.
    replace (tt + INC (charged st) + Z.of_nat j * INC (charged st))
      with (tt + Z.of_nat (S j) * INC (charged st)) by lia.
    reflexivity.
Qed.

(** X9. A whole cycle of one truck, call after call: a truck mining with
    timer [a + 1] that finds, at the cursor, a station with [q] trucks queued
    is back in Mining after exactly [a + 1 + 6 + q + 1 + 6] calls, with a
    freshly drawn timer; it has been charged [a + 1] Mining, 12 Traveling,
    [q] Waiting and 1 Unloading increments; the station has one more truck
    in its queue and one more truck unloaded, the cursor has advanced by one
    station, and one duration has been drawn. *)
Theorem X9_cycle_of_one_truck (a q : nat) tt si stations idx g st :
  Z.of_nat (S a) < 65536 -> 0 <= tt < 2 ^ 64 ->
  stations !! idx = Some st ->
  Station.queue st = Z.of_nat q -> Z.of_nat q < 65535 ->
  run_times (S a + 6 + q + 1 + 6)
    (Truck.mk Mining (Z.of_nat (S a)) tt si) stations idx g =
  Ok (Truck.mk Mining (fst (rmt g))
        (u64 (tt + Z.of_nat (S a) * MINING_INC + 12 * TRAVELING_INC +
              Z.of_nat q * WAITING_INC + UNLOADING_INC))
        idx,
      <[idx := Station.increment_trucks_unloaded
                 (Station.increment_queue st)]> stations,
      ((idx + 1) mod length stations)%nat,
      snd (rmt g)).
Proof.
  intros Ha Htt Hst Hq Hqb.
  pose proof (lookup_lt_Some _ _ _ Hst) as Hidx.
  set (sts1 := <[idx := Station.increment_queue st]> stations).
  set (idx1 := ((idx + 1) mod length stations)%nat).
  assert (Hinc : Station.increment_queue st =
            Station.mk (Z.of_nat q + 1) (Station.num_trucks_unloaded st)).
  { unfold Station.increment_queue. rewrite Hq, u16_small by lia. reflexivity. }
  (* mining *)
  replace (S a + 6 + q + 1 + 6)%nat
    with (a + (1 + (5 + (1 + (q + (1 + (5 + 1)))))))%nat by lia.
  eapply run_times_chain.
  { apply (countdown_stay Mining a); [discriminate|exact Htt|lia]. }
  replace (Z.of_nat (S a) - Z.of_nat a) with 1 by lia.
  eapply run_times_chain.
  { cbn [run_times]. unfold Truck.run. cbn [Truck.state Truck.timer
      Truck.total_time Truck.station_idx bind].
    change (u16 (1 - 1) =? 0) with true. cbv iota. reflexivity. }
  (* travelling to the stations *)
  eapply run_times_chain.
  { apply (countdown_stay TravelStation 5); [discriminate|apply u64_range|].
    unfold TRAVEL_TIME. lia. }
  eapply run_times_chain.
  { cbn [run_times]. unfold Truck.run. cbn [Truck.state Truck.timer
      Truck.total_time Truck.station_idx].
    change (u16 (TRAVEL_TIME - Z.of_nat 5 - 1) =? 0) with true. cbv iota.
    rewrite Hst. cbn [bind]. rewrite length_insert. fold sts1. fold idx1.
    unfold Station.get_queue. rewrite Hq. reflexivity. }
  (* waiting *)
  assert (Hwait : forall tot, 0 <= tot < 2 ^ 64 ->
            run_times q
              (Truck.mk (if Z.of_nat q =? 0 then Unloading else Waiting)
                 (Z.of_nat q) tot idx) sts1 idx1 g =
            Ok (Truck.mk Unloading 0 (u64 (tot + Z.of_nat q * WAITING_INC)) idx,
                sts1, idx1, g)).
  { intros tot Htot. destruct q as [|q'].
    - cbn [run_times]. change (Z.of_nat 0) with 0. simpl (0 =? 0).
      rewrite Z.mul_0_l, Z.add_0_r, u64_small by exact Htot. reflexivity.
    - destruct (Z.eqb_spec (Z.of_nat (S q')) 0); [lia|].
      rewrite waiting_countdown by lia.
      rewrite Z.eqb_refl, Z.sub_diag. reflexivity. }
  eapply run_times_chain.
  { apply Hwait. apply u64_range. }
  (* unloading *)
  assert (Hsts1 : sts1 !! idx = Some (Station.increment_queue st)).
  { unfold sts1. apply list_lookup_insert_eq. exact Hidx. }
  eapply run_times_chain.
  { cbn [run_times]. unfold Truck.run. cbn [Truck.state Truck.timer
      Truck.total_time Truck.station_idx].
    rewrite Hsts1. cbn [bind]. unfold sts1. rewrite list_insert_insert_eq.
    reflexivity. }
  (* travelling to the mine *)
  eapply run_times_chain.
  { apply (countdown_stay TravelMining 5); [discriminate|apply u64_range|].
    unfold TRAVEL_TIME. lia. }
  cbn [run_times]. unfold Truck.run. cbn [Truck.state Truck.timer
    Truck.total_time Truck.station_idx].
  change (u16 (TRAVEL_TIME - Z.of_nat 5 - 1) =? 0) with true. cbv iota.
  pose proof (rmt_range g) as Hr. destruct (rmt g) as [d g1]. cbn [fst snd] in *.
  unfold ONE_HOUR, FIVE_HOUR in Hr. rewrite (u16_small d) by lia.
  cbn [bind].
  repeat (rewrite <- ?Z.add_assoc; rewrite u64_add_l).
  match goal with
  | |- Ok (Truck.mk _ _ (u64 ?A) _, _, _, _) = _ =>
      replace A
        with (tt + Z.of_nat (S a) * MINING_INC + 12 * TRAVELING_INC +
              Z.of_nat q * WAITING_INC + UNLOADING_INC)
        by (unfold INC, charged, MINING_INC, TRAVELING_INC, WAITING_INC,
              UNLOADING_INC; lia)
  end.
  rewrite !Z.add_assoc. reflexivity.
Qed.

Lemma X9_witness :
  Z.of_nat (S 11) < 65536 /\ 0 <= 0 < 2 ^ 64 /\
  [Station.mk 2 0] !! 0%nat = Some (Station.mk 2 0) /\
  Station.queue (Station.mk 2 0) = Z.of_nat 2 /\ Z.of_nat 2 < 65535 /\
  run_times (S 11 + 6 + 2 + 1 + 6)
    (Truck.mk Mining (Z.of_nat (S 11)) 0 0) [Station.mk 2 0] 0 hourly =
  Ok (Truck.mk Mining (fst (rmt hourly))
        (u64 (0 + Z.of_nat (S 11) * MINING_INC + 12 * TRAVELING_INC +
              Z.of_nat 2 * WAITING_INC + UNLOADING_INC))
        0,
      <[0%nat := Station.increment_trucks_unloaded
                 (Station.increment_queue (Station.mk 2 0))]>
        [Station.mk 2 0],
      ((0 + 1) mod length [Station.mk 2 0])%nat,
      snd (rmt hourly)).
Proof.
  split; [lia|]. split; [lia|]. split; [reflexivity|].
  split; [reflexivity|]. split; [lia|].
  apply (X9_cycle_of_one_truck 11 2 0 0 [Station.mk 2 0] 0 hourly
           (Station.mk 2 0)); try lia; reflexivity.
Defined.

(** ** Induction over the reachable snapshots *)

Lemma step_cases c c' :
  step c = Ok c' ->
  (remaining c = O /\ c' = c) \/
  (exists r, remaining c = S r /\ pending c = [] /\
     c' = mkSnap r [] (moved c) (map Station.decrement_queue (sts c))
            (cursor c) (rng c) (dbg c)) \/
  (exists r tr rest tr' sts' idx' g',
     remaining c = S r /\ pending c = tr :: rest /\
     Truck.run tr (sts c) (cursor c) (rng c) = Ok (tr', sts', idx', g') /\
     c' = mkSnap (S r) (moved c ++ [tr']) rest sts' idx' g' (dbg c)).
Proof.
  unfold step. intros H.
  destruct (remaining c) as [|r] eqn:Er.
  - left. split; [reflexivity|congruence].
  - destruct (pending c) as [|tr rest] eqn:Ep.
    + right. left. exists r. injection H as <-.
      split; [reflexivity|]. split; reflexivity.
    + right. right.
      destruct (Truck.run tr (sts c) (cursor c) (rng c))
        as [[[[t1 s1] i1] g1]|e] eqn:Erun; [|discriminate].
      cbn [bind] in H.
      destruct (if dbg c then compare_idx_val_to_actual_min s1 i1 else Ok tt);
        [|discriminate].
      cbn [bind] in H. exists r, tr, rest, t1, s1, i1, g1.
      injection H as <-.
      split; [reflexivity|]. split; [reflexivity|].
      split; [exact Erun|reflexivity].
Qed.

Lemma reachable_invariant n m d g (P : Snapshot -> Prop) :
  (1 <= m)%nat -> Z.of_nat n <= 65535 ->
  P (start n m d g) ->
  (forall c c', Inv_snapshot n m c -> P c -> step c = Ok c' -> P c') ->
  forall c, reachable n m d g c -> P c.
Proof.
  intros Hm Hn H0 Hstep c [k Hk].
  pose proof (start_Inv n m d g Hm Hn) as HI.
  revert HI H0 Hk. generalize (start n m d g) as c0.
  induction k as [|k IH]; intros c0 HI H0 Hk.
  - simpl in Hk. injection Hk as <-. exact H0.
  - simpl in Hk. destruct (step_Inv n m c0 HI) as (c1 & Hs & HI1 & _).
    rewrite Hs in Hk. cbn [bind] in Hk.
    apply (IH c1 HI1); [|exact Hk]. exact (Hstep c0 c1 HI H0 Hs).
Qed.

(** ** The queue counter and the trucks at the station *)

Lemma count_upto_succ (k : Z) (l : list Z) :
  0 <= k ->
  count_upto (k + 1) l = count_upto k l + Z.of_nat (occ (k + 1) l).
Proof.
  intros Hk. induction l as [|x l IH]; simpl; [reflexivity|].
  rewrite IH.
  destruct (Z.leb_spec 1 x), (Z.leb_spec x (k + 1)), (Z.leb_spec x k),
    (Z.eqb_spec x (k + 1)); simpl; lia.
Qed.

Lemma count_upto_full (q : nat) (l : list Z) :
  (forall v, 1 <= v <= Z.of_nat q -> occ v l = 1%nat) ->
  count_upto (Z.of_nat q) l = Z.of_nat q.
Proof.
  induction q as [|q IH]; intros H.
  - clear H. change (Z.of_nat 0) with 0.
    induction l as [|x l IHl]; simpl; [reflexivity|].
    rewrite IHl. destruct (Z.leb_spec 1 x), (Z.leb_spec x 0); simpl; lia.
  - replace (Z.of_nat (S q)) with (Z.of_nat q + 1) by lia.
    rewrite count_upto_succ by lia.
    rewrite IH by (intros v Hv; apply H; lia).
    rewrite H by lia. lia.
Qed.

Lemma occ_elem_pos v l : v ∈ l -> (1 <= occ v l)%nat.
Proof.
  induction 1 as [x l|x y l _ IH]; simpl.
  - rewrite Z.eqb_refl. lia.
  - lia.
Qed.

Lemma count_trucks_app p l1 l2 :
  count_trucks p (l1 ++ l2) = count_trucks p l1 + count_trucks p l2.
Proof. induction l1 as [|x l1 IH]; simpl; [reflexivity|]. rewrite IH. lia. Qed.

(** Counting the trucks with a rank between 1 and [q]. *)
Lemma count_upto_ranks m T q (rk : Truck.t -> Z) (p : Truck.t -> bool)
    (l : list Truck.t) :
  Forall (truck_ok m T) l ->
  (forall tr, truck_ok m T tr -> 1 <= rk tr -> rk tr <= q ->
     p tr = true) ->
  (forall tr, truck_ok m T tr -> p tr = true -> 1 <= rk tr) ->
  (forall tr, tr ∈ l -> 1 <= rk tr -> rk tr <= q) ->
  count_upto q (map rk l) = count_trucks p l.
Proof.
  intros Hok Hp1 Hp2 Hb. induction Hok as [|tr l Htr _ IH]; [reflexivity|].
  cbn [map count_upto count_trucks].
  rewrite IH by (intros t Ht; apply Hb, list_elem_of_further, Ht).
  f_equal.
  pose proof (Hb tr (list_elem_of_here _ _)) as Hbtr.
  specialize (Hp1 tr Htr). specialize (Hp2 tr Htr).
  destruct (p tr); destruct (Z.leb_spec 1 (rk tr)), (Z.leb_spec (rk tr) q);
    simpl; try reflexivity; try lia;
    try (specialize (Hp2 eq_refl); lia);
    try (specialize (Hp1 ltac:(lia) ltac:(lia)); discriminate).
Qed.

Lemma rank_moved_served m T s tr :
  truck_ok m T tr ->
  (1 <= rank_moved s tr <-> queued_or_served s tr = true).
Proof.
  intros Hok. pose proof (ok_timer Hok) as Ht.
  unfold rank_moved, queued_or_served.
  destruct (Truck.station_idx tr =? s)%nat, (Truck.state tr); simpl;
    split; intros H; try reflexivity; try discriminate; lia.
Qed.

Lemma rank_pending_queued m T s tr :
  truck_ok m T tr ->
  (1 <= rank_pending s tr <-> queued s tr = true).
Proof.
  intros Hok. pose proof (ok_timer Hok) as Ht.
  pose proof (ok_timer_pos Hok) as Hp.
  unfold rank_pending, queued.
  destruct (Truck.station_idx tr =? s)%nat, (Truck.state tr); simpl;
    split; intros H; try reflexivity; try discriminate; try lia;
    specialize (Hp ltac:(discriminate)); lia.
Qed.

Lemma queue_counts_trucks n m T mv pd stations idx s st :
  Inv n m T mv pd stations idx -> stations !! s = Some st ->
  Station.queue st =
    count_trucks (queued_or_served s) mv + count_trucks (queued s) pd.
Proof.
  intros HI Hs.
  pose proof (inv_queue HI s st Hs) as Hq.
  pose proof (inv_rank HI s st) as Hrk. specialize (Hrk).
  set (q := Station.queue st) in *.
  assert (Hfull : count_upto q (ranks s mv pd) = q).
  { replace q with (Z.of_nat (Z.to_nat q)) by lia.
    apply count_upto_full. intros v Hv.
    rewrite (Hrk v Hs ltac:(lia)).
    destruct (Z.leb_spec v q); [reflexivity|lia]. }
  assert (Hbound : forall v, v ∈ ranks s mv pd -> 1 <= v -> v <= q).
  { intros v Hin Hv. apply occ_elem_pos in Hin.
    rewrite (Hrk v Hs Hv) in Hin.
    destruct (Z.leb_spec v q); [exact H|lia]. }
  rewrite <- Hfull at 1.
  assert (Happ : forall l1 l2, count_upto q (l1 ++ l2) =
                               count_upto q l1 + count_upto q l2).
  { intros l1 l2. induction l1 as [|x l1 IH]; simpl; [reflexivity|].
    rewrite IH. lia. }
  unfold ranks. rewrite Happ. f_equal.
  - apply (count_upto_ranks m (T + 1)); [exact (inv_moved HI)| | |].
    + intros tr Hok H1 _. apply (rank_moved_served m (T + 1) s tr Hok), H1.
    + intros tr Hok Hp. apply (rank_moved_served m (T + 1) s tr Hok), Hp.
    + intros tr Hin H1. apply Hbound; [|exact H1].
      unfold ranks. apply elem_of_app. left.
      apply list_elem_of_fmap_2. exact Hin.
  - apply (count_upto_ranks m T); [exact (inv_pending HI)| | |].
    + intros tr Hok H1 _. apply (rank_pending_queued m T s tr Hok), H1.
    + intros tr Hok Hp. apply (rank_pending_queued m T s tr Hok), Hp.
    + intros tr Hin H1. apply Hbound; [|exact H1].
      unfold ranks. apply elem_of_app. right.
      apply list_elem_of_fmap_2. exact Hin.
Qed.

(** X10. What the queue counter counts: in every reachable state the queue
    of a station equals the number of trucks that have moved in the current
    tick and are waiting or unloading at it, plus the number of trucks that
    have not yet moved and are waiting at it. Between two ticks it is the
    number of trucks waiting at the station. *)
Theorem X10_queue_counts_trucks n m d g c s st :
  (1 <= m)%nat -> Z.of_nat n <= 65535 -> reachable n m d g c ->
  sts c !! s = Some st ->
  Station.get_queue st =
    count_trucks (queued_or_served s) (moved c) +
    count_trucks (queued s) (pending c) /\
  (moved c = [] ->
   Station.get_queue st = count_trucks (queued s) (pending c)).
Proof.
  intros Hm Hn Hr Hs.
  pose proof (reachable_Inv n m d g c Hm Hn Hr) as HI.
  pose proof (queue_counts_trucks _ _ _ _ _ _ _ s st HI Hs) as Hq.
  split; [exact Hq|]. intros Hmv. rewrite Hmv in Hq. exact Hq.
Qed.

Lemma X10_witness :
  sts second_arrives !! 0%nat = Some (Station.mk 1 0) /\
  Station.get_queue (Station.mk 1 0) =
    count_trucks (queued_or_served 0) (moved second_arrives) +
    count_trucks (queued 0) (pending second_arrives) /\
  (moved second_arrives = [] ->
   Station.get_queue (Station.mk 1 0) =
     count_trucks (queued 0) (pending second_arrives)).
Proof.
  split; [vm_compute; reflexivity|].
  apply (X10_queue_counts_trucks 2 1 true hourly second_arrives 0
           (Station.mk 1 0)).
  - lia.
  - lia.
  - exists (17 * 3 + 1)%nat. vm_compute. reflexivity.
  - vm_compute. reflexivity.
Defined.

(** ** One truck at a time is unloaded *)

Lemma unloading_at_served s l : unloading_at s l = count_trucks (served s) l.
Proof.
  induction l as [|tr l IH]; simpl; [reflexivity|]. rewrite IH.
  unfold served. destruct (Truck.state tr), (Truck.station_idx tr =? s)%nat;
    reflexivity.
Qed.

Lemma unloading_moved_le_1 n m T mv pd stations idx s :
  Inv n m T mv pd stations idx -> unloading_at s mv <= 1.
Proof.
  intros HI.
  destruct (stations !! s) as [st|] eqn:Hs.
  - pose proof (unloading_at_rank s mv) as Hr.
    pose proof (inv_rank HI s st 1 Hs ltac:(lia)) as Hrk.
    unfold ranks in Hrk. rewrite occ_app in Hrk.
    destruct (1 <=? Station.queue st); lia.
  - apply lookup_ge_None in Hs. rewrite (inv_stations HI) in Hs.
    pose proof (inv_moved HI) as Hmv. clear HI.
    induction Hmv as [|tr l Hok _ IH]; simpl; [lia|].
    pose proof (ok_station Hok) as Hsi.
    destruct (Truck.state tr); try lia.
    destruct (Nat.eqb_spec (Truck.station_idx tr) s); lia.
Qed.

(** X11. One truck at a time: in every reachable state, at most one of the
    trucks that have moved in the current tick is in its Unloading tick at a
    given station, and at most one of those that have not yet moved; so no
    station ever counts two unloaded trucks in the same tick. *)
Theorem X11_one_truck_unloads_at_a_time n m d g c s :
  (1 <= m)%nat -> Z.of_nat n <= 65535 -> reachable n m d g c ->
  count_trucks (served s) (moved c) <= 1 /\
  count_trucks (served s) (pending c) <= 1.
Proof.
  intros Hm Hn Hr. rewrite <- !unloading_at_served. split.
  - pose proof (reachable_Inv n m d g c Hm Hn Hr) as HI.
    eapply unloading_moved_le_1, HI.
  - revert c Hr.
    apply (reachable_invariant n m d g
             (fun c => unloading_at s (pending c) <= 1) Hm Hn).
    + unfold start, Simulation.new.
      destruct (make_trucks_spec 1 n g ltac:(lia)) as (_ & _ & Hmin).
      destruct (fresh_trucks_quantities _ Hmin) as (_ & Hz & _).
      destruct (Simulation.make_trucks n g) as [trs g1]. simpl in *.
      rewrite Hz. lia.
    + intros c c' HI HP Hstep.
      destruct (step_cases c c' Hstep)
        as [[_ ->]|[(r & _ & _ & ->)|(r & tr & rest & tr' & sts' & idx' & g'
                                       & _ & Hpd & _ & ->)]].
      * exact HP.
      * simpl. eapply unloading_moved_le_1, HI.
      * simpl. rewrite Hpd in HP. simpl in HP.
        pose proof (unloading_at_nonneg s rest).
        destruct (Truck.state tr);
          try destruct (Truck.station_idx tr =? s)%nat; lia.
Qed.

Lemma X11_witness :
  (1 <= 1)%nat /\ Z.of_nat 2 <= 65535 /\
  count_trucks (served 0) (moved first_unloads) <= 1 /\
  count_trucks (served 0) (pending first_unloads) <= 1.
Proof.
  split; [lia|]. split; [lia|].
  apply (X11_one_truck_unloads_at_a_time 2 1 true hourly first_unloads 0).
  - lia.
  - lia.
  - exists (18 * 3)%nat. vm_compute. reflexivity.
Defined.

(** ** As many stations as trucks *)

(** With no more trucks than stations, the station under the cursor is free
    when a truck arrives. *)
Lemma free_station n m T mv tr rest stations idx st :
  Inv n m T mv (tr :: rest) stations idx -> (n <= m)%nat ->
  Truck.state tr = TravelStation ->
  stations !! idx = Some st -> Station.queue st = 0.
Proof.
  intros HI Hnm Hst Hlk.
  pose proof (inv_queue HI idx st Hlk) as Hq.
  destruct (Z.eq_dec (Station.queue st) 0) as [E|E]; [exact E|]. exfalso.
  destruct (round_robin_min _ _ (inv_round_robin HI)) as (st0 & Hst0 & Hmin).
  { rewrite (inv_stations HI). exact (inv_idx HI). }
  rewrite Hlk in Hst0. injection Hst0 as <-.
  (* every station holds a truck of rank 1 *)
  assert (Hall : forall s, (s < m)%nat ->
            s ∈ map Truck.station_idx (mv ++ rest)).
  { intros s Hs. rewrite <- (inv_stations HI) in Hs.
    destruct (lookup_lt_is_Some_2 _ _ Hs) as [st' Hst'].
    pose proof (Hmin st' (list_elem_of_lookup_2 _ _ _ Hst')) as Hle.
    pose proof (inv_rank HI s st' 1 Hst' ltac:(lia)) as Hrk.
    destruct (Z.leb_spec 1 (Station.queue st')); [|lia].
    rewrite occ_ranks_pending in Hrk.
    assert (Hrp : rank_pending s tr = 0)
      by (unfold rank_pending; rewrite Hst; reflexivity).
    rewrite Hrp in Hrk. simpl in Hrk.
    assert (Hin : 1 ∈ ranks s mv rest) by (apply occ_elem_of; lia).
    unfold ranks in Hin. apply elem_of_app in Hin.
    change map with (@fmap list _). rewrite fmap_app. apply elem_of_app.
    destruct Hin as [Hin|Hin]; apply list_elem_of_fmap in Hin;
      destruct Hin as (t0 & Ht0 & Hint0); [left|right];
      apply list_elem_of_fmap; exists t0; (split; [|exact Hint0]).
    - unfold rank_moved in Ht0.
      destruct (Truck.state t0);
        try destruct (Nat.eqb_spec (Truck.station_idx t0) s);
        try discriminate; congruence.
    - unfold rank_pending in Ht0.
      destruct (Truck.state t0);
        try destruct (Nat.eqb_spec (Truck.station_idx t0) s);
        try discriminate; congruence. }
  assert (Hsub : seq 0 m ⊆+ map Truck.station_idx (mv ++ rest)).
  { apply NoDup_submseteq; [apply NoDup_seq|].
    intros s Hs. apply elem_of_seq in Hs. apply Hall. lia. }
  apply submseteq_length in Hsub.
  rewrite length_seq, length_map, length_app in Hsub.
  pose proof (inv_trucks HI) as Hlen. simpl in Hlen. lia.
Qed.

Lemma run_never_waited n m T mv tr rest stations idx g tr' sts' idx' g' :
  Inv n m T mv (tr :: rest) stations idx -> T < MAX_TIME -> (n <= m)%nat ->
  never_waited tr ->
  Truck.run tr stations idx g = Ok (tr', sts', idx', g') ->
  never_waited tr'.
Proof.
  intros HI HT Hnm [Hst Hw] Hrun.
  assert (Hok : truck_ok m T tr).
  { pose proof (inv_pending HI) as Hp. inversion Hp; assumption. }
  split.
  - pose proof (fun st => free_station _ _ _ _ _ _ _ _ st HI Hnm) as Hfree.
    unfold Truck.run in Hrun.
    destruct (Truck.state tr) eqn:Est; try congruence.
    + destruct (u16 (Truck.timer tr - 1) =? 0); injection Hrun as <- _ _ _;
        discriminate.
    + destruct (u16 (Truck.timer tr - 1) =? 0).
      * destruct (stations !! idx) as [st|] eqn:Hlk; [|discriminate].
        injection Hrun as <- _ _ _. simpl.
        unfold Station.get_queue. rewrite (Hfree st eq_refl eq_refl).
        discriminate.
      * injection Hrun as <- _ _ _. discriminate.
    + destruct (stations !! Truck.station_idx tr); [|discriminate].
      injection Hrun as <- _ _ _. discriminate.
    + destruct (u16 (Truck.timer tr - 1) =? 0); [destruct (rmt g)|];
        injection Hrun as <- _ _ _; discriminate.
  - rewrite (run_total_time _ _ _ _ _ _ _ _ Hrun).
    pose proof (ok_total Hok) as Htot.
    pose proof (ok_sum Hok) as Hsum. unfold ledger_sum in Hsum.
    ledger_ranges (Truck.total_time tr).
    unfold MAX_TIME in HT.
    assert (Hf : ledger (charged (Truck.state tr)) (Truck.total_time tr)
                 < 65535) by (destruct (charged (Truck.state tr)); lia).
    destruct (ledger_add _ _ Htot Hf) as [_ Hl].
    rewrite Hl, Hw.
    destruct (Truck.state tr); try congruence; reflexivity.
Qed.

(** X12. With at least as many stations as trucks no truck ever waits: the
    run completes and every truck ends with a Waiting field of 0 (each truck
    that arrives finds the station under the cursor empty). *)
Theorem X12_no_waiting_with_enough_stations n m d g :
  (1 <= m)%nat -> (n <= m)%nat -> Z.of_nat n <= 65535 ->
  exists s1 g1,
    Simulation.run_sim
      (fst (Simulation.new n m d g)) (snd (Simulation.new n m d g))
      = Ok (s1, g1) /\
    forall truck, truck ∈ Simulation.trucks s1 ->
      RETRIEVE_TIME (Truck.get_total_time truck) WAITING_MASK 0 = 0.
Proof.
  intros Hm Hnm Hn.
  destruct (run_sim_final n m d g Hm Hn) as (s1 & g1 & _ & Hrun & _ & Hreach).
  exists s1, g1. split; [exact Hrun|].
  assert (HP : Forall never_waited
                 (moved (snapshot_of 0 s1 g1) ++ pending (snapshot_of 0 s1 g1))).
  { revert Hreach.
    apply (reachable_invariant n m d g
             (fun c => Forall never_waited (moved c ++ pending c)) Hm Hn).
    - unfold start, Simulation.new.
      destruct (make_trucks_spec 1 n g ltac:(lia)) as (_ & _ & Hmin).
      destruct (Simulation.make_trucks n g) as [trs g0]. simpl in *.
      eapply Forall_impl; [exact Hmin|].
      intros tr [Hs Ht]. split; [congruence|]. rewrite Ht. reflexivity.
    - intros c c' HI HP Hstep.
      destruct (step_cases c c' Hstep)
        as [[_ ->]|[(r & _ & Hpd & ->)|(r & tr & rest & tr' & sts' & idx' & g'
                                       & Hrem & Hpd & Hrun' & ->)]].
      + exact HP.
      + simpl. rewrite Hpd, app_nil_r in HP. exact HP.
      + simpl. rewrite Hpd in HP.
        apply Forall_app in HP. destruct HP as [HPm HPp].
        inversion HPp as [|? ? Htr Hrest]; subst.
        rewrite <- app_assoc. apply Forall_app. split; [exact HPm|].
        constructor; [|exact Hrest].
        unfold Inv_snapshot in HI. rewrite Hpd in HI.
        eapply (run_never_waited n m); [exact HI| |exact Hnm|exact Htr|
                                         exact Hrun'].
        unfold elapsed. lia. }
  simpl in HP. rewrite Forall_forall in HP.
  intros truck Hin. exact (proj2 (HP truck Hin)).
Qed.

Lemma X12_witness :
  (1 <= 3)%nat /\ (2 <= 3)%nat /\ Z.of_nat 2 <= 65535 /\
  exists s1 g1,
    Simulation.run_sim
      (fst (Simulation.new 2 3 true hourly)) (snd (Simulation.new 2 3 true hourly))
      = Ok (s1, g1) /\
    forall truck, truck ∈ Simulation.trucks s1 ->
      RETRIEVE_TIME (Truck.get_total_time truck) WAITING_MASK 0 = 0.
Proof.
  split; [lia|]. split; [lia|]. split; [lia|].
  apply (X12_no_waiting_with_enough_stations 2 3 true hourly); lia.
Defined.

(** ** The debug flag *)

Lemma for_each_truck_without_checks trs stations idx g r :
  Simulation.for_each_truck true trs stations idx g = Ok r ->
  Simulation.for_each_truck false trs stations idx g = Ok r.
Proof.
  revert stations idx g r.
  induction trs as [|tr rest IH]; intros stations idx g r H; [exact H|].
  cbn [Simulation.for_each_truck] in *.
  destruct (Truck.run tr stations idx g) as [[[[t1 s1] i1] g1]|e];
    [|discriminate].
  cbn [bind] in *.
  destruct (compare_idx_val_to_actual_min s1 i1); [|discriminate].
  cbn [bind] in *.
  destruct (Simulation.for_each_truck true rest s1 i1 g1) as [r1|e] eqn:E;
    [|discriminate].
  rewrite (IH _ _ _ _ E). exact H.
Qed.

Lemma while_sim_time_without_checks r s g s1 g1 :
  Simulation.debug s = true ->
  Simulation.while_sim_time r s g = Ok (s1, g1) ->
  Simulation.while_sim_time r (with_debug false s) g =
    Ok (with_debug false s1, g1).
Proof.
  revert s g. induction r as [|r IH]; intros s g Hd H.
  - simpl in *. injection H as <- <-. reflexivity.
  - cbn [Simulation.while_sim_time] in *.
    unfold Simulation.tick in *. rewrite Hd in H.
    cbn [with_debug Simulation.debug Simulation.trucks Simulation.stations
         Simulation.curr_station_idx Simulation.total_time].
    destruct (Simulation.for_each_truck true _ _ _ _)
      as [[[[p1 ss1] i1] g2]|e] eqn:E; [|discriminate].
    rewrite (for_each_truck_without_checks _ _ _ _ _ E).
    cbn [bind] in *.
    apply (IH (Simulation.mk i1 (Simulation.total_time s) true
                 (map Station.decrement_queue ss1) p1) g2); [reflexivity|].
    exact H.
Qed.

Lemma run_sim_without_checks s g s1 g1 :
  Simulation.debug s = true ->
  Simulation.run_sim s g = Ok (s1, g1) ->
  Simulation.run_sim (with_debug false s) g = Ok (with_debug false s1, g1).
Proof.
  unfold Simulation.run_sim. intros Hd H.
  change (Simulation.total_time (with_debug false s))
    with (Simulation.total_time s).
  destruct (Simulation.while_sim_time _ s g) as [[s2 g2]|e] eqn:Hw;
    [|discriminate].
  cbn [bind] in H.
  destruct (Simulation.logging_trucks _ _); [|discriminate].
  cbn [bind] in H. injection H as <- <-.
  rewrite (while_sim_time_without_checks _ _ _ _ _ Hd Hw). cbn [bind].
  assert (Hlog : forall trs, Simulation.logging_trucks false trs = Ok tt).
  { induction trs as [|t0 trs IHt]; simpl; [reflexivity|exact IHt]. }
  change (Simulation.debug (with_debug false s2)) with false.
  rewrite Hlog. reflexivity.
Qed.

(** X13. The checks of the debug mode only observe: a simulation run with
    the debug flag and the same simulation run without it both complete, and
    end with the same trucks, the same stations, the same cursor and the
    same state of the random source. *)
Theorem X13_debug_flag_only_observes n m g :
  (1 <= m)%nat -> Z.of_nat n <= 65535 ->
  exists s1 g1,
    Simulation.run_sim
      (fst (Simulation.new n m true g)) (snd (Simulation.new n m true g))
      = Ok (s1, g1) /\
    Simulation.run_sim
      (fst (Simulation.new n m false g)) (snd (Simulation.new n m false g))
      = Ok (with_debug false s1, g1).
Proof.
  intros Hm Hn.
  destruct (run_sim_final n m true g Hm Hn) as (s1 & g1 & _ & Hrun & _ & _).
  exists s1, g1. split; [exact Hrun|].
  destruct (new_fields n m true g) as (_ & Hdbg & _ & _).
  assert (Hnew : Simulation.new n m false g =
                 (with_debug false (fst (Simulation.new n m true g)),
                  snd (Simulation.new n m true g))).
  { unfold Simulation.new. destruct (Simulation.make_trucks n g). reflexivity. }
  rewrite Hnew. cbn [fst snd].
  apply run_sim_without_checks; assumption.
Qed.

Lemma X13_witness :
  (1 <= 2)%nat /\ Z.of_nat 3 <= 65535 /\
  exists s1 g1,
    Simulation.run_sim
      (fst (Simulation.new 3 2 true hourly)) (snd (Simulation.new 3 2 true hourly))
      = Ok (s1, g1) /\
    Simulation.run_sim
      (fst (Simulation.new 3 2 false hourly))
      (snd (Simulation.new 3 2 false hourly))
      = Ok (with_debug false s1, g1).
Proof.
  split; [lia|]. split; [lia|].
  apply (X13_debug_flag_only_observes 3 2 hourly); lia.
Defined.

(** ** The shape of the simulation *)

Lemma for_each_truck_cursor d pd ss idx g pd' ss' idx' g' :
  Simulation.for_each_truck d pd ss idx g = Ok (pd', ss', idx', g') ->
  (idx < length ss)%nat -> (idx' < length ss')%nat.
Proof.
  revert ss idx g pd' ss' idx' g'.
  induction pd as [|tr rest IH]; intros ss idx g pd' ss' idx' g' H Hidx;
    simpl in H.
  - injection H as _ <- <- _. exact Hidx.
  - destruct (Truck.run tr ss idx g) as [[[[t1 s1] i1] g1]|e] eqn:Er;
      [|discriminate].
    simpl in H.
    destruct (if d then compare_idx_val_to_actual_min s1 i1 else Ok tt);
      [|discriminate].
    simpl in H.
    destruct (Simulation.for_each_truck d rest s1 i1 g1)
      as [[[[r1 s2] i2] g2]|e] eqn:E; [|discriminate].
    simpl in H. injection H as _ <- <- _.
    apply (IH _ _ _ _ _ _ _ E).
    assert (Hlen : length s1 = length ss) by (eapply run_stations_length, Er).
    rewrite Hlen. clear E IH.
    unfold Truck.run in Er.
    destruct (Truck.state tr);
      repeat match type of Er with
             | (if ?b then _ else _) = _ => destruct b
             | match ?o with Some _ => _ | None => _ end = _ => destruct o
             | (let '(_, _) := ?p in _) = _ => destruct p
             end;
      try discriminate; injection Er as _ _ <- _; try exact Hidx.
    rewrite length_insert. apply Nat.mod_upper_bound. lia.
Qed.

Lemma run_sim_shape s g s1 g1 :
  Simulation.run_sim s g = Ok (s1, g1) ->
  length (Simulation.trucks s1) = length (Simulation.trucks s) /\
  length (Simulation.stations s1) = length (Simulation.stations s) /\
  Simulation.debug s1 = Simulation.debug s /\
  Simulation.total_time s1 = Simulation.total_time s /\
  ((Simulation.curr_station_idx s < length (Simulation.stations s))%nat ->
   (Simulation.curr_station_idx s1 < length (Simulation.stations s1))%nat).
Proof.
  unfold Simulation.run_sim. intros H.
  destruct (Simulation.while_sim_time _ s g) as [[s2 g2]|e] eqn:Hw;
    [|discriminate].
  cbn [bind] in H.
  destruct (Simulation.logging_trucks _ _); [|discriminate].
  cbn [bind] in H. injection H as <- <-.
  revert Hw. generalize (Z.to_nat (Simulation.total_time s)) as r.
  intros r. revert s g. induction r as [|r IH]; intros s g Hw.
  - simpl in Hw. injection Hw as <- _. repeat split; auto.
  - cbn [Simulation.while_sim_time] in Hw.
    destruct (Simulation.tick s g) as [[s3 g3]|e] eqn:Et; [|discriminate].
    cbn [bind] in Hw.
    destruct (IH _ _ Hw) as (H1 & H2 & H3 & H4 & H5).
    destruct (tick_trucks_length _ _ _ _ Et) as (Ht1 & Ht2 & Ht3).
    pose proof (tick_stations_length _ _ _ _ Et) as Ht4.
    split; [congruence|]. split; [congruence|]. split; [congruence|].
    split; [congruence|].
    intros Hidx. apply H5.
    unfold Simulation.tick in Et.
    destruct (Simulation.for_each_truck _ _ _ _ _)
      as [[[[p1 ss1] i1] g4]|e] eqn:E; [|discriminate].
    cbn [bind] in Et. injection Et as <- _. simpl. rewrite length_map.
    eapply for_each_truck_cursor; [exact E|exact Hidx].
Qed.

(** X14. [run_sim] keeps the shape of any simulation it is given: a run that
    returns has neither added nor removed a truck or a station, has left the
    debug flag and the horizon as they were, and a cursor that was an index
    of the stations is still one. *)
Theorem X14_run_sim_keeps_shape s g s1 g1 :
  Simulation.run_sim s g = Ok (s1, g1) ->
  length (Simulation.trucks s1) = length (Simulation.trucks s) /\
  length (Simulation.stations s1) = length (Simulation.stations s) /\
  Simulation.debug s1 = Simulation.debug s /\
  Simulation.total_time s1 = Simulation.total_time s /\
  ((Simulation.curr_station_idx s < length (Simulation.stations s))%nat ->
   (Simulation.curr_station_idx s1 < length (Simulation.stations s1))%nat).
Proof. exact (run_sim_shape s g s1 g1). Qed.

Lemma X14_witness :
  Simulation.run_sim
    (fst (Simulation.new 2 3 true hourly)) (snd (Simulation.new 2 3 true hourly))
    = Ok (fst (finished 2 3 true hourly), snd (finished 2 3 true hourly)) /\
  length (Simulation.trucks (fst (finished 2 3 true hourly))) =
    length (Simulation.trucks (fst (Simulation.new 2 3 true hourly))) /\
  length (Simulation.stations (fst (finished 2 3 true hourly))) =
    length (Simulation.stations (fst (Simulation.new 2 3 true hourly))) /\
  Simulation.debug (fst (finished 2 3 true hourly)) =
    Simulation.debug (fst (Simulation.new 2 3 true hourly)) /\
  Simulation.total_time (fst (finished 2 3 true hourly)) =
    Simulation.total_time (fst (Simulation.new 2 3 true hourly)) /\
  ((Simulation.curr_station_idx (fst (Simulation.new 2 3 true hourly)) <
    length (Simulation.stations (fst (Simulation.new 2 3 true hourly))))%nat ->
   (Simulation.curr_station_idx (fst (finished 2 3 true hourly)) <
    length (Simulation.stations (fst (finished 2 3 true hourly))))%nat).
Proof.
  assert (Hrun : Simulation.run_sim
            (fst (Simulation.new 2 3 true hourly))
            (snd (Simulation.new 2 3 true hourly))
          = Ok (fst (finished 2 3 true hourly), snd (finished 2 3 true hourly)))
    by (vm_compute; reflexivity).
  split; [exact Hrun|].
  apply (X14_run_sim_keeps_shape _ _ _ _ Hrun).
Defined.

(** ** The prompts of main.cpp *)

Lemma stoi_cases input :
  (stoi input = Some (decimal input) /\ decimal input <= INT_MAX) \/
  (stoi input = None /\ INT_MAX < decimal input).
Proof.
  unfold stoi. destruct (Z.leb_spec (decimal input) INT_MAX); [left|right];
    split; try reflexivity; assumption.
Qed.

Lemma get_command_line_input_spec stdin :
  match get_command_line_input stdin with
  | Answer v rest =>
      exists skipped input,
        stdin = skipped ++ input :: rest /\
        Forall rejected_count skipped /\
        numeric input = true /\ decimal input = v /\ 1 <= v <= 65535
  | Out_of_range =>
      exists skipped input rest,
        stdin = skipped ++ input :: rest /\
        Forall rejected_count skipped /\
        numeric input = true /\ INT_MAX < decimal input
  | No_more_input => Forall rejected_count stdin
  end.
Proof.
  induction stdin as [|input rest IH]; [constructor|].
  cbn [get_command_line_input].
  assert (Hskip : rejected_count input ->
            match get_command_line_input rest with
            | Answer v rest0 =>
                exists skipped input0,
                  input :: rest = skipped ++ input0 :: rest0 /\
                  Forall rejected_count skipped /\
                  numeric input0 = true /\ decimal input0 = v /\
                  1 <= v <= 65535
            | Out_of_range =>
                exists skipped input0 rest0,
                  input :: rest = skipped ++ input0 :: rest0 /\
                  Forall rejected_count skipped /\
                  numeric input0 = true /\ INT_MAX < decimal input0
            | No_more_input => Forall rejected_count (input :: rest)
            end).
  { intros Hrej. destruct (get_command_line_input rest) as [v rest0| |].
    - destruct IH as (skipped & input0 & -> & Hsk & Hrest).
      exists (input :: skipped), input0.
      split; [reflexivity|]. split; [constructor; assumption|exact Hrest].
    - destruct IH as (skipped & input0 & rest0 & -> & Hsk & Hrest).
      exists (input :: skipped), input0, rest0.
      split; [reflexivity|]. split; [constructor; assumption|exact Hrest].
    - constructor; assumption. }
  destruct (numeric input) eqn:Hnum; [|apply Hskip; left; exact Hnum].
  destruct (stoi_cases input) as [[-> Hle]|[-> Hgt]].
  - destruct (Z.ltb_spec 0 (decimal input)), (Z.ltb_spec (decimal input) 65536);
      cbn [andb]; try (apply Hskip; right; split; [exact Hle|lia]).
    exists [], input. split; [reflexivity|]. split; [constructor|].
    split; [exact Hnum|]. rewrite u16_small by lia. split; [reflexivity|lia].
  - exists [], input, rest. split; [reflexivity|]. split; [constructor|].
    split; assumption.
Qed.

(** X15. The prompt for a count answers with the first line that consists of
    digits only and spells a number from 1 to 65535 (leading zeros allowed),
    every line before it having been rejected; the answer is that number. A
    line of digits that spells a number above 2147483647, met before any
    acceptable line, ends the program through the [std::out_of_range] of
    [std::stoi]; when every line is rejected the prompt never returns. *)
Theorem X15_count_prompt (stdin : list string) :
  match get_command_line_input stdin with
  | Answer v rest =>
      exists skipped input,
        stdin = skipped ++ input :: rest /\
        Forall rejected_count skipped /\
        numeric input = true /\ decimal input = v /\ 1 <= v <= 65535
  | Out_of_range =>
      exists skipped input rest,
        stdin = skipped ++ input :: rest /\
        Forall rejected_count skipped /\
        numeric input = true /\ INT_MAX < decimal input
  | No_more_input => Forall rejected_count stdin
  end.
Proof. exact (get_command_line_input_spec stdin). Qed.

Lemma get_command_line_input_bool_spec stdin :
  match get_command_line_input_bool stdin with
  | Answer b rest =>
      exists skipped input,
        stdin = skipped ++ input :: rest /\
        Forall rejected_flag skipped /\
        numeric input = true /\
        decimal input = (if b then 1 else 0)
  | Out_of_range =>
      exists skipped input rest,
        stdin = skipped ++ input :: rest /\
        Forall rejected_flag skipped /\
        numeric input = true /\ INT_MAX < decimal input
  | No_more_input => Forall rejected_flag stdin
  end.
Proof.
  induction stdin as [|input rest IH]; [constructor|].
  cbn [get_command_line_input_bool].
  assert (Hskip : rejected_flag input ->
            match get_command_line_input_bool rest with
            | Answer b rest0 =>
                exists skipped input0,
                  input :: rest = skipped ++ input0 :: rest0 /\
                  Forall rejected_flag skipped /\
                  numeric input0 = true /\
                  decimal input0 = (if b then 1 else 0)
            | Out_of_range =>
                exists skipped input0 rest0,
                  input :: rest = skipped ++ input0 :: rest0 /\
                  Forall rejected_flag skipped /\
                  numeric input0 = true /\ INT_MAX < decimal input0
            | No_more_input => Forall rejected_flag (input :: rest)
            end).
  { intros Hrej. destruct (get_command_line_input_bool rest) as [v rest0| |].
    - destruct IH as (skipped & input0 & -> & Hsk & Hrest).
      exists (input :: skipped), input0.
      split; [reflexivity|]. split; [constructor; assumption|exact Hrest].
    - destruct IH as (skipped & input0 & rest0 & -> & Hsk & Hrest).
      exists (input :: skipped), input0, rest0.
      split; [reflexivity|]. split; [constructor; assumption|exact Hrest].
    - constructor; assumption. }
  destruct (numeric input) eqn:Hnum; [|apply Hskip; left; exact Hnum].
  destruct (stoi_cases input) as [[-> Hle]|[-> Hgt]].
  - destruct (Z.eqb_spec (decimal input) 1) as [E1|E1].
    + exists [], input. split; [reflexivity|]. split; [constructor|].
      split; assumption.
    + destruct (Z.eqb_spec (decimal input) 0) as [E0|E0].
      * exists [], input. split; [reflexivity|]. split; [constructor|].
        split; assumption.
      * apply Hskip. right. repeat split; assumption.
  - exists [], input, rest. split; [reflexivity|]. split; [constructor|].
    split; assumption.
Qed.

(** X16. The prompt for the debug flag answers with the first line of digits
    that spells 0 or 1 (so 00 and 01 are taken too): false for 0, true for
    1; every line before it has been rejected. As for a count, a number
    above 2147483647 ends the program and an input of rejected lines only
    never gets an answer. *)
Theorem X16_flag_prompt (stdin : list string) :
  match get_command_line_input_bool stdin with
  | Answer b rest =>
      exists skipped input,
        stdin = skipped ++ input :: rest /\
        Forall rejected_flag skipped /\
        numeric input = true /\
        decimal input = (if b then 1 else 0)
  | Out_of_range =>
      exists skipped input rest,
        stdin = skipped ++ input :: rest /\
        Forall rejected_flag skipped /\
        numeric input = true /\ INT_MAX < decimal input
  | No_more_input => Forall rejected_flag stdin
  end.
Proof. exact (get_command_line_input_bool_spec stdin). Qed.

Lemma prompt_to_continue_spec stdin :
  match prompt_to_continue stdin with
  | Answer again rest =>
      exists skipped input,
        stdin = skipped ++ input :: rest /\
        Forall rejected_answer skipped /\
        if again then input = "y"%string \/ input = "Y"%string
        else input = "n"%string \/ input = "N"%string
  | Out_of_range => False
  | No_more_input => Forall rejected_answer stdin
  end.
Proof.
  induction stdin as [|input rest IH]; [constructor|].
  cbn [prompt_to_continue].
  destruct (String.eqb_spec input "y") as [Ey|Ey]; cbn [orb].
  { exists [], input. split; [reflexivity|]. split; [constructor|]. tauto. }
  destruct (String.eqb_spec input "Y") as [EY|EY].
  { exists [], input. split; [reflexivity|]. split; [constructor|]. tauto. }
  destruct (String.eqb_spec input "n") as [En|En]; cbn [orb].
  { exists [], input. split; [reflexivity|]. split; [constructor|]. tauto. }
  destruct (String.eqb_spec input "N") as [EN|EN].
  { exists [], input. split; [reflexivity|]. split; [constructor|]. tauto. }
  assert (Hrej : rejected_answer input) by (repeat split; assumption).
  destruct (prompt_to_continue rest) as [again rest0| |].
  - destruct IH as (skipped & input0 & -> & Hsk & Hrest).
    exists (input :: skipped), input0.
    split; [reflexivity|]. split; [constructor; assumption|exact Hrest].
  - exact IH.
  - constructor; assumption.
Qed.

(** X17. [prompt_to_continue] answers with the first line that is exactly
    y, Y, n or N: true for y and Y, false for n and N; any other line, the
    empty one included, is rejected; it never throws, and with no such line
    in the input it never returns. *)
Theorem X17_continue_prompt (stdin : list string) :
  match prompt_to_continue stdin with
  | Answer again rest =>
      exists skipped input,
        stdin = skipped ++ input :: rest /\
        Forall rejected_answer skipped /\
        if again then input = "y"%string \/ input = "Y"%string
        else input = "n"%string \/ input = "N"%string
  | Out_of_range => False
  | No_more_input => Forall rejected_answer stdin
  end.
Proof. exact (prompt_to_continue_spec stdin). Qed.

(** ** [main] *)

Lemma get_command_line_input_answer stdin v rest :
  get_command_line_input stdin = Answer v rest ->
  1 <= v <= 65535 /\ (length rest < length stdin)%nat.
Proof.
  intros H. pose proof (get_command_line_input_spec stdin) as Hs.
  rewrite H in Hs. destruct Hs as (skipped & input & -> & _ & _ & _ & Hv).
  split; [exact Hv|]. rewrite length_app. simpl. lia.
Qed.

Lemma get_command_line_input_bool_answer stdin b rest :
  get_command_line_input_bool stdin = Answer b rest ->
  (length rest < length stdin)%nat.
Proof.
  intros H. pose proof (get_command_line_input_bool_spec stdin) as Hs.
  rewrite H in Hs. destruct Hs as (skipped & input & -> & _).
  rewrite length_app. simpl. lia.
Qed.

Lemma prompt_to_continue_answer stdin b rest :
  prompt_to_continue stdin = Answer b rest ->
  (length rest < length stdin)%nat.
Proof.
  intros H. pose proof (prompt_to_continue_spec stdin) as Hs.
  rewrite H in Hs. destruct Hs as (skipped & input & -> & _).
  rewrite length_app. simpl. lia.
Qed.

(** A simulation built from two counts the prompts accept runs to the end. *)
Lemma run_sim_complete num_trucks num_stations d g :
  1 <= num_trucks <= 65535 -> 1 <= num_stations <= 65535 ->
  exists s1 g1,
    Simulation.run_sim
      (fst (Simulation.new (Z.to_nat num_trucks) (Z.to_nat num_stations) d g))
      (snd (Simulation.new (Z.to_nat num_trucks) (Z.to_nat num_stations) d g))
      = Ok (s1, g1) /\
    complete_run s1.
Proof.
  intros Ht Hs.
  destruct (run_sim_final (Z.to_nat num_trucks) (Z.to_nat num_stations) d g
              ltac:(lia) ltac:(lia)) as (s1 & g1 & _ & Hrun & HI & _).
  exists s1, g1. split; [exact Hrun|].
  destruct (run_sim_shape _ _ _ _ Hrun) as (_ & _ & _ & Htot & _).
  destruct (new_fields (Z.to_nat num_trucks) (Z.to_nat num_stations) d g)
    as (Htot0 & _).
  pose proof (inv_trucks HI) as Hlen. simpl in Hlen.
  pose proof (inv_stations HI) as Hlen'.
  unfold complete_run. rewrite Hlen, Hlen'.
  split; [congruence|].
  split; [lia|]. split; [lia|]. split; [lia|]. split; [lia|].
  intros truck Hin. pose proof (inv_pending HI) as Hp.
  rewrite Forall_forall in Hp. exact (ok_sum (Hp truck Hin)).
Qed.

Lemma main_loop_safe fuel : forall stdin g runs,
  (length stdin < fuel)%nat -> Forall complete_run runs ->
  match main_loop fuel stdin g runs with
  | Returned code runs' =>
      code = 0 /\ runs' <> [] /\ Forall complete_run runs'
  | Terminated_out_of_range runs' | Prompting_for_ever runs' =>
      Forall complete_run runs'
  | Simulation_failed _ _ | Out_of_fuel => False
  end.
Proof.
  induction fuel as [|fuel IH]; intros stdin g runs Hfuel Hruns; [lia|].
  cbn [main_loop]. unfold prompted.
  destruct (get_command_line_input stdin) as [num_trucks rest1| |] eqn:E1;
    try exact Hruns.
  destruct (get_command_line_input_answer _ _ _ E1) as (Ht & Hl1).
  destruct (get_command_line_input rest1) as [num_stations rest2| |] eqn:E2;
    try exact Hruns.
  destruct (get_command_line_input_answer _ _ _ E2) as (Hs & Hl2).
  destruct (get_command_line_input_bool rest2) as [debug rest3| |] eqn:E3;
    try exact Hruns.
  pose proof (get_command_line_input_bool_answer _ _ _ E3) as Hl3.
  destruct (run_sim_complete num_trucks num_stations debug g Ht Hs)
    as (s1 & g2 & Hrun & Hc).
  destruct (Simulation.new _ _ debug g) as [mining_sim g1].
  cbn [fst snd] in Hrun. rewrite Hrun.
  assert (Hruns1 : Forall complete_run (runs ++ [s1])).
  { apply Forall_app. split; [exact Hruns|]. constructor; [exact Hc|constructor]. }
  destruct (prompt_to_continue rest3) as [again rest4| |] eqn:E4;
    try exact Hruns1.
  pose proof (prompt_to_continue_answer _ _ _ E4) as Hl4.
  destruct again.
  - apply IH; [lia|exact Hruns1].
  - split; [reflexivity|]. split; [|exact Hruns1].
    destruct runs; discriminate.
Qed.

(** X18. Whatever is typed, [main] never fails inside a simulation (a cursor
    out of range, a check of the debug mode) and its loop goes round at most
    once for every four lines read. It ends in one of three ways: it returns,
    and then with 0 and after at least one simulation; [std::stoi] ends it;
    or it prompts for ever on an exhausted input. Every simulation it has run
    by then had 1..65535 trucks and stations and left every truck's ledger
    adding up to the 864 ticks of the horizon. *)
Theorem X18_main_is_safe (stdin : list string) (g : Gen) :
  match main stdin g with
  | Returned code runs =>
      code = 0 /\ runs <> [] /\ Forall complete_run runs
  | Terminated_out_of_range runs | Prompting_for_ever runs =>
      Forall complete_run runs
  | Simulation_failed _ _ | Out_of_fuel => False
  end.
Proof.
  unfold main. apply main_loop_safe; [lia|constructor].
Qed.

Lemma get_command_line_input_accepts input rest :
  numeric input = true -> 1 <= decimal input <= 65535 ->
  get_command_line_input (input :: rest) = Answer (decimal input) rest.
Proof.
  intros Hn Hr. cbn [get_command_line_input]. rewrite Hn. unfold stoi.
  destruct (Z.leb_spec (decimal input) INT_MAX); [|unfold INT_MAX in *; lia].
  destruct (Z.ltb_spec 0 (decimal input)); [|lia].
  destruct (Z.ltb_spec (decimal input) 65536); [|lia].
  cbn [andb]. rewrite u16_small by lia. reflexivity.
Qed.

Lemma get_command_line_input_bool_accepts input rest :
  numeric input = true -> 0 <= decimal input <= 1 ->
  get_command_line_input_bool (input :: rest) =
  Answer (decimal input =? 1) rest.
Proof.
  intros Hn Hr. cbn [get_command_line_input_bool]. rewrite Hn. unfold stoi.
  destruct (Z.leb_spec (decimal input) INT_MAX); [|unfold INT_MAX in *; lia].
  destruct (Z.eqb_spec (decimal input) 1); [reflexivity|].
  destruct (Z.eqb_spec (decimal input) 0); [reflexivity|lia].
Qed.

Lemma main_loop_session fuel t s d rest g runs :
  numeric t = true -> 1 <= decimal t <= 65535 ->
  numeric s = true -> 1 <= decimal s <= 65535 ->
  numeric d = true -> 0 <= decimal d <= 1 ->
  main_loop (S fuel) (t :: s :: d :: "n"%string :: rest) g runs =
  Returned 0
    (runs ++ [fst (finished (Z.to_nat (decimal t)) (Z.to_nat (decimal s))
                     (decimal d =? 1) g)]).
Proof.
  intros Ht Htr Hs Hsr Hd Hdr.
  cbn [main_loop].
  rewrite (get_command_line_input_accepts t _ Ht Htr). cbn [prompted].
  rewrite (get_command_line_input_accepts s _ Hs Hsr). cbn [prompted].
  rewrite (get_command_line_input_bool_accepts d _ Hd Hdr). cbn [prompted].
  destruct (run_sim_complete (decimal t) (decimal s) (decimal d =? 1) g Htr Hsr)
    as (s1 & g2 & Hrun & _).
  unfold finished. rewrite Hrun.
  destruct (Simulation.new _ _ _ g) as [mining_sim g1].
  cbn [fst snd] in Hrun. rewrite Hrun. reflexivity.
Qed.

(** X19. One session at the prompts: a line of digits spelling a number of
    trucks in 1..65535, one spelling a number of stations in 1..65535, one
    spelling 0 or 1 for the debug flag, then n. [main] builds that
    simulation, runs it to the end and returns 0; nothing after the n is
    read. *)
Theorem X19_main_one_session (t s d : string) (rest : list string) (g : Gen) :
  numeric t = true -> 1 <= decimal t <= 65535 ->
  numeric s = true -> 1 <= decimal s <= 65535 ->
  numeric d = true -> 0 <= decimal d <= 1 ->
  main (t :: s :: d :: "n"%string :: rest) g =
  Returned 0
    [fst (finished (Z.to_nat (decimal t)) (Z.to_nat (decimal s))
            (decimal d =? 1) g)] /\
  Simulation.run_sim
    (fst (Simulation.new (Z.to_nat (decimal t)) (Z.to_nat (decimal s))
            (decimal d =? 1) g))
    (snd (Simulation.new (Z.to_nat (decimal t)) (Z.to_nat (decimal s))
            (decimal d =? 1) g))
  = Ok (finished (Z.to_nat (decimal t)) (Z.to_nat (decimal s))
          (decimal d =? 1) g).
Proof.
  intros Ht Htr Hs Hsr Hd Hdr. split.
  - unfold main. cbn [length].
    exact (main_loop_session _ t s d rest g [] Ht Htr Hs Hsr Hd Hdr).
  - destruct (run_sim_complete (decimal t) (decimal s) (decimal d =? 1) g
                Htr Hsr) as (s1 & g2 & Hrun & _).
    unfold finished. rewrite Hrun. reflexivity.
Qed.

Lemma X19_witness :
  numeric "0012" = true /\ 1 <= decimal "0012" <= 65535 /\
  numeric "3" = true /\ 1 <= decimal "3" <= 65535 /\
  numeric "1" = true /\ 0 <= decimal "1" <= 1 /\
  main ["0012"; "3"; "1"; "n"; "7"]%string hourly =
  Returned 0
    [fst (finished (Z.to_nat (decimal "0012")) (Z.to_nat (decimal "3"))
            (decimal "1" =? 1) hourly)] /\
  Simulation.run_sim
    (fst (Simulation.new (Z.to_nat (decimal "0012")) (Z.to_nat (decimal "3"))
            (decimal "1" =? 1) hourly))
    (snd (Simulation.new (Z.to_nat (decimal "0012")) (Z.to_nat (decimal "3"))
            (decimal "1" =? 1) hourly))
  = Ok (finished (Z.to_nat (decimal "0012")) (Z.to_nat (decimal "3"))
          (decimal "1" =? 1) hourly).
Proof.
  assert (H1 : numeric "0012" = true) by reflexivity.
  assert (H2 : 1 <= decimal "0012" <= 65535) by (vm_compute; split; discriminate).
  assert (H3 : numeric "3" = true) by reflexivity.
  assert (H4 : 1 <= decimal "3" <= 65535) by (vm_compute; split; discriminate).
  assert (H5 : numeric "1" = true) by reflexivity.
  assert (H6 : 0 <= decimal "1" <= 1) by (vm_compute; split; discriminate).
  split; [exact H1|]. split; [exact H2|]. split; [exact H3|].
  split; [exact H4|]. split; [exact H5|]. split; [exact H6|].
  exact (X19_main_one_session "0012" "3" "1" ["7"%string] hourly
           H1 H2 H3 H4 H5 H6).
Defined.

(** ** The constructors *)

Lemma make_trucks_draws n : forall g,
  fst (Simulation.make_trucks n g) = map (nth_truck g) (seq 0 n) /\
  snd (Simulation.make_trucks n g) = mkGen (raw g) (pos g + n).
Proof.
  induction n as [|n IH]; intros g.
  - simpl. split; [reflexivity|]. destruct g as [r p]. simpl.
    f_equal. lia.
  - rewrite make_trucks_S. cbn [fst snd].
    destruct (IH (snd (Truck.new g))) as (Htr & Hg). rewrite Htr, Hg.
    split.
    + cbn [seq map]. f_equal.
      * unfold Truck.new, nth_truck.
        pose proof (rmt_range g) as Hr.
        replace (mkGen (raw g) (pos g + 0)) with g
          by (destruct g as [r p]; simpl; f_equal; lia).
        destruct (rmt g) as [t g'] eqn:E. cbn [fst] in *.
        rewrite u16_small by (unfold ONE_HOUR, FIVE_HOUR in Hr; lia).
        reflexivity.
      * rewrite <- seq_shift, map_map. apply map_ext. intros i.
        unfold nth_truck, Truck.new, rmt. cbn [fst snd raw pos].
        replace (S (pos g) + i)%nat with (pos g + S i)%nat by lia.
        reflexivity.
    + unfold Truck.new, rmt. cbn [fst snd raw pos]. f_equal. lia.
Qed.

(** X20. The constructor of [Simulation] draws one mining time for every
    truck, in the order of the fleet, and nothing else from the engine:
    truck [i] starts in Mining with the [i]-th number drawn as its timer,
    between 12 and 60 ticks, an empty ledger and station 0. The stations
    start with an empty queue and no truck unloaded, the cursor at station
    0, the horizon at 864 ticks. *)
Theorem X20_constructor (num_trucks num_stations : nat) (d : bool) (g : Gen) :
  Simulation.trucks (fst (Simulation.new num_trucks num_stations d g)) =
    map (nth_truck g) (seq 0 num_trucks) /\
  Forall (fun tr => Truck.state tr = Mining /\
                    ONE_HOUR <= Truck.timer tr <= FIVE_HOUR /\
                    Truck.get_total_time tr = 0 /\
                    Truck.station_idx tr = 0%nat)
    (Simulation.trucks (fst (Simulation.new num_trucks num_stations d g))) /\
  Simulation.stations (fst (Simulation.new num_trucks num_stations d g)) =
    replicate num_stations (Station.mk 0 0) /\
  Simulation.curr_station_idx
    (fst (Simulation.new num_trucks num_stations d g)) = 0%nat /\
  Simulation.total_time
    (fst (Simulation.new num_trucks num_stations d g)) = MAX_TIME /\
  Simulation.debug (fst (Simulation.new num_trucks num_stations d g)) = d /\
  snd (Simulation.new num_trucks num_stations d g) =
    mkGen (raw g) (pos g + num_trucks).
Proof.
  destruct (make_trucks_draws num_trucks g) as (Htr & Hg).
  unfold Simulation.new.
  destruct (Simulation.make_trucks num_trucks g) as [trs g'].
  cbn [fst snd] in *. subst trs g'.
  cbn [Simulation.trucks Simulation.stations Simulation.curr_station_idx
       Simulation.total_time Simulation.debug].
  split; [reflexivity|]. split.
  - apply Forall_forall. intros tr Hin.
    apply list_elem_of_fmap in Hin. destruct Hin as (i & -> & _).
    unfold nth_truck.
    cbn [Truck.state Truck.timer Truck.get_total_time Truck.total_time
         Truck.station_idx].
    split; [reflexivity|].
    split; [apply rmt_range|]. split; reflexivity.
  - repeat split; reflexivity.
Qed.

(** ** Sessions of [main] *)

Lemma main_loop_fuel fuel : forall fuel' stdin g runs,
  (length stdin < fuel)%nat -> (length stdin < fuel')%nat ->
  main_loop fuel stdin g runs = main_loop fuel' stdin g runs.
Proof.
  induction fuel as [|fuel IH]; intros fuel' stdin g runs Hf Hf'; [lia|].
  destruct fuel' as [|fuel']; [lia|].
  cbn [main_loop]. unfold prompted.
  destruct (get_command_line_input stdin) as [num_trucks rest1| |] eqn:E1;
    try reflexivity.
  destruct (get_command_line_input_answer _ _ _ E1) as (_ & Hl1).
  destruct (get_command_line_input rest1) as [num_stations rest2| |] eqn:E2;
    try reflexivity.
  destruct (get_command_line_input_answer _ _ _ E2) as (_ & Hl2).
  destruct (get_command_line_input_bool rest2) as [debug rest3| |] eqn:E3;
    try reflexivity.
  pose proof (get_command_line_input_bool_answer _ _ _ E3) as Hl3.
  destruct (Simulation.new _ _ debug g) as [mining_sim g1].
  destruct (Simulation.run_sim mining_sim g1) as [[s1 g2]|e]; [|reflexivity].
  destruct (prompt_to_continue rest3) as [again rest4| |] eqn:E4;
    try reflexivity.
  pose proof (prompt_to_continue_answer _ _ _ E4) as Hl4.
  destruct again; [|reflexivity].
  apply IH; lia.
Qed.

Lemma main_loop_after fuel : forall stdin g s runs,
  (length stdin < fuel)%nat ->
  main_loop fuel stdin g (s :: runs) = after s (main_loop fuel stdin g runs).
Proof.
  induction fuel as [|fuel IH]; intros stdin g s runs Hf; [lia|].
  cbn [main_loop]. unfold prompted.
  destruct (get_command_line_input stdin) as [num_trucks rest1| |] eqn:E1;
    try reflexivity.
  destruct (get_command_line_input_answer _ _ _ E1) as (_ & Hl1).
  destruct (get_command_line_input rest1) as [num_stations rest2| |] eqn:E2;
    try reflexivity.
  destruct (get_command_line_input_answer _ _ _ E2) as (_ & Hl2).
  destruct (get_command_line_input_bool rest2) as [debug rest3| |] eqn:E3;
    try reflexivity.
  pose proof (get_command_line_input_bool_answer _ _ _ E3) as Hl3.
  destruct (Simulation.new _ _ debug g) as [mining_sim g1].
  destruct (Simulation.run_sim mining_sim g1) as [[s1 g2]|e]; [|reflexivity].
  destruct (prompt_to_continue rest3) as [again rest4| |] eqn:E4;
    try reflexivity.
  pose proof (prompt_to_continue_answer _ _ _ E4) as Hl4.
  destruct again; [|reflexivity].
  change ((s :: runs) ++ [s1]) with (s :: (runs ++ [s1])).
  apply IH; lia.
Qed.

Lemma main_loop_S fuel stdin g runs :
  main_loop (S fuel) stdin g runs =
  prompted (get_command_line_input stdin) runs (fun num_trucks rest1 =>
  prompted (get_command_line_input rest1) runs (fun num_stations rest2 =>
  prompted (get_command_line_input_bool rest2) runs (fun debug rest3 =>
    let '(mining_sim, g1) :=
      Simulation.new (Z.to_nat num_trucks) (Z.to_nat num_stations) debug g in
    match Simulation.run_sim mining_sim g1 with
    | Raise e => Simulation_failed e runs
    | Ok (s1, g2) =>
        prompted (prompt_to_continue rest3) (runs ++ [s1])
          (fun again rest4 =>
             if again then main_loop fuel rest4 g2 (runs ++ [s1])
             else Returned 0 (runs ++ [s1]))
    end))).
Proof. reflexivity. Qed.

(** X21. Sessions compose: after a session of three accepted lines and a y,
    [main] goes on with the lines that follow exactly as a fresh [main]
    would on them, except that the engine is not seeded again: the next
    simulation draws from where the one before stopped. *)
Theorem X21_main_sessions_compose (t s d : string) (rest : list string)
    (g : Gen) :
  numeric t = true -> 1 <= decimal t <= 65535 ->
  numeric s = true -> 1 <= decimal s <= 65535 ->
  numeric d = true -> 0 <= decimal d <= 1 ->
  main (t :: s :: d :: "y"%string :: rest) g =
  after (fst (finished (Z.to_nat (decimal t)) (Z.to_nat (decimal s))
                (decimal d =? 1) g))
    (main rest
       (snd (finished (Z.to_nat (decimal t)) (Z.to_nat (decimal s))
               (decimal d =? 1) g))).
Proof.
  intros Ht Htr Hs Hsr Hd Hdr.
  unfold main at 1. cbn [length]. rewrite main_loop_S.
  rewrite (get_command_line_input_accepts t _ Ht Htr). cbn [prompted].
  rewrite (get_command_line_input_accepts s _ Hs Hsr). cbn [prompted].
  rewrite (get_command_line_input_bool_accepts d _ Hd Hdr). cbn [prompted].
  destruct (run_sim_complete (decimal t) (decimal s) (decimal d =? 1) g Htr Hsr)
    as (s1 & g2 & Hrun & _).
  unfold finished. rewrite Hrun.
  destruct (Simulation.new _ _ _ g) as [mining_sim g1].
  cbn [fst snd] in Hrun. rewrite Hrun.
  cbn [prompt_to_continue String.eqb Ascii.eqb Bool.eqb orb prompted fst snd
       app].
  rewrite (main_loop_after _ rest g2 s1 []) by lia.
  f_equal. unfold main. apply main_loop_fuel; lia.
Qed.

Lemma X21_witness :
  numeric "2" = true /\ 1 <= decimal "2" <= 65535 /\
  numeric "1" = true /\ 1 <= decimal "1" <= 65535 /\
  numeric "0" = true /\ 0 <= decimal "0" <= 1 /\
  main ["2"; "1"; "0"; "y"; "1"; "1"; "1"; "n"]%string hourly =
  after (fst (finished (Z.to_nat (decimal "2")) (Z.to_nat (decimal "1"))
                (decimal "0" =? 1) hourly))
    (main ["1"; "1"; "1"; "n"]%string
       (snd (finished (Z.to_nat (decimal "2")) (Z.to_nat (decimal "1"))
               (decimal "0" =? 1) hourly))).
Proof.
  assert (H1 : numeric "2" = true) by reflexivity.
  assert (H2 : 1 <= decimal "2" <= 65535) by (vm_compute; split; discriminate).
  assert (H3 : numeric "1" = true) by reflexivity.
  assert (H4 : 1 <= decimal "1" <= 65535) by (vm_compute; split; discriminate).
  assert (H5 : numeric "0" = true) by reflexivity.
  assert (H6 : 0 <= decimal "0" <= 1) by (vm_compute; split; discriminate).
  split; [exact H1|]. split; [exact H2|]. split; [exact H3|].
  split; [exact H4|]. split; [exact H5|]. split; [exact H6|].
  exact (X21_main_sessions_compose "2" "1" "0" ["1"; "1"; "1"; "n"]%string
           hourly H1 H2 H3 H4 H5 H6).
Defined.
